(** * X2TEXT: the tweet collector of [x2text_main.py]

    A shallow embedding of class [TwitterScraper] and of [main], and the
    properties of the fetch / normalise / collect pipeline.

    The raw API objects are duck-typed in the source (attribute probes with
    [hasattr] and [getattr], subscripts, truthiness tests), so they are
    embedded as dynamic Python values; every operation that can raise in
    Python returns a [result] here. *)

From Stdlib Require Import ZArith List String Ascii Bool Lia.
Import ListNotations.

Set Warnings "-register-all".

Local Open Scope string_scope.
Local Open Scope list_scope.

(* ================================================================== *)
(** ** Python values *)
(* ================================================================== *)

(** The values the program handles.  An object is a bag of attributes with
    an identity ([oid]); a [dict] keeps its insertion order; a [datetime]
    is carried by the text its [isoformat()] renders. *)
Inductive pyval : Type :=
| PNone
| PBool (b : bool)
| PInt (n : Z)
| PStr (s : string)
| PDatetime (iso : string)
| PList (items : list pyval)
| PDict (entries : list (pyval * pyval))
| PObj (oid : nat) (attrs : list (string * pyval)).

Definition dict : Type := list (pyval * pyval).

(** The exceptions that occur; [OtherException] stands for any further
    subclass of [Exception] a library call raises.  [SystemExit] (raised by
    [exit]) is the only one that is not an instance of [Exception]. *)
Inductive exn : Type :=
| AttributeError (name : string)
| KeyError (key : pyval)
| TypeError
| JSONDecodeError
| OSError (what : string)
| TooManyRequests
| OtherException (what : string)
| SystemExit (code : Z).

Definition is_Exception (e : exn) : bool :=
  match e with SystemExit _ => false | _ => true end.

Definition is_TooManyRequests (e : exn) : bool :=
  match e with TooManyRequests => true | _ => false end.

Definition is_JSONDecodeError (e : exn) : bool :=
  match e with JSONDecodeError => true | _ => false end.

Inductive result (A : Type) : Type :=
| Ok (a : A)
| Err (e : exn).
Arguments Ok {A} a.
Arguments Err {A} e.

Definition rbind {A B : Type} (m : result A) (k : A -> result B) : result B :=
  match m with
  | Ok a => k a
  | Err e => Err e
  end.

Notation "x <- m ;; k" := (rbind m (fun x => k))
  (at level 61, m at next level, right associativity).

(** [for x in xs: out.append(f(x))], stopping at the first exception. *)
Fixpoint for_each {A B : Type} (f : A -> result B) (xs : list A)
  : result (list B) :=
  match xs with
  | [] => Ok []
  | x :: rest =>
      y <- f x ;;
      ys <- for_each f rest ;;
      Ok (y :: ys)
  end.

(** *** Truthiness, equality of keys, hashing *)

(** [bool(v)]; an object, which defines neither [__bool__] nor [__len__],
    is true. *)
Definition py_truthy (v : pyval) : bool :=
  match v with
  | PNone => false
  | PBool b => b
  | PInt n => negb (n =? 0)%Z
  | PStr s => negb (s =? "")
  | PDatetime _ => true
  | PList l => match l with [] => false | _ => true end
  | PDict d => match d with [] => false | _ => true end
  | PObj _ _ => true
  end.

(** [==] on hashable values: by value on atoms ([True == 1]), by identity
    on objects. *)
Definition key_eqb (a b : pyval) : bool :=
  match a, b with
  | PNone, PNone => true
  | PBool x, PBool y => Bool.eqb x y
  | PBool x, PInt y => (y =? (if x then 1 else 0))%Z
  | PInt y, PBool x => (y =? (if x then 1 else 0))%Z
  | PInt x, PInt y => (x =? y)%Z
  | PStr x, PStr y => (x =? y)
  | PDatetime x, PDatetime y => (x =? y)
  | PObj i _, PObj j _ => Nat.eqb i j
  | _, _ => false
  end.

Definition hashable (v : pyval) : bool :=
  match v with
  | PList _ | PDict _ => false
  | _ => true
  end.

Definition check_hashable (v : pyval) : result unit :=
  if hashable v then Ok tt else Err TypeError.

(** *** Dictionaries (insertion ordered) *)

Fixpoint dict_get (d : dict) (k : pyval) : option pyval :=
  match d with
  | [] => None
  | (k', v) :: rest => if key_eqb k' k then Some v else dict_get rest k
  end.

(** [d[k] = v]: an existing key keeps its place, a new one goes last. *)
Fixpoint dict_set (d : dict) (k v : pyval) : dict :=
  match d with
  | [] => [(k, v)]
  | (k', v') :: rest =>
      if key_eqb k' k then (k', v) :: rest else (k', v') :: dict_set rest k v
  end.

Definition dict_keys (d : dict) : list pyval := map fst d.

(** *** Attributes *)

Fixpoint assoc_str (name : string) (l : list (string * pyval)) : option pyval :=
  match l with
  | [] => None
  | (n, v) :: rest => if (n =? name) then Some v else assoc_str name rest
  end.

(** The attribute [name] of [v], if it has one.  None of the attribute names
    the program reads is an attribute of a built-in value, so only objects
    answer. *)
Definition attr_opt (v : pyval) (name : string) : option pyval :=
  match v with
  | PObj _ attrs => assoc_str name attrs
  | _ => None
  end.

(** [v.name] *)
Definition py_getattr (v : pyval) (name : string) : result pyval :=
  match attr_opt v name with
  | Some x => Ok x
  | None => Err (AttributeError name)
  end.

(** [hasattr(v, name)] *)
Definition py_hasattr (v : pyval) (name : string) : bool :=
  match attr_opt v name with Some _ => true | None => false end.

(** [getattr(v, name, default)] *)
Definition py_getattr_default (v : pyval) (name : string) (default : pyval)
  : pyval :=
  match attr_opt v name with Some x => x | None => default end.

(** [v.isoformat()]: only a datetime has the method. *)
Definition py_isoformat (v : pyval) : result pyval :=
  match v with
  | PDatetime iso => Ok (PStr iso)
  | _ => Err (AttributeError "isoformat")
  end.

(** *** Subscripts, membership, iteration *)

(** [c[key]] for a string literal [key]. *)
Definition py_getitem_str (c : pyval) (key : string) : result pyval :=
  match c with
  | PDict d =>
      match dict_get d (PStr key) with
      | Some v => Ok v
      | None => Err (KeyError (PStr key))
      end
  | _ => Err TypeError
  end.

Definition is_substring (needle hay : string) : bool :=
  match String.index 0 needle hay with Some _ => true | None => false end.

(** [key in c] for a string literal [key]. *)
Definition py_in_str (key : string) (c : pyval) : result bool :=
  match c with
  | PDict d => Ok (existsb (fun k => key_eqb k (PStr key)) (dict_keys d))
  | PList l => Ok (existsb (fun x => key_eqb x (PStr key)) l)
  | PStr s => Ok (is_substring key s)
  | _ => Err TypeError
  end.

(** A [str] is kept as its UTF-8 bytes; a byte [10xxxxxx] continues the
    character begun before it. *)
Definition is_continuation_byte (c : ascii) : bool :=
  match c with
  | Ascii _ _ _ _ _ _ false true => true
  | _ => false
  end.

Definition starts_with_continuation (s : string) : bool :=
  match s with
  | String c _ => is_continuation_byte c
  | EmptyString => false
  end.

(** The characters (code points) of a [str], each with all its bytes. *)
Fixpoint code_points (s : string) : list string :=
  match s with
  | EmptyString => []
  | String c rest =>
      match code_points rest with
      | next :: others =>
          if starts_with_continuation next then String c next :: others
          else String c EmptyString :: next :: others
      | [] => [String c EmptyString]
      end
  end.

Definition chars_of (s : string) : list pyval := map PStr (code_points s).

(** The elements [for x in v] runs through. *)
Definition py_iter (v : pyval) : result (list pyval) :=
  match v with
  | PList l => Ok l
  | PDict d => Ok (dict_keys d)
  | PStr s => Ok (chars_of s)
  | _ => Err TypeError
  end.

(** [[:n]] on a list: a negative bound counts from the end. *)
Definition py_slice_to {A : Type} (l : list A) (n : Z) : list A :=
  if (0 <=? n)%Z then firstn (Z.to_nat n) l
  else firstn (Z.to_nat (Z.of_nat (List.length l) + n)) l.

Definition py_len {A : Type} (l : list A) : Z := Z.of_nat (List.length l).

(* ================================================================== *)
(** ** [TwitterScraper._process_tweets] *)
(* ================================================================== *)

(** [{x.<key_attr>: x for x in items}] *)
Fixpoint dict_comprehension (key_attr : string) (items : list pyval)
  (acc : dict) : result dict :=
  match items with
  | [] => Ok acc
  | x :: rest =>
      k <- py_getattr x key_attr ;;
      _ <- check_hashable k ;;
      dict_comprehension key_attr rest (dict_set acc k x)
  end.

(** One lookup dictionary for included data:
    [tbl = {}; if name in includes: tbl = {x.key_attr: x for x in includes[name]}] *)
Definition side_table (includes : pyval) (name key_attr : string)
  : result dict :=
  present <- py_in_str name includes ;;
  if present then
    xs <- py_getitem_str includes name ;;
    items <- py_iter xs ;;
    dict_comprehension key_attr items []
  else Ok [].

(** The [author_info] dictionary of a found author. *)
Definition author_info_of (author : pyval) : result pyval :=
  id <- py_getattr author "id" ;;
  name <- py_getattr author "name" ;;
  username <- py_getattr author "username" ;;
  description <- py_getattr author "description" ;;
  pm1 <- py_getattr author "public_metrics" ;;
  followers_count <- py_getitem_str pm1 "followers_count" ;;
  pm2 <- py_getattr author "public_metrics" ;;
  following_count <- py_getitem_str pm2 "following_count" ;;
  pm3 <- py_getattr author "public_metrics" ;;
  tweet_count <- py_getitem_str pm3 "tweet_count" ;;
  Ok (PDict
        [ (PStr "id", id);
          (PStr "name", name);
          (PStr "username", username);
          (PStr "description", description);
          (PStr "followers_count", followers_count);
          (PStr "following_count", following_count);
          (PStr "tweet_count", tweet_count);
          (PStr "verified", py_getattr_default author "verified" (PBool false));
          (PStr "profile_image_url",
             py_getattr_default author "profile_image_url" PNone) ]).

(** [author = users.get(tweet.author_id, None)] and the [if author:] block. *)
Definition get_author_info (users : dict) (tweet : pyval) : result pyval :=
  author_id <- py_getattr tweet "author_id" ;;
  _ <- check_hashable author_id ;;
  let author :=
    match dict_get users author_id with Some a => a | None => PNone end in
  if py_truthy author then author_info_of author else Ok PNone.

(** The body of [for media_key in tweet.attachments.media_keys]: the item
    appended for a key found in [media], nothing for the others. *)
Definition media_item_of (media : dict) (media_key : pyval)
  : result (list pyval) :=
  _ <- check_hashable media_key ;;
  match dict_get media media_key with
  | None => Ok []
  | Some m =>
      ty <- py_getattr m "type" ;;
      let media_item : dict :=
        [ (PStr "type", ty);
          (PStr "media_key", media_key);
          (PStr "url", py_getattr_default m "url" PNone);
          (PStr "alt_text", py_getattr_default m "alt_text" PNone) ] in
      match attr_opt m "public_metrics" with
      | Some pm => Ok [PDict (dict_set media_item (PStr "metrics") pm)]
      | None => Ok [PDict media_item]
      end
  end.

(** [media_items]; the two [hasattr] probes are the two matches. *)
Definition get_media_items (media : dict) (tweet : pyval)
  : result (list pyval) :=
  match attr_opt tweet "attachments" with
  | None => Ok []
  | Some attachments =>
      match attr_opt attachments "media_keys" with
      | None => Ok []
      | Some media_keys =>
          keys <- py_iter media_keys ;;
          items <- for_each (media_item_of media) keys ;;
          Ok (List.concat items)
      end
  end.

(** The body of [for ref in tweet.referenced_tweets]. *)
Definition ref_data_of (tweets_lookup : dict) (ref : pyval) : result pyval :=
  ty <- py_getattr ref "type" ;;
  id <- py_getattr ref "id" ;;
  let ref_data : dict := [ (PStr "type", ty); (PStr "id", id) ] in
  id' <- py_getattr ref "id" ;;
  _ <- check_hashable id' ;;
  match dict_get tweets_lookup id' with
  | None => Ok (PDict ref_data)
  | Some ref_tweet =>
      text <- py_getattr ref_tweet "text" ;;
      let ref_data := dict_set ref_data (PStr "text") text in
      created_at <- py_getattr ref_tweet "created_at" ;;
      iso <- py_isoformat created_at ;;
      let ref_data := dict_set ref_data (PStr "created_at") iso in
      match attr_opt ref_tweet "public_metrics" with
      | Some pm => Ok (PDict (dict_set ref_data (PStr "public_metrics") pm))
      | None => Ok (PDict ref_data)
      end
  end.

(** [referenced_tweets] *)
Definition get_referenced_tweets (tweets_lookup : dict) (tweet : pyval)
  : result (list pyval) :=
  match attr_opt tweet "referenced_tweets" with
  | None => Ok []
  | Some refs =>
      if py_truthy refs then
        refs_l <- py_iter refs ;;
        for_each (ref_data_of tweets_lookup) refs_l
      else Ok []
  end.

(** One entity kind: [if hasattr(e, kind) and e.kind: entities[kind] = [f(x) for x in e.kind]] *)
Definition set_entity (tweet_entities : pyval) (kind : string)
  (f : pyval -> result pyval) (entities : dict) : result dict :=
  match attr_opt tweet_entities kind with
  | None => Ok entities
  | Some xs =>
      if py_truthy xs then
        items <- py_iter xs ;;
        ys <- for_each f items ;;
        Ok (dict_set entities (PStr kind) (PList ys))
      else Ok entities
  end.

Definition hashtag_of (tag : pyval) : result pyval :=
  py_getitem_str tag "tag".

Definition mention_of (mention : pyval) : result pyval :=
  username <- py_getitem_str mention "username" ;;
  id <- py_getitem_str mention "id" ;;
  Ok (PDict [ (PStr "username", username); (PStr "id", id) ]).

Definition url_of (url : pyval) : result pyval :=
  u <- py_getitem_str url "url" ;;
  expanded_url <- py_getitem_str url "expanded_url" ;;
  Ok (PDict [ (PStr "url", u); (PStr "expanded_url", expanded_url) ]).

Definition empty_entities : dict :=
  [ (PStr "hashtags", PList []); (PStr "mentions", PList []); (PStr "urls", PList []) ].

(** [entities] *)
Definition get_entities (tweet : pyval) : result dict :=
  let entities := empty_entities in
  match attr_opt tweet "entities" with
  | None => Ok entities
  | Some tweet_entities =>
      entities <- set_entity tweet_entities "hashtags" hashtag_of entities ;;
      entities <- set_entity tweet_entities "mentions" mention_of entities ;;
      set_entity tweet_entities "urls" url_of entities
  end.

Definition or_None (items : list pyval) : pyval :=
  match items with [] => PNone | _ => PList items end.

(** The body of [for tweet in tweets_response.data]: the [tweet_obj] that is
    appended. *)
Definition process_tweet (users media tweets_lookup : dict) (tweet : pyval)
  : result pyval :=
  author_info <- get_author_info users tweet ;;
  media_items <- get_media_items media tweet ;;
  referenced_tweets <- get_referenced_tweets tweets_lookup tweet ;;
  entities <- get_entities tweet ;;
  id <- py_getattr tweet "id" ;;
  text <- py_getattr tweet "text" ;;
  created_at <- py_getattr tweet "created_at" ;;
  iso <- py_isoformat created_at ;;
  Ok (PDict
        [ (PStr "id", id);
          (PStr "text", text);
          (PStr "created_at", iso);
          (PStr "lang", py_getattr_default tweet "lang" PNone);
          (PStr "source", py_getattr_default tweet "source" PNone);
          (PStr "public_metrics", py_getattr_default tweet "public_metrics" PNone);
          (PStr "author", author_info);
          (PStr "media", or_None media_items);
          (PStr "referenced_tweets", or_None referenced_tweets);
          (PStr "entities", PDict entities) ]).

Definition _process_tweets (tweets_response : pyval) : result (list pyval) :=
  data <- py_getattr tweets_response "data" ;;
  if negb (py_truthy data) then Ok []
  else
    includes <- py_getattr tweets_response "includes" ;;
    users <- side_table includes "users" "id" ;;
    media <- side_table includes "media" "media_key" ;;
    tweets_lookup <- side_table includes "tweets" "id" ;;
    tweets <- py_iter data ;;
    for_each (process_tweet users media tweets_lookup) tweets.

(* ================================================================== *)
(** ** Effects: the platform, the trace, the monad *)
(* ================================================================== *)

Inductive level : Type := INFO | WARNING | ERROR.

Inductive logarg : Type :=
| LVal (v : pyval)
| LStr (s : string)
| LExn (e : exn).

(** What the program does to the outside, in order.  A log entry carries the
    f-string of the source and the values it interpolates; a request carries
    the reply it got. *)
Inductive event : Type :=
| EvLog (lvl : level) (fstring : string) (args : list logarg)
| EvSleep (seconds : Z)
| EvNewClient (kwargs : dict)
| EvGetUser (username : string) (reply : result pyval)
| EvGetUsersTweets (id pagination_token : pyval) (reply : result pyval)
| EvWriteJson (path : string) (content : pyval)
| EvMakedirs (path : string).

Definition is_network (ev : event) : bool :=
  match ev with
  | EvGetUser _ _ | EvGetUsersTweets _ _ _ => true
  | _ => false
  end.

Definition is_write (ev : event) : bool :=
  match ev with EvWriteJson _ _ => true | _ => false end.

(** The library and system calls of the program, as transitions of a world
    the program does not define: the file system, the clock, [tweepy]. *)
Record Platform (World : Type) : Type := {
  os_path_exists : World -> string -> bool;
  (** [with open(path, 'r') as f: json.load(f)] *)
  json_load_file : World -> string -> result pyval;
  (** [with open(path, 'w') as f: json.dump(content, f, ...)] *)
  json_dump_file : World -> string -> pyval -> result unit * World;
  os_makedirs : World -> string -> result unit * World;
  (** [datetime.now().strftime("%Y%m%d_%H%M%S")] *)
  strftime_now : World -> string;
  time_sleep : World -> Z -> World;
  (** [tweepy.Client(...)] with its keyword arguments *)
  tweepy_Client : World -> dict -> result unit * World;
  (** [client.get_user(username=...)] *)
  client_get_user : World -> string -> result pyval * World;
  (** [client.get_users_tweets(id=..., pagination_token=..., max_results=100,
      ...)] with the fixed field lists of the source *)
  client_get_users_tweets : World -> pyval -> pyval -> result pyval * World
}.

Arguments os_path_exists {World} _ _ _.
Arguments json_load_file {World} _ _ _.
Arguments json_dump_file {World} _ _ _ _.
Arguments os_makedirs {World} _ _ _.
Arguments strftime_now {World} _ _.
Arguments time_sleep {World} _ _ _.
Arguments tweepy_Client {World} _ _ _.
Arguments client_get_user {World} _ _ _.
Arguments client_get_users_tweets {World} _ _ _ _.

(** A computation: from a world to its result (a value or a raised
    exception), the events it emitted and the world it leaves; [None] when
    the loop budget ran out. *)
Definition M (World A : Type) : Type :=
  World -> option (result A * list event * World).

Definition ret {World A : Type} (a : A) : M World A :=
  fun w => Some (Ok a, [], w).

Definition raise {World A : Type} (e : exn) : M World A :=
  fun w => Some (Err e, [], w).

Definition bind {World A B : Type} (m : M World A) (k : A -> M World B)
  : M World B :=
  fun w =>
    match m w with
    | None => None
    | Some (Err e, t, w') => Some (Err e, t, w')
    | Some (Ok a, t, w') =>
        match k a w' with
        | None => None
        | Some (r, t', w'') => Some (r, t ++ t', w'')
        end
    end.

Notation "x <-- m ;; k" := (bind m (fun x => k))
  (at level 61, m at next level, right associativity).
Notation "m ;;; k" := (bind m (fun _ => k))
  (at level 61, right associativity).

(** Runs [m] and hands its result, raised exception included, to the
    [try] statement around it. *)
Definition attempt {World A : Type} (m : M World A) : M World (result A) :=
  fun w =>
    match m w with
    | None => None
    | Some (r, t, w') => Some (Ok r, t, w')
    end.

Definition out_of_fuel {World A : Type} : M World A := fun _ => None.

Definition emit {World : Type} (ev : event) : M World unit :=
  fun w => Some (Ok tt, [ev], w).

Definition get_world {World : Type} : M World World :=
  fun w => Some (Ok w, [], w).

(** [exit(code)] *)
Definition py_exit {World A : Type} (code : Z) : M World A :=
  raise (SystemExit code).

(** [os.path.join(a, b)] on POSIX. *)
Definition os_path_join (a b : string) : string :=
  match b with
  | String "/" _ => b
  | _ =>
      if (a =? "") then b
      else if String.eqb (substring (String.length a - 1) 1 a) "/"
      then a ++ b else a ++ "/" ++ b
  end.

(* ================================================================== *)
(** ** class [TwitterScraper] *)
(* ================================================================== *)

(** The attributes of [self]; [self.client] lives in the world. *)
Record TwitterScraper : Type := {
  credentials : pyval;
  data_dir : string
}.

(** What one pass through the body of [while True] in [get_user_tweets]
    leaves: a [break], the end of the body, or an exception on its way to
    the [except] clauses, each with the list [all_tweets] as it then is. *)
Inductive loop_ctl : Type :=
| Break (all_tweets : list pyval)
| Continue (all_tweets : list pyval) (pagination_token : pyval)
| Raised (e : exn) (all_tweets : list pyval).

(** The [try] body of the loop after the request returned [tweets], up to
    the courtesy sleep. *)
Definition page_step (max_tweets : Z) (all_tweets : list pyval)
  (tweets : pyval) : loop_ctl :=
  match py_getattr tweets "data" with
  | Err e => Raised e all_tweets
  | Ok data =>
      if negb (py_truthy data) then Break all_tweets
      else
        match _process_tweets tweets with
        | Err e => Raised e all_tweets
        | Ok processed =>
            let all_tweets := all_tweets ++ processed in
            if (py_len all_tweets >=? max_tweets)%Z
            then Break (py_slice_to all_tweets max_tweets)
            else
              match
                (meta <- py_getattr tweets "meta" ;;
                 has_next <- py_in_str "next_token" meta ;;
                 if has_next then
                   meta' <- py_getattr tweets "meta" ;;
                   token <- py_getitem_str meta' "next_token" ;;
                   Ok (Some token)
                 else Ok None)
              with
              | Err e => Raised e all_tweets
              | Ok (Some token) => Continue all_tweets token
              | Ok None => Break all_tweets
              end
        end
  end.

(** The [try] body of [get_user_id] after the request: the id of the user
    found, [None] for the [else] branch. *)
Definition user_id_of_reply (reply : result pyval) : result (option pyval) :=
  user <- reply ;;
  data <- py_getattr user "data" ;;
  if py_truthy data then
    data' <- py_getattr user "data" ;;
    id <- py_getattr data' "id" ;;
    Ok (Some id)
  else Ok None.

Section Scraper.

Context {World : Type} (P : Platform World).

Abbreviation IO := (M World).

Definition lift {A : Type} (r : result A) : IO A :=
  fun w => Some (r, [], w).

Definition log (lvl : level) (fstring : string) (args : list logarg)
  : IO unit :=
  emit (EvLog lvl fstring args).

Definition sleep (seconds : Z) : IO unit :=
  fun w => Some (Ok tt, [EvSleep seconds], time_sleep P w seconds).

Definition dump_json (path : string) (content : pyval) : IO unit :=
  fun w =>
    let '(r, w') := json_dump_file P w path content in
    Some (r, [EvWriteJson path content], w').

Definition load_json (path : string) : IO pyval :=
  fun w => Some (json_load_file P w path, [], w).

Definition makedirs (path : string) : IO unit :=
  fun w =>
    let '(r, w') := os_makedirs P w path in
    Some (r, [EvMakedirs path], w').

Definition new_client (kwargs : dict) : IO unit :=
  fun w =>
    let '(r, w') := tweepy_Client P w kwargs in
    Some (r, [EvNewClient kwargs], w').

Definition get_user (username : string) : IO pyval :=
  fun w =>
    let '(r, w') := client_get_user P w username in
    Some (r, [EvGetUser username r], w').

Definition get_users_tweets (id pagination_token : pyval) : IO pyval :=
  fun w =>
    let '(r, w') := client_get_users_tweets P w id pagination_token in
    Some (r, [EvGetUsersTweets id pagination_token r], w').

Definition now_stamp : IO string :=
  fun w => Some (Ok (strftime_now P w), [], w).

(** *** Credentials *)

Definition sample_credentials : pyval :=
  PDict
    [ (PStr "consumer_key", PStr "YOUR_CONSUMER_KEY");
      (PStr "consumer_secret", PStr "YOUR_CONSUMER_SECRET");
      (PStr "access_token", PStr "YOUR_ACCESS_TOKEN");
      (PStr "access_token_secret", PStr "YOUR_ACCESS_TOKEN_SECRET");
      (PStr "bearer_token", PStr "YOUR_BEARER_TOKEN") ].

Definition _create_sample_credentials (file_path : string) : IO unit :=
  dump_json file_path sample_credentials ;;;
  log INFO "Sample credentials file created at {file_path}" [LStr file_path].

Definition _load_credentials (file_path : string) : IO pyval :=
  r <-- attempt
          (credentials <-- load_json file_path ;;
           consumer_key <-- lift (py_getitem_str credentials "consumer_key") ;;
           if key_eqb consumer_key (PStr "YOUR_CONSUMER_KEY") then
             log ERROR
               "API credentials in {file_path} have not been updated. Please add your actual API credentials."
               [LStr file_path] ;;;
             py_exit 1
           else ret credentials) ;;
  match r with
  | Ok credentials => ret credentials
  | Err e =>
      if is_JSONDecodeError e then
        log ERROR "Invalid JSON in credentials file: {file_path}"
          [LStr file_path] ;;;
        _create_sample_credentials file_path ;;;
        log INFO
          "Please fill in your API credentials in {file_path} and run the program again."
          [LStr file_path] ;;;
        py_exit 1
      else if is_Exception e then
        log ERROR "Error reading credentials: {e}" [LExn e] ;;;
        py_exit 1
      else raise e
  end.

Definition _authenticate (credentials : pyval) : IO unit :=
  r <-- attempt
          (bearer_token <-- lift (py_getitem_str credentials "bearer_token") ;;
           consumer_key <-- lift (py_getitem_str credentials "consumer_key") ;;
           consumer_secret <--
             lift (py_getitem_str credentials "consumer_secret") ;;
           access_token <-- lift (py_getitem_str credentials "access_token") ;;
           access_token_secret <--
             lift (py_getitem_str credentials "access_token_secret") ;;
           new_client
             [ (PStr "bearer_token", bearer_token);
               (PStr "consumer_key", consumer_key);
               (PStr "consumer_secret", consumer_secret);
               (PStr "access_token", access_token);
               (PStr "access_token_secret", access_token_secret);
               (PStr "wait_on_rate_limit", PBool true) ] ;;;
           log INFO "Successfully authenticated with Twitter API" []) ;;
  match r with
  | Ok client => ret client
  | Err e =>
      if is_Exception e then
        log ERROR "Authentication failed: {e}" [LExn e] ;;;
        py_exit 1
      else raise e
  end.

Definition __init__ (credentials_file : string) : IO TwitterScraper :=
  w <-- get_world ;;
  (if negb (os_path_exists P w credentials_file) then
     _create_sample_credentials credentials_file ;;;
     log INFO
       "Please fill in your API credentials in {credentials_file} and run the program again."
       [LStr credentials_file] ;;;
     py_exit 1
   else ret tt) ;;;
  credentials <-- _load_credentials credentials_file ;;
  _authenticate credentials ;;;
  makedirs "twitter_data" ;;;
  ret {| credentials := credentials; data_dir := "twitter_data" |}.

(** *** Fetching *)

Definition get_user_id (username : string) : IO pyval :=
  r <-- attempt (get_user username) ;;
  match user_id_of_reply r with
  | Ok (Some id) => ret id
  | Ok None =>
      log ERROR "User not found: {username}" [LStr username] ;;;
      ret PNone
  | Err e =>
      if is_Exception e then
        log ERROR "Error getting user ID for {username}: {e}"
          [LStr username; LExn e] ;;;
        ret PNone
      else raise e
  end.

(** [while True] of [get_user_tweets], run for at most [fuel] passes. *)
Fixpoint get_user_tweets_loop (fuel : nat) (user_id : pyval)
  (max_tweets : Z) (all_tweets : list pyval) (pagination_token : pyval)
  : IO (list pyval) :=
  match fuel with
  | O => out_of_fuel
  | S fuel' =>
      r <-- attempt (get_users_tweets user_id pagination_token) ;;
      match
        match r with
        | Ok tweets => page_step max_tweets all_tweets tweets
        | Err e => Raised e all_tweets
        end
      with
      | Break all_tweets' => ret all_tweets'
      | Continue all_tweets' pagination_token' =>
          sleep 1 ;;;
          get_user_tweets_loop fuel' user_id max_tweets all_tweets'
            pagination_token'
      | Raised e all_tweets' =>
          if is_TooManyRequests e then
            log WARNING
              "Rate limit hit. Waiting 15 minutes before retrying..." [] ;;;
            sleep (15 * 60) ;;;
            get_user_tweets_loop fuel' user_id max_tweets all_tweets'
              pagination_token
          else if is_Exception e then
            log ERROR "Error fetching tweets: {e}" [LExn e] ;;;
            ret all_tweets'
          else raise e
      end
  end.

Definition get_user_tweets (fuel : nat) (user_id : pyval) (max_tweets : Z)
  : IO (list pyval) :=
  get_user_tweets_loop fuel user_id max_tweets [] PNone.

(** *** Collecting *)

Definition _save_user_data (self : TwitterScraper) (username : string)
  (tweets : list pyval) : IO unit :=
  timestamp <-- now_stamp ;;
  let filename :=
    os_path_join (data_dir self) (username ++ "_" ++ timestamp ++ ".json") in
  dump_json filename (PList tweets) ;;;
  log INFO "Saved {len(tweets)} tweets for {username} to {filename}"
    [LVal (PInt (py_len tweets)); LStr username; LStr filename].

(** The body of [for username in usernames]. *)
Definition follow_user (self : TwitterScraper) (fuel : nat)
  (tweets_per_user : Z) (all_data : dict) (username : string) : IO dict :=
  log INFO "Processing tweets for user: {username}" [LStr username] ;;;
  user_id <-- get_user_id username ;;
  if negb (py_truthy user_id) then
    log WARNING "Could not find user ID for {username}, skipping"
      [LStr username] ;;;
    ret all_data
  else
    tweets <-- get_user_tweets fuel user_id tweets_per_user ;;
    log INFO "Retrieved {len(tweets)} tweets for {username}"
      [LVal (PInt (py_len tweets)); LStr username] ;;;
    match tweets with
    | [] => ret all_data
    | _ :: _ =>
        let all_data := dict_set all_data (PStr username) (PList tweets) in
        _save_user_data self username tweets ;;;
        ret all_data
    end.

Fixpoint follow_users_from (self : TwitterScraper) (fuel : nat)
  (tweets_per_user : Z) (all_data : dict) (usernames : list string)
  : IO dict :=
  match usernames with
  | [] => ret all_data
  | username :: rest =>
      all_data' <-- follow_user self fuel tweets_per_user all_data username ;;
      follow_users_from self fuel tweets_per_user all_data' rest
  end.

Definition follow_users (self : TwitterScraper) (fuel : nat)
  (usernames : list string) (tweets_per_user : Z) : IO dict :=
  follow_users_from self fuel tweets_per_user [] usernames.

Definition main_usernames : list string :=
  [ "elonmusk"; "WhiteHouse"; "realDonaldTrump"; "POTUS"; "SecDef";
    "SecRubio" ].

(** [main], with [usernames] a parameter; the program runs
    [main_with fuel main_usernames]. *)
Definition main_with (fuel : nat) (usernames : list string) : IO unit :=
  scraper <-- __init__ "twitter_credentials.json" ;;
  data <-- follow_users scraper fuel usernames 50 ;;
  timestamp <-- now_stamp ;;
  let combined_file :=
    os_path_join (data_dir scraper) ("all_tweets_" ++ timestamp ++ ".json") in
  dump_json combined_file (PDict data) ;;;
  log INFO "Saved combined data to {combined_file}" [LStr combined_file] ;;;
  log INFO "Execution complete" [].

Definition main (fuel : nat) : IO unit := main_with fuel main_usernames.

End Scraper.

(* ================================================================== *)
(** ** A scripted platform *)
(* ================================================================== *)

(** A world that plays back fixed replies: a small file system, a stopped
    clock, a reply per handle, and the replies of the successive page
    requests ([default_page] once they are used up). *)
Module Scripted.

Record World : Type := {
  files : list (string * result pyval);
  clock : string;
  slept : Z;
  user_replies : list (string * result pyval);
  page_replies : list (result pyval);
  default_page : result pyval
}.

Fixpoint lookup {A : Type} (name : string) (l : list (string * A))
  : option A :=
  match l with
  | [] => None
  | (n, a) :: rest => if (n =? name) then Some a else lookup name rest
  end.

Definition no_user : pyval := PObj 0 [("data", PNone)].

Definition empty_page : pyval :=
  PObj 0 [ ("data", PNone); ("includes", PDict []);
           ("meta", PDict [(PStr "result_count", PInt 0)]) ].

Definition platform : Platform World := {|
  os_path_exists w path :=
    match lookup path (files w) with Some _ => true | None => false end;
  json_load_file w path :=
    match lookup path (files w) with
    | Some r => r
    | None => Err (OSError "No such file or directory")
    end;
  json_dump_file w path content :=
    (Ok tt,
     {| files := (path, Ok content) :: files w; clock := clock w;
        slept := slept w; user_replies := user_replies w;
        page_replies := page_replies w; default_page := default_page w |});
  os_makedirs w path := (Ok tt, w);
  strftime_now w := clock w;
  time_sleep w seconds :=
    {| files := files w; clock := clock w;
       slept := (slept w + seconds)%Z; user_replies := user_replies w;
       page_replies := page_replies w; default_page := default_page w |};
  tweepy_Client w kwargs := (Ok tt, w);
  client_get_user w username :=
    (match lookup username (user_replies w) with
     | Some r => r
     | None => Ok no_user
     end, w);
  client_get_users_tweets w id pagination_token :=
    match page_replies w with
    | [] => (default_page w, w)
    | r :: rest =>
        (r,
         {| files := files w; clock := clock w; slept := slept w;
            user_replies := user_replies w; page_replies := rest;
            default_page := default_page w |})
    end
|}.

(** Builders for raw objects. *)
Definition user_reply (id : Z) : result pyval :=
  Ok (PObj 0 [("data", PObj 0 [("id", PInt id)])]).

(** A raw post with the mandatory fields and an author id only. *)
Definition bare_post (id : Z) (text : string) : pyval :=
  PObj 0 [ ("id", PInt id); ("text", PStr text);
           ("created_at", PDatetime "2025-02-01T12:00:00+00:00");
           ("author_id", PInt 7) ].

Definition page (posts : list pyval) (includes : dict) (meta : dict)
  : pyval :=
  PObj 0 [ ("data", PList posts); ("includes", PDict includes);
           ("meta", PDict meta) ].

Definition real_credentials : pyval :=
  PDict
    [ (PStr "consumer_key", PStr "ck"); (PStr "consumer_secret", PStr "cs");
      (PStr "access_token", PStr "at");
      (PStr "access_token_secret", PStr "ats");
      (PStr "bearer_token", PStr "bt") ].

Definition world0 : World := {|
  files := [("twitter_credentials.json", Ok real_credentials)];
  clock := "20250201_120000";
  slept := 0;
  user_replies := [];
  page_replies := [];
  default_page := Ok empty_page
|}.

End Scripted.

(* ================================================================== *)
(** ** Notions the properties are stated with *)
(* ================================================================== *)

(** The raw posts of a page, in the order the loop of [_process_tweets]
    visits them. *)
Definition raw_posts (tweets_response : pyval) : list pyval :=
  match py_getattr tweets_response "data" with
  | Ok data =>
      if py_truthy data then
        match py_iter data with Ok tweets => tweets | Err _ => [] end
      else []
  | Err _ => []
  end.

(** Whether the raw post has an [entities] object with attribute [kind]. *)
Definition has_entity_kind (tweet : pyval) (kind : string) : bool :=
  match attr_opt tweet "entities" with
  | Some tweet_entities => py_hasattr tweet_entities kind
  | None => false
  end.

(** The shape of the [entities] field of the record made from [tweet]. *)
Definition entities_shape (tweet record : pyval) : Prop :=
  exists fields hashtags mentions urls,
    record = PDict fields /\
    dict_get fields (PStr "entities") =
      Some (PDict [ (PStr "hashtags", PList hashtags);
                    (PStr "mentions", PList mentions);
                    (PStr "urls", PList urls) ]) /\
    (has_entity_kind tweet "hashtags" = false -> hashtags = []) /\
    (has_entity_kind tweet "mentions" = false -> mentions = []) /\
    (has_entity_kind tweet "urls" = false -> urls = []).

(** The Post Record made from [tweet] carries its id, its text and the ISO
    rendering of its timestamp. *)
Definition record_of_post (tweet record : pyval) : Prop :=
  exists fields id text iso,
    record = PDict fields /\
    attr_opt tweet "id" = Some id /\
    attr_opt tweet "text" = Some text /\
    attr_opt tweet "created_at" = Some (PDatetime iso) /\
    dict_get fields (PStr "id") = Some id /\
    dict_get fields (PStr "text") = Some text /\
    dict_get fields (PStr "created_at") = Some (PStr iso).

(** *** Well-formed raw pages *)

Definition has_attr_hashable (v : pyval) (name : string) : bool :=
  match attr_opt v name with Some k => hashable k | None => false end.

Definition attr_is_datetime (v : pyval) (name : string) : bool :=
  match attr_opt v name with Some (PDatetime _) => true | _ => false end.

Definition has_key (key : string) (c : pyval) : bool :=
  match py_getitem_str c key with Ok _ => true | Err _ => false end.

(** The mandatory fields of a raw post: id, text, creation timestamp. *)
Definition has_mandatory_fields (tweet : pyval) : bool :=
  py_hasattr tweet "id" && py_hasattr tweet "text"
  && attr_is_datetime tweet "created_at".

Definition mandatory_fields_present (tweets_response : pyval) : bool :=
  forallb has_mandatory_fields (raw_posts tweets_response).

(** The records of the side tables, with the fields the normaliser reads
    from them without a probe. *)
Definition wf_user (u : pyval) : bool :=
  has_attr_hashable u "id" && py_hasattr u "name" && py_hasattr u "username"
  && py_hasattr u "description"
  && match attr_opt u "public_metrics" with
     | Some pm =>
         has_key "followers_count" pm && has_key "following_count" pm
         && has_key "tweet_count" pm
     | None => false
     end.

Definition wf_media (m : pyval) : bool :=
  has_attr_hashable m "media_key" && py_hasattr m "type".

Definition wf_included_tweet (t : pyval) : bool :=
  has_attr_hashable t "id" && py_hasattr t "text"
  && attr_is_datetime t "created_at".

(** Everything [v] iterates over satisfies [wf]. *)
Definition all_items (wf : pyval -> bool) (v : pyval) : bool :=
  match py_iter v with
  | Ok items => forallb wf items
  | Err _ => false
  end.

(** A side table is absent from [includes], or holds well-formed records. *)
Definition wf_side_table (includes : dict) (name : string)
  (wf : pyval -> bool) : bool :=
  match dict_get includes (PStr name) with
  | None => true
  | Some xs => all_items wf xs
  end.

Definition wf_ref (ref : pyval) : bool :=
  py_hasattr ref "type" && has_attr_hashable ref "id".

(** An entity kind is absent, empty, or holds well-formed items. *)
Definition wf_entity_kind (tweet_entities : pyval) (kind : string)
  (wf : pyval -> bool) : bool :=
  match attr_opt tweet_entities kind with
  | None => true
  | Some xs => if py_truthy xs then all_items wf xs else true
  end.

Definition wf_mention (mention : pyval) : bool :=
  has_key "username" mention && has_key "id" mention.

Definition wf_url (url : pyval) : bool :=
  has_key "url" url && has_key "expanded_url" url.

(** A raw post with its mandatory fields and an author id; [lang], [source],
    [public_metrics], [attachments], [referenced_tweets] and [entities] may
    each be absent, and what is present carries what the normaliser reads. *)
Definition wf_post (tweet : pyval) : bool :=
  has_mandatory_fields tweet
  && has_attr_hashable tweet "author_id"
  && match attr_opt tweet "attachments" with
     | None => true
     | Some attachments =>
         match attr_opt attachments "media_keys" with
         | None => true
         | Some media_keys => all_items hashable media_keys
         end
     end
  && match attr_opt tweet "referenced_tweets" with
     | None => true
     | Some refs => if py_truthy refs then all_items wf_ref refs else true
     end
  && match attr_opt tweet "entities" with
     | None => true
     | Some e =>
         wf_entity_kind e "hashtags" (has_key "tag")
         && wf_entity_kind e "mentions" wf_mention
         && wf_entity_kind e "urls" wf_url
     end.

(** A raw page with a [data] attribute that is empty, or else with an
    [includes] dictionary whose side tables (each possibly absent) and whose
    posts are well formed. *)
Definition wf_page (tweets_response : pyval) : bool :=
  match attr_opt tweets_response "data" with
  | None => false
  | Some data =>
      if py_truthy data then
        match attr_opt tweets_response "includes" with
        | Some (PDict includes) =>
            wf_side_table includes "users" wf_user
            && wf_side_table includes "media" wf_media
            && wf_side_table includes "tweets" wf_included_tweet
            && all_items wf_post data
        | _ => false
        end
      else true
  end.

(** [tweet] without its attribute [name]. *)
Definition without_attr (name : string) (tweet : pyval) : pyval :=
  match tweet with
  | PObj oid attrs =>
      PObj oid (filter (fun p => negb (fst p =? name)) attrs)
  | _ => tweet
  end.

(** The fields of a raw post the normaliser probes before it reads them. *)
Definition optional_post_fields : list string :=
  [ "lang"; "source"; "public_metrics"; "entities"; "attachments";
    "referenced_tweets" ].


(** *** Runs and traces *)

(** The run [o] with the events [t] in front of its trace. *)
Definition with_prefix {World A : Type} (t : list event)
  (o : option (result A * list event * World))
  : option (result A * list event * World) :=
  match o with
  | None => None
  | Some (r, t', w) => Some (r, t ++ t', w)
  end.

(** The Post Records a fetched page contributes to [all_tweets]. *)
Definition page_posts (page : pyval) : list pyval :=
  match _process_tweets page with
  | Ok processed => processed
  | Err _ => []
  end.

(** The posts of the pages a trace fetched, in fetch order. *)
Definition fetched_posts (trace : list event) : list pyval :=
  flat_map (fun ev =>
              match ev with
              | EvGetUsersTweets _ _ (Ok page) => page_posts page
              | _ => []
              end) trace.







(** The events of one rate-limited pass of the fetch loop. *)
Definition rate_limited_pass (user_id pagination_token : pyval)
  : list event :=
  [ EvGetUsersTweets user_id pagination_token (Err TooManyRequests);
    EvLog WARNING "Rate limit hit. Waiting 15 minutes before retrying..." [];
    EvSleep 900 ].


(** The platform reports that the handle does not exist: the reply has no
    user record. *)
Definition reported_missing (reply : result pyval) : bool :=
  match reply with
  | Ok user =>
      match attr_opt user "data" with
      | Some data => negb (py_truthy data)
      | None => false
      end
  | Err _ => false
  end.

(** The per-account file [_save_user_data] writes in world [w]. *)
Definition user_file {World : Type} (P : Platform World)
  (self : TwitterScraper) (username : string) (w : World) : string :=
  os_path_join (data_dir self)
    (username ++ "_" ++ strftime_now P w ++ ".json").

(** Every handle of the mapping holds a non-empty list of records. *)
Definition nonempty_entry (kv : pyval * pyval) : Prop :=
  exists tweets, snd kv = PList tweets /\ tweets <> [].

(** The events of a run ([[]] for a run that did not finish). *)
Definition trace_of {World A : Type}
  (o : option (result A * list event * World)) : list event :=
  match o with
  | Some (_, tr, _) => tr
  | None => []
  end.

(** *** What the platform may be assumed to do *)

(** The exceptions the operations on raw values raise. *)
Definition is_lookup_error (e : exn) : bool :=
  match e with
  | AttributeError _ | KeyError _ | TypeError => true
  | _ => false
  end.

Definition raises_lookup_only {A : Type} (r : result A) : Prop :=
  forall e, r = Err e -> is_lookup_error e = true.

(** The reply to a page request is not the rate-limit signal. *)
Definition not_rate_limited (reply : result pyval) : Prop :=
  match reply with
  | Ok _ => True
  | Err e => is_TooManyRequests e = false
  end.

(** The reply to a page request is a page or an instance of [Exception]. *)
Definition page_or_exception (reply : result pyval) : Prop :=
  match reply with
  | Ok _ => True
  | Err e => is_Exception e = true
  end.

(** The reply to a page request is a page or an instance of [Exception]
    other than the rate-limit signal. *)
Definition calm_reply (reply : result pyval) : Prop :=
  match reply with
  | Ok _ => True
  | Err e => is_Exception e = true /\ is_TooManyRequests e = false
  end.

(** The scripted worlds that hold no other reply. *)
Definition calm_world (w : Scripted.World) : Prop :=
  Forall calm_reply (Scripted.page_replies w)
  /\ calm_reply (Scripted.default_page w).



(** [Inv] holds of the worlds the fetch loop goes through from a world where
    it holds, and there every reply to a page request satisfies [good]. *)
Record platform_invariant {World : Type} (P : Platform World)
  (Inv : World -> Prop) (good : result pyval -> Prop) : Prop := {
  inv_sleep : forall w seconds, Inv w -> Inv (time_sleep P w seconds);
  inv_request :
    forall w id pagination_token r w1,
      Inv w ->
      client_get_users_tweets P w id pagination_token = (r, w1) ->
      Inv w1 /\ good r
}.

(** *** Sample pages *)

Module Samples.

Import Scripted.

Definition stamp : pyval := PDatetime "2025-02-01T12:00:00+00:00".

(** Two posts: one without [entities], one with hashtags only. *)
Definition page_entities : pyval :=
  page
    [ bare_post 1 "plain";
      PObj 0 [ ("id", PInt 2); ("text", PStr "tagged"); ("created_at", stamp);
               ("author_id", PInt 7);
               ("entities",
                PObj 0 [("hashtags",
                         PList [PDict [(PStr "tag", PStr "rocq")]])]) ] ]
    [] [].

(** A post with all of id, text and timestamp that quotes post 99; the
    included copy of post 99 has no timestamp. *)
Definition page_ref_without_timestamp : pyval :=
  page
    [ PObj 0 [ ("id", PInt 1); ("text", PStr "look"); ("created_at", stamp);
               ("author_id", PInt 7);
               ("referenced_tweets",
                PList [PObj 0 [("type", PStr "quoted"); ("id", PInt 99)]]) ] ]
    [ (PStr "tweets",
       PList [PObj 0 [ ("id", PInt 99); ("text", PStr "original");
                       ("created_at", PNone) ]]) ]
    [].

(** A post with all of id, text and timestamp whose author is in the
    included users, without [public_metrics]. *)
Definition page_author_without_metrics : pyval :=
  page
    [ bare_post 1 "hello" ]
    [ (PStr "users",
       PList [PObj 0 [ ("id", PInt 7); ("name", PStr "Ada");
                       ("username", PStr "ada"); ("description", PStr "");
                       ("public_metrics", PNone) ]]) ]
    [].

(** Three posts with nothing but id, text, timestamp and author id, and a
    page without any side table. *)
Definition page_bare : pyval :=
  page [ bare_post 1 "a"; bare_post 2 "b"; bare_post 3 "c" ] [] [].

(** Five posts and a continuation token, then three posts and none. *)
Definition posts1 : list pyval :=
  [ bare_post 1 "a"; bare_post 2 "b"; bare_post 3 "c"; bare_post 4 "d";
    bare_post 5 "e" ].

Definition posts2 : list pyval :=
  [ bare_post 6 "f"; bare_post 7 "g"; bare_post 8 "h" ].

Definition page1 : pyval :=
  page posts1 [] [(PStr "next_token", PStr "T")].

Definition page2 : pyval := page posts2 [] [].

Definition records1 : list pyval := Eval vm_compute in page_posts page1.

Definition records2 : list pyval := Eval vm_compute in page_posts page2.

(** [world0] with the given replies to the page requests. *)
Definition with_pages (replies : list (result pyval))
  (default : result pyval) : World :=
  {| files := files world0; clock := clock world0; slept := 0;
     user_replies := [("alice", user_reply 7); ("bob", user_reply 8)];
     page_replies := replies; default_page := default |}.

Definition world_two_pages : World :=
  with_pages [Ok page1; Ok page2] (Ok empty_page).


(** The platform turns down two requests, then answers. *)
Definition world_throttled_twice : World :=
  with_pages [Err TooManyRequests; Err TooManyRequests; Ok page2]
    (Ok empty_page).

(** The second page request fails. *)
Definition world_breaks_on_page2 : World :=
  with_pages [Ok page1; Err (OtherException "503 Service Unavailable");
              Ok page2]
    (Ok empty_page).

(** The lookup of [alice] fails with an authorisation error. *)
Definition world_unauthorized : World :=
  {| files := files world0; clock := clock world0; slept := 0;
     user_replies :=
       [("alice", Err (OtherException "401 Unauthorized"));
        ("bob", user_reply 8)];
     page_replies := [Ok page2]; default_page := Ok empty_page |}.

(** [alice] exists and has no posts. *)
Definition world_no_posts : World := with_pages [] (Ok empty_page).

(** A credentials file in which only [consumer_key] was filled in. *)
Definition half_filled_credentials : pyval :=
  PDict
    [ (PStr "consumer_key", PStr "ck-3f9a");
      (PStr "consumer_secret", PStr "YOUR_CONSUMER_SECRET");
      (PStr "access_token", PStr "YOUR_ACCESS_TOKEN");
      (PStr "access_token_secret", PStr "YOUR_ACCESS_TOKEN_SECRET");
      (PStr "bearer_token", PStr "YOUR_BEARER_TOKEN") ].

Definition world_with_credentials (credentials : pyval) : World :=
  {| files := [("twitter_credentials.json", Ok credentials)];
     clock := clock world0; slept := 0;
     user_replies := [("alice", user_reply 7)];
     page_replies := [Ok page2]; default_page := Ok empty_page |}.

Definition scraper : TwitterScraper :=
  {| credentials := real_credentials; data_dir := "twitter_data" |}.

End Samples.


(* ================================================================== *)
(** ** Further notions: credentials *)
(* ================================================================== *)

(** The keys [_authenticate] reads from the bundle, in the order it reads
    them. *)
Definition credential_keys : list string :=
  [ "bearer_token"; "consumer_key"; "consumer_secret"; "access_token";
    "access_token_secret" ].

(** Whether an event constructs the API client. *)
Definition is_new_client (ev : event) : bool :=
  match ev with EvNewClient _ => true | _ => false end.

(** The events of a first run without a credentials file. *)
Definition bootstrap_events (credentials_file : string) : list event :=
  [ EvWriteJson credentials_file sample_credentials;
    EvLog INFO "Sample credentials file created at {file_path}"
      [LStr credentials_file];
    EvLog INFO
      "Please fill in your API credentials in {credentials_file} and run the program again."
      [LStr credentials_file] ].

(** The events of the handler for a credentials file that is not JSON. *)
Definition malformed_events (file_path : string) : list event :=
  [ EvLog ERROR "Invalid JSON in credentials file: {file_path}"
      [LStr file_path];
    EvWriteJson file_path sample_credentials;
    EvLog INFO "Sample credentials file created at {file_path}"
      [LStr file_path];
    EvLog INFO
      "Please fill in your API credentials in {file_path} and run the program again."
      [LStr file_path] ].

(** *** Further sample worlds *)

Module Samples2.

(** No credentials file yet. *)
Definition world_without_file : Scripted.World :=
  {| Scripted.files := []; Scripted.clock := "20250201_120000";
     Scripted.slept := 0;
     Scripted.user_replies := [("alice", Scripted.user_reply 7)];
     Scripted.page_replies := [Ok Samples.page2];
     Scripted.default_page := Ok Scripted.empty_page |}.

(** The same world after the sample file was written. *)
Definition world_bootstrapped : Scripted.World :=
  {| Scripted.files := [("twitter_credentials.json", Ok sample_credentials)];
     Scripted.clock := "20250201_120000";
     Scripted.slept := 0;
     Scripted.user_replies := [("alice", Scripted.user_reply 7)];
     Scripted.page_replies := [Ok Samples.page2];
     Scripted.default_page := Ok Scripted.empty_page |}.

(** The credentials file is not JSON. *)
Definition world_malformed_file : Scripted.World :=
  {| Scripted.files := [("twitter_credentials.json", Err JSONDecodeError)];
     Scripted.clock := "20250201_120000";
     Scripted.slept := 0;
     Scripted.user_replies := [("alice", Scripted.user_reply 7)];
     Scripted.page_replies := [Ok Samples.page2];
     Scripted.default_page := Ok Scripted.empty_page |}.

(** A bundle that lacks its bearer token. *)
Definition credentials_without_bearer : pyval :=
  PDict
    [ (PStr "consumer_key", PStr "ck"); (PStr "consumer_secret", PStr "cs");
      (PStr "access_token", PStr "at");
      (PStr "access_token_secret", PStr "ats") ].

End Samples2.

(* ================================================================== *)
(** ** Further notions: the normaliser *)
(* ================================================================== *)

(** The keys of a Post Record, in the order of the dictionary. *)
Definition record_keys : list pyval :=
  map PStr
    [ "id"; "text"; "created_at"; "lang"; "source"; "public_metrics";
      "author"; "media"; "referenced_tweets"; "entities" ].

(** The field [name] of a record. *)
Definition record_field (name : string) (record : pyval) : option pyval :=
  match record with
  | PDict fields => dict_get fields (PStr name)
  | _ => None
  end.

(** A record has the ten keys, and carries the optional scalar fields of
    its raw post, [None] for those the post lacks. *)
Definition record_shape (tweet record : pyval) : Prop :=
  exists fields,
    record = PDict fields /\
    dict_keys fields = record_keys /\
    dict_get fields (PStr "lang")
    = Some (py_getattr_default tweet "lang" PNone) /\
    dict_get fields (PStr "source")
    = Some (py_getattr_default tweet "source" PNone) /\
    dict_get fields (PStr "public_metrics")
    = Some (py_getattr_default tweet "public_metrics" PNone).

(** The last of [items] whose attribute [key_attr] equals [k]. *)
Fixpoint last_with_key (key_attr : string) (k : pyval) (items : list pyval)
  : option pyval :=
  match items with
  | [] => None
  | x :: rest =>
      match last_with_key key_attr k rest with
      | Some y => Some y
      | None =>
          match attr_opt x key_attr with
          | Some kx => if key_eqb kx k then Some x else None
          | None => None
          end
      end
  end.

(** The records of the side table [name] of [includes]. *)
Definition included (includes : dict) (name : string) : list pyval :=
  match dict_get includes (PStr name) with
  | Some xs => match py_iter xs with Ok items => items | Err _ => [] end
  | None => []
  end.

(** The Author Summary made from the user record [u]. *)
Definition author_summary (u info : pyval) : Prop :=
  exists id name username description pm followers following tweets,
    attr_opt u "id" = Some id /\
    attr_opt u "name" = Some name /\
    attr_opt u "username" = Some username /\
    attr_opt u "description" = Some description /\
    attr_opt u "public_metrics" = Some pm /\
    py_getitem_str pm "followers_count" = Ok followers /\
    py_getitem_str pm "following_count" = Ok following /\
    py_getitem_str pm "tweet_count" = Ok tweets /\
    info = PDict
             [ (PStr "id", id);
               (PStr "name", name);
               (PStr "username", username);
               (PStr "description", description);
               (PStr "followers_count", followers);
               (PStr "following_count", following);
               (PStr "tweet_count", tweets);
               (PStr "verified",
                  py_getattr_default u "verified" (PBool false));
               (PStr "profile_image_url",
                  py_getattr_default u "profile_image_url" PNone) ].

(** The author field of the record of [tweet], given the included users. *)
Definition author_resolved (users : list pyval) (tweet record : pyval)
  : Prop :=
  exists author_id,
    attr_opt tweet "author_id" = Some author_id /\
    match last_with_key "id" author_id users with
    | None => record_field "author" record = Some PNone
    | Some u =>
        exists info,
          record_field "author" record = Some info /\ author_summary u info
    end.

(** The media keys of a raw post that attribute access reaches: those of an
    [attachments] object with an attribute [media_keys].  A mapping with a
    key [media_keys] has no attribute of that name and gives none. *)
Definition attached_media_keys (tweet : pyval) : list pyval :=
  match attr_opt tweet "attachments" with
  | Some attachments =>
      match attr_opt attachments "media_keys" with
      | Some media_keys =>
          match py_iter media_keys with Ok keys => keys | Err _ => [] end
      | None => []
      end
  | None => []
  end.

Definition is_some {A : Type} (o : option A) : bool :=
  match o with Some _ => true | None => false end.

(** The media item made for [media_key] from the media record [m]. *)
Definition media_item_for (media_key m item : pyval) : Prop :=
  exists ty fields,
    attr_opt m "type" = Some ty /\
    item = PDict fields /\
    dict_get fields (PStr "type") = Some ty /\
    dict_get fields (PStr "media_key") = Some media_key /\
    dict_get fields (PStr "url") = Some (py_getattr_default m "url" PNone) /\
    dict_get fields (PStr "alt_text")
    = Some (py_getattr_default m "alt_text" PNone) /\
    dict_get fields (PStr "metrics") = attr_opt m "public_metrics".

(** The media field of the record of [tweet]: one item per key of
    [attached_media_keys] that has a record among the included [media], in
    attachment order; [None] when there is none. *)
Definition media_resolved (media : list pyval) (tweet record : pyval)
  : Prop :=
  exists items,
    record_field "media" record = Some (or_None items) /\
    Forall2
      (fun media_key item =>
         exists m,
           last_with_key "media_key" media_key media = Some m /\
           media_item_for media_key m item)
      (filter (fun k => is_some (last_with_key "media_key" k media))
         (attached_media_keys tweet))
      items.

(** The reference entries of a raw post. *)
Definition reference_entries (tweet : pyval) : list pyval :=
  match attr_opt tweet "referenced_tweets" with
  | Some refs =>
      if py_truthy refs then
        match py_iter refs with Ok entries => entries | Err _ => [] end
      else []
  | None => []
  end.

(** The reference record made from the entry [ref], given the included
    posts. *)
Definition reference_record (tweets : list pyval) (ref ref_data : pyval)
  : Prop :=
  exists ty id fields,
    attr_opt ref "type" = Some ty /\
    attr_opt ref "id" = Some id /\
    ref_data = PDict fields /\
    dict_get fields (PStr "type") = Some ty /\
    dict_get fields (PStr "id") = Some id /\
    match last_with_key "id" id tweets with
    | None => dict_keys fields = [PStr "type"; PStr "id"]
    | Some target =>
        exists text iso,
          attr_opt target "text" = Some text /\
          attr_opt target "created_at" = Some (PDatetime iso) /\
          dict_get fields (PStr "text") = Some text /\
          dict_get fields (PStr "created_at") = Some (PStr iso) /\
          dict_get fields (PStr "public_metrics")
          = attr_opt target "public_metrics"
    end.

Definition references_resolved (tweets : list pyval) (tweet record : pyval)
  : Prop :=
  exists refs,
    record_field "referenced_tweets" record = Some (or_None refs) /\
    Forall2 (reference_record tweets) (reference_entries tweet) refs.

(** The items of one entity kind that attribute access reaches: those
    under the attribute [kind] of an [entities] object.  A mapping with a
    key [kind] has no attribute of that name and gives none. *)
Definition kind_items (tweet_entities : pyval) (kind : string) : list pyval :=
  match attr_opt tweet_entities kind with
  | Some xs =>
      if py_truthy xs then
        match py_iter xs with Ok items => items | Err _ => [] end
      else []
  | None => []
  end.

Definition entity_items (tweet : pyval) (kind : string) : list pyval :=
  match attr_opt tweet "entities" with
  | Some tweet_entities => kind_items tweet_entities kind
  | None => []
  end.

(** The entities of the record of [tweet]: the tag of every hashtag of
    [entity_items], the handle and id of every mention, the short and
    expanded form of every URL, each list in the order of the raw post. *)
Definition entities_extracted (tweet record : pyval) : Prop :=
  exists hashtags mentions urls,
    record_field "entities" record
    = Some (PDict [ (PStr "hashtags", PList hashtags);
                    (PStr "mentions", PList mentions);
                    (PStr "urls", PList urls) ]) /\
    Forall2 (fun item tag => py_getitem_str item "tag" = Ok tag)
      (entity_items tweet "hashtags") hashtags /\
    Forall2
      (fun item mention =>
         exists username id,
           py_getitem_str item "username" = Ok username /\
           py_getitem_str item "id" = Ok id /\
           mention = PDict [(PStr "username", username); (PStr "id", id)])
      (entity_items tweet "mentions") mentions /\
    Forall2
      (fun item url =>
         exists short expanded,
           py_getitem_str item "url" = Ok short /\
           py_getitem_str item "expanded_url" = Ok expanded /\
           url = PDict [(PStr "url", short); (PStr "expanded_url", expanded)])
      (entity_items tweet "urls") urls.

(** A page whose post has an author, two attached media keys (one of them
    included), a quoted post that is included, and entities of every
    kind. *)
Definition page_rich : pyval :=
  Scripted.page
    [ PObj 1
        [ ("id", PInt 1); ("text", PStr "hello #rocq @ada https://t.co/x");
          ("created_at", Samples.stamp); ("author_id", PInt 7);
          ("lang", PStr "en");
          ("attachments",
           PObj 2 [("media_keys", PList [PStr "m1"; PStr "m2"])]);
          ("referenced_tweets",
           PList [PObj 3 [("type", PStr "quoted"); ("id", PInt 99)];
                  PObj 4 [("type", PStr "replied_to"); ("id", PInt 55)]]);
          ("entities",
           PObj 5
             [ ("hashtags", PList [PDict [(PStr "tag", PStr "rocq")]]);
               ("mentions",
                PList [PDict [(PStr "username", PStr "ada");
                              (PStr "id", PStr "7")]]);
               ("urls",
                PList [PDict [(PStr "url", PStr "https://t.co/x");
                              (PStr "expanded_url",
                               PStr "https://example.org/x")]]) ]) ] ]
    [ (PStr "users",
       PList [PObj 6 [ ("id", PInt 7); ("name", PStr "Ada");
                       ("username", PStr "ada"); ("description", PStr "");
                       ("public_metrics",
                        PDict [ (PStr "followers_count", PInt 10);
                                (PStr "following_count", PInt 2);
                                (PStr "tweet_count", PInt 3) ]) ]]);
      (PStr "media",
       PList [PObj 7 [ ("media_key", PStr "m1"); ("type", PStr "photo");
                       ("url", PStr "https://img/1") ]]);
      (PStr "tweets",
       PList [PObj 8 [ ("id", PInt 99); ("text", PStr "original");
                       ("created_at", Samples.stamp) ]]) ]
    [].

Definition page_rich_includes : dict :=
  match attr_opt page_rich "includes" with
  | Some (PDict includes) => includes
  | _ => []
  end.

(** The post of [page_rich] with its attachments and entities as mappings,
    the form in which a JSON payload carries them. *)
Definition page_mapped : pyval :=
  Scripted.page
    [ PObj 1
        [ ("id", PInt 1); ("text", PStr "hello #rocq @ada https://t.co/x");
          ("created_at", Samples.stamp); ("author_id", PInt 7);
          ("attachments",
           PDict [(PStr "media_keys", PList [PStr "m1"; PStr "m2"])]);
          ("entities",
           PDict
             [ (PStr "hashtags", PList [PDict [(PStr "tag", PStr "rocq")]]);
               (PStr "mentions",
                PList [PDict [(PStr "username", PStr "ada");
                              (PStr "id", PStr "7")]]);
               (PStr "urls",
                PList [PDict [(PStr "url", PStr "https://t.co/x");
                              (PStr "expanded_url",
                               PStr "https://example.org/x")]]) ]) ] ]
    page_rich_includes
    [].

(* ================================================================== *)
(** ** Further notions: the fetch loop *)
(* ================================================================== *)

(** What a pass of the loop makes of the reply to its request. *)
Definition pass_ctl (max_tweets : Z) (all_tweets : list pyval)
  (reply : result pyval) : loop_ctl :=
  match reply with
  | Ok tweets => page_step max_tweets all_tweets tweets
  | Err e => Raised e all_tweets
  end.

Definition is_page_request (ev : event) : bool :=
  match ev with EvGetUsersTweets _ _ _ => true | _ => false end.

Definition is_sleep (ev : event) : bool :=
  match ev with EvSleep _ => true | _ => false end.

Definition is_log (ev : event) : bool :=
  match ev with EvLog _ _ _ => true | _ => false end.

Definition is_rate_limit_signal (ev : event) : bool :=
  match ev with
  | EvGetUsersTweets _ _ (Err e) => is_TooManyRequests e
  | _ => false
  end.

Definition count (f : event -> bool) (trace : list event) : Z :=
  Z.of_nat (List.length (filter f trace)).

(** The seconds a trace slept. *)
Fixpoint total_sleep (trace : list event) : Z :=
  match trace with
  | [] => 0
  | EvSleep seconds :: rest => seconds + total_sleep rest
  | _ :: rest => total_sleep rest
  end.


(* ================================================================== *)
(** ** Further notions: the collection *)
(* ================================================================== *)

(** The handles a trace looked up, in order. *)
Definition lookups (trace : list event) : list string :=
  flat_map (fun ev =>
              match ev with
              | EvGetUser username _ => [username]
              | _ => []
              end) trace.

(** An entry of the mapping: a configured handle with a list of records
    that the trace wrote to a file. *)
Definition entry_saved (handles : list string) (trace : list event)
  (kv : pyval * pyval) : Prop :=
  exists username tweets path,
    kv = (PStr username, PList tweets) /\
    In username handles /\
    In (EvWriteJson path (PList tweets)) trace.

(** The scripted platform on a disk that refuses every write. *)
Definition read_only_platform : Platform Scripted.World := {|
  os_path_exists := os_path_exists Scripted.platform;
  json_load_file := json_load_file Scripted.platform;
  json_dump_file w path content :=
    (Err (OSError "Read-only file system"), w);
  os_makedirs := os_makedirs Scripted.platform;
  strftime_now := strftime_now Scripted.platform;
  time_sleep := time_sleep Scripted.platform;
  tweepy_Client := tweepy_Client Scripted.platform;
  client_get_user := client_get_user Scripted.platform;
  client_get_users_tweets := client_get_users_tweets Scripted.platform
|}.

(** The events of the collection: requests, waits, log entries and file
    writes. *)
Definition collection_event (ev : event) : bool :=
  is_network ev || is_sleep ev || is_log ev || is_write ev.

(** The events of a construction of the scraper that succeeds. *)
Definition construction_events (kwargs : dict) : list event :=
  [ EvNewClient kwargs;
    EvLog INFO "Successfully authenticated with Twitter API" [];
    EvMakedirs "twitter_data" ].


(* ================================================================== *)
(** ** Facts about the normaliser *)
(* ================================================================== *)

Lemma rbind_Ok {A B : Type} (m : result A) (k : A -> result B) (b : B) :
  rbind m k = Ok b -> exists a, m = Ok a /\ k a = Ok b.
Proof.
  destruct m as [a|e]; simpl; intros H.
  - exists a. split; [reflexivity | exact H].
  - discriminate H.
Qed.

Lemma for_each_Forall2 {A B : Type} (f : A -> result B) (xs : list A) :
  forall ys, for_each f xs = Ok ys -> Forall2 (fun x y => f x = Ok y) xs ys.
Proof.
  induction xs as [|x rest IH]; simpl; intros ys H.
  - injection H as <-. constructor.
  - apply rbind_Ok in H. destruct H as [y [Hy H]].
    apply rbind_Ok in H. destruct H as [ys' [Hys H]].
    injection H as <-. constructor; [exact Hy | apply IH; exact Hys].
Qed.

Lemma for_each_total {A B : Type} (f : A -> result B) (xs : list A) :
  Forall (fun x => exists y, f x = Ok y) xs -> exists ys, for_each f xs = Ok ys.
Proof.
  induction 1 as [|x rest [y Hy] _ [ys Hys]]; simpl.
  - exists []. reflexivity.
  - exists (y :: ys). rewrite Hy. simpl. rewrite Hys. reflexivity.
Qed.

Lemma process_tweets_pointwise (tweets_response : pyval) (out : list pyval) :
  _process_tweets tweets_response = Ok out ->
  exists users media tweets_lookup,
    Forall2 (fun tweet record =>
               process_tweet users media tweets_lookup tweet = Ok record)
            (raw_posts tweets_response) out.
Proof.
  unfold _process_tweets, raw_posts. intros H.
  apply rbind_Ok in H. destruct H as [data [Hdata H]]. rewrite Hdata.
  destruct (py_truthy data); simpl in H.
  - apply rbind_Ok in H. destruct H as [includes [_ H]].
    apply rbind_Ok in H. destruct H as [users [_ H]].
    apply rbind_Ok in H. destruct H as [media [_ H]].
    apply rbind_Ok in H. destruct H as [tweets_lookup [_ H]].
    apply rbind_Ok in H. destruct H as [tweets [Htweets H]].
    rewrite Htweets. exists users, media, tweets_lookup.
    apply for_each_Forall2. exact H.
  - injection H as <-. exists [], [], []. constructor.
Qed.

Lemma set_entity_cases (tweet_entities : pyval) (kind : string)
  (f : pyval -> result pyval) (entities entities' : dict) :
  set_entity tweet_entities kind f entities = Ok entities' ->
  entities' = entities \/
  (py_hasattr tweet_entities kind = true /\
   exists ys, entities' = dict_set entities (PStr kind) (PList ys)).
Proof.
  unfold set_entity, py_hasattr.
  destruct (attr_opt tweet_entities kind) as [xs|].
  - destruct (py_truthy xs).
    + intros H. apply rbind_Ok in H. destruct H as [items [_ H]].
      apply rbind_Ok in H. destruct H as [ys [_ H]].
      injection H as <-. right. split; [reflexivity | exists ys; reflexivity].
    + intros H. injection H as <-. left. reflexivity.
  - intros H. injection H as <-. left. reflexivity.
Qed.

Lemma get_entities_shape (tweet : pyval) (entities : dict) :
  get_entities tweet = Ok entities ->
  exists hashtags mentions urls,
    entities = [ (PStr "hashtags", PList hashtags);
                 (PStr "mentions", PList mentions);
                 (PStr "urls", PList urls) ] /\
    (has_entity_kind tweet "hashtags" = false -> hashtags = []) /\
    (has_entity_kind tweet "mentions" = false -> mentions = []) /\
    (has_entity_kind tweet "urls" = false -> urls = []).
Proof.
  unfold get_entities, has_entity_kind.
  destruct (attr_opt tweet "entities") as [e|].
  - intros H.
    apply rbind_Ok in H. destruct H as [e1 [H1 H]].
    apply rbind_Ok in H. destruct H as [e2 [H2 H3]].
    apply set_entity_cases in H1, H2, H3.
    destruct H1 as [-> | [A1 [hs ->]]];
      destruct H2 as [-> | [A2 [ms ->]]];
      destruct H3 as [-> | [A3 [us ->]]];
      cbn;
      eexists _, _, _; (split; [reflexivity|]);
      repeat split; intros Habs; try reflexivity; congruence.
  - intros H. injection H as <-. exists [], [], [].
    repeat split; reflexivity.
Qed.

Lemma process_tweet_entities (users media tweets_lookup : dict)
  (tweet record : pyval) :
  process_tweet users media tweets_lookup tweet = Ok record ->
  entities_shape tweet record.
Proof.
  unfold process_tweet. intros H.
  apply rbind_Ok in H. destruct H as [author_info [_ H]].
  apply rbind_Ok in H. destruct H as [media_items [_ H]].
  apply rbind_Ok in H. destruct H as [referenced [_ H]].
  apply rbind_Ok in H. destruct H as [entities [Hent H]].
  apply rbind_Ok in H. destruct H as [id [_ H]].
  apply rbind_Ok in H. destruct H as [text [_ H]].
  apply rbind_Ok in H. destruct H as [created_at [_ H]].
  apply rbind_Ok in H. destruct H as [iso [_ H]].
  injection H as <-.
  apply get_entities_shape in Hent.
  destruct Hent as [hs [ms [us [-> [Hh [Hm Hu]]]]]].
  eexists _, hs, ms, us. split; [reflexivity|].
  split; [reflexivity|]. auto.
Qed.

(** C2.  Every Post Record that [_process_tweets] makes has an [entities]
    field, a dictionary with exactly the keys [hashtags], [mentions] and
    [urls] in that order, each holding a list; the list is empty when the raw
    post has no [entities] object or that object lacks the kind. *)
Theorem entities_always_three_keys (tweets_response : pyval)
  (out : list pyval) :
  _process_tweets tweets_response = Ok out ->
  Forall2 entities_shape (raw_posts tweets_response) out.
Proof.
  intros H. apply process_tweets_pointwise in H.
  destruct H as [users [media [tweets_lookup H]]].
  induction H as [|tweet record tweets records Hrec _ IH]; constructor.
  - eapply process_tweet_entities. exact Hrec.
  - exact IH.
Qed.

(** *** Lookup dictionaries *)

Lemma dict_get_set (d : dict) (k v k' x : pyval) :
  dict_get (dict_set d k v) k' = Some x -> x = v \/ dict_get d k' = Some x.
Proof.
  induction d as [|[k0 v0] rest IH]; simpl.
  - destruct (key_eqb k k'); intros H; [injection H as <-; now left | discriminate].
  - destruct (key_eqb k0 k) eqn:E; simpl.
    + destruct (key_eqb k0 k'); intros H; [injection H as <-; now left | now right].
    + destruct (key_eqb k0 k'); intros H; [now right | apply IH; exact H].
Qed.

Lemma dict_get_keys (d : dict) (k : pyval) :
  existsb (fun k' => key_eqb k' k) (dict_keys d) = false <-> dict_get d k = None.
Proof.
  induction d as [|[k0 v0] rest IH]; simpl.
  - split; reflexivity.
  - destruct (key_eqb k0 k); simpl; [split; discriminate | exact IH].
Qed.

Lemma attr_getattr (v : pyval) (name : string) (x : pyval) :
  attr_opt v name = Some x -> py_getattr v name = Ok x.
Proof. unfold py_getattr. intros ->. reflexivity. Qed.

Lemma hasattr_getattr (v : pyval) (name : string) :
  py_hasattr v name = true -> exists x, attr_opt v name = Some x.
Proof.
  unfold py_hasattr. destruct (attr_opt v name) as [x|]; [|discriminate].
  intros _. exists x. reflexivity.
Qed.

Lemma has_attr_hashable_inv (v : pyval) (name : string) :
  has_attr_hashable v name = true ->
  exists k, attr_opt v name = Some k /\ hashable k = true.
Proof.
  unfold has_attr_hashable. destruct (attr_opt v name) as [k|]; [|discriminate].
  intros H. exists k. split; [reflexivity | exact H].
Qed.

Lemma attr_is_datetime_inv (v : pyval) (name : string) :
  attr_is_datetime v name = true ->
  exists iso, attr_opt v name = Some (PDatetime iso).
Proof.
  unfold attr_is_datetime. destruct (attr_opt v name) as [[]|]; try discriminate.
  intros _. eexists. reflexivity.
Qed.

Lemma has_key_inv (key : string) (c : pyval) :
  has_key key c = true -> exists x, py_getitem_str c key = Ok x.
Proof.
  unfold has_key. destruct (py_getitem_str c key) as [x|]; [|discriminate].
  intros _. exists x. reflexivity.
Qed.

Lemma all_items_inv (wf : pyval -> bool) (v : pyval) :
  all_items wf v = true ->
  exists items, py_iter v = Ok items /\ Forall (fun x => wf x = true) items.
Proof.
  unfold all_items. destruct (py_iter v) as [items|]; [|discriminate].
  intros H. exists items. split; [reflexivity|].
  apply Forall_forall. apply forallb_forall. exact H.
Qed.

(** The dictionary a comprehension builds holds only what was in [acc] or in
    [items]. *)
Lemma dict_comprehension_ok (Q : pyval -> Prop) (key_attr : string)
  (items : list pyval) :
  forall acc,
    Forall (fun x => has_attr_hashable x key_attr = true /\ Q x) items ->
    (forall k v, dict_get acc k = Some v -> Q v) ->
    exists d, dict_comprehension key_attr items acc = Ok d /\
              forall k v, dict_get d k = Some v -> Q v.
Proof.
  induction items as [|x rest IH]; simpl; intros acc Hitems Hacc.
  - exists acc. split; [reflexivity | exact Hacc].
  - inversion Hitems as [|? ? [Hx HQ] Hrest]; subst.
    apply has_attr_hashable_inv in Hx. destruct Hx as [k [Hk Hh]].
    rewrite (attr_getattr _ _ _ Hk). simpl.
    unfold check_hashable. rewrite Hh. simpl.
    apply IH; [exact Hrest|].
    intros k' v Hget. apply dict_get_set in Hget.
    destruct Hget as [-> | Hget]; [exact HQ | eapply Hacc; exact Hget].
Qed.

Lemma side_table_absent (includes : dict) (name key_attr : string) :
  dict_get includes (PStr name) = None ->
  side_table (PDict includes) name key_attr = Ok [].
Proof.
  intros H. unfold side_table. simpl.
  apply dict_get_keys in H. rewrite H. reflexivity.
Qed.

Lemma side_table_ok (includes : dict) (name key_attr : string)
  (wf : pyval -> bool) :
  (forall x, wf x = true -> has_attr_hashable x key_attr = true) ->
  wf_side_table includes name wf = true ->
  exists d, side_table (PDict includes) name key_attr = Ok d /\
            forall k v, dict_get d k = Some v -> wf v = true.
Proof.
  intros Hkey. unfold wf_side_table.
  destruct (dict_get includes (PStr name)) as [xs|] eqn:E.
  - intros H. apply all_items_inv in H. destruct H as [items [Hit Hall]].
    unfold side_table. simpl.
    destruct (existsb _ (dict_keys includes)) eqn:Ex.
    + rewrite E. simpl. rewrite Hit. simpl.
      apply dict_comprehension_ok with (Q := fun x => wf x = true).
      * eapply Forall_impl; [|exact Hall]. intros x Hx. split; auto.
      * intros k v Hget. discriminate Hget.
    + apply dict_get_keys in Ex. congruence.
  - intros _. exists []. split; [apply side_table_absent; exact E|].
    intros k v Hget. discriminate Hget.
Qed.

(** *** The parts of a record *)

Lemma author_info_of_ok (author : pyval) :
  wf_user author = true -> exists info, author_info_of author = Ok info.
Proof.
  unfold wf_user. intros H.
  repeat (apply andb_prop in H; destruct H as [H ?]).
  apply has_attr_hashable_inv in H. destruct H as [id [Hid _]].
  repeat match goal with
         | h : py_hasattr _ _ = true |- _ =>
             apply hasattr_getattr in h; destruct h as [? h]
         end.
  destruct (attr_opt author "public_metrics") as [pm|] eqn:Epm; [|discriminate].
  repeat match goal with
         | h : _ && _ = true |- _ => apply andb_prop in h; destruct h
         end.
  repeat match goal with
         | h : has_key _ _ = true |- _ =>
             apply has_key_inv in h; destruct h as [? h]
         end.
  unfold author_info_of.
  repeat match goal with
         | h : attr_opt _ _ = Some _ |- _ =>
             rewrite (attr_getattr _ _ _ h); clear h; simpl
         end.
  repeat match goal with
         | h : py_getitem_str _ _ = Ok _ |- _ => rewrite h; clear h; simpl
         end.
  eexists. reflexivity.
Qed.

Lemma get_author_info_ok (users : dict) (tweet : pyval) :
  (forall k v, dict_get users k = Some v -> wf_user v = true) ->
  has_attr_hashable tweet "author_id" = true ->
  exists info, get_author_info users tweet = Ok info.
Proof.
  intros Husers H. apply has_attr_hashable_inv in H.
  destruct H as [k [Hk Hh]]. unfold get_author_info.
  rewrite (attr_getattr _ _ _ Hk). simpl.
  unfold check_hashable. rewrite Hh. simpl.
  destruct (dict_get users k) as [a|] eqn:E.
  - destruct (py_truthy a); [|eexists; reflexivity].
    apply author_info_of_ok. eapply Husers. exact E.
  - simpl. eexists. reflexivity.
Qed.

Lemma media_item_of_ok (media : dict) (media_key : pyval) :
  (forall k v, dict_get media k = Some v -> wf_media v = true) ->
  hashable media_key = true ->
  exists items, media_item_of media media_key = Ok items.
Proof.
  intros Hmedia Hh. unfold media_item_of, check_hashable. rewrite Hh. simpl.
  destruct (dict_get media media_key) as [m|] eqn:E; [|eexists; reflexivity].
  apply Hmedia in E. unfold wf_media in E.
  apply andb_prop in E. destruct E as [_ Hty].
  apply hasattr_getattr in Hty. destruct Hty as [ty Hty].
  rewrite (attr_getattr _ _ _ Hty). simpl.
  destruct (attr_opt m "public_metrics"); eexists; reflexivity.
Qed.

Lemma ref_data_of_ok (tweets_lookup : dict) (ref : pyval) :
  (forall k v, dict_get tweets_lookup k = Some v -> wf_included_tweet v = true) ->
  wf_ref ref = true ->
  exists ref_data, ref_data_of tweets_lookup ref = Ok ref_data.
Proof.
  intros Hlookup H. unfold wf_ref in H.
  apply andb_prop in H. destruct H as [Hty Hid].
  apply hasattr_getattr in Hty. destruct Hty as [ty Hty].
  apply has_attr_hashable_inv in Hid. destruct Hid as [id [Hid Hh]].
  unfold ref_data_of.
  rewrite (attr_getattr _ _ _ Hty), (attr_getattr _ _ _ Hid). simpl.
  unfold check_hashable. rewrite Hh. simpl.
  destruct (dict_get tweets_lookup id) as [t|] eqn:E; [|eexists; reflexivity].
  apply Hlookup in E. unfold wf_included_tweet in E.
  apply andb_prop in E. destruct E as [E Hdt].
  apply andb_prop in E. destruct E as [_ Htext].
  apply hasattr_getattr in Htext. destruct Htext as [text Htext].
  apply attr_is_datetime_inv in Hdt. destruct Hdt as [iso Hdt].
  rewrite (attr_getattr _ _ _ Htext), (attr_getattr _ _ _ Hdt). simpl.
  destruct (attr_opt t "public_metrics"); eexists; reflexivity.
Qed.

Lemma set_entity_ok (tweet_entities : pyval) (kind : string)
  (f : pyval -> result pyval) (wf : pyval -> bool) (entities : dict) :
  (forall x, wf x = true -> exists y, f x = Ok y) ->
  wf_entity_kind tweet_entities kind wf = true ->
  exists entities', set_entity tweet_entities kind f entities = Ok entities'.
Proof.
  intros Hf. unfold wf_entity_kind, set_entity.
  destruct (attr_opt tweet_entities kind) as [xs|]; [|eexists; reflexivity].
  destruct (py_truthy xs); [|eexists; reflexivity].
  intros H. apply all_items_inv in H. destruct H as [items [Hit Hall]].
  rewrite Hit. simpl.
  destruct (for_each_total f items) as [ys Hys].
  - eapply Forall_impl; [|exact Hall]. exact Hf.
  - rewrite Hys. simpl. eexists. reflexivity.
Qed.

Lemma hashtag_of_ok (tag : pyval) :
  has_key "tag" tag = true -> exists y, hashtag_of tag = Ok y.
Proof. apply has_key_inv. Qed.

Lemma mention_of_ok (mention : pyval) :
  wf_mention mention = true -> exists y, mention_of mention = Ok y.
Proof.
  unfold wf_mention, mention_of. intros H.
  apply andb_prop in H. destruct H as [H1 H2].
  apply has_key_inv in H1, H2. destruct H1 as [a ->], H2 as [b ->].
  simpl. eexists. reflexivity.
Qed.

Lemma url_of_ok (url : pyval) :
  wf_url url = true -> exists y, url_of url = Ok y.
Proof.
  unfold wf_url, url_of. intros H.
  apply andb_prop in H. destruct H as [H1 H2].
  apply has_key_inv in H1, H2. destruct H1 as [a ->], H2 as [b ->].
  simpl. eexists. reflexivity.
Qed.

Lemma process_tweet_ok (users media tweets_lookup : dict) (tweet : pyval) :
  (forall k v, dict_get users k = Some v -> wf_user v = true) ->
  (forall k v, dict_get media k = Some v -> wf_media v = true) ->
  (forall k v, dict_get tweets_lookup k = Some v -> wf_included_tweet v = true) ->
  wf_post tweet = true ->
  exists record, process_tweet users media tweets_lookup tweet = Ok record.
Proof.
  intros Husers Hmedia Hlookup H. unfold wf_post in H.
  apply andb_prop in H. destruct H as [H Hent].
  apply andb_prop in H. destruct H as [H Hrefs].
  apply andb_prop in H. destruct H as [H Hatt].
  apply andb_prop in H. destruct H as [Hmand Hauthor].
  unfold has_mandatory_fields in Hmand.
  apply andb_prop in Hmand. destruct Hmand as [Hmand Hdt].
  apply andb_prop in Hmand. destruct Hmand as [Hid Htext].
  apply hasattr_getattr in Hid, Htext.
  destruct Hid as [id Hid], Htext as [text Htext].
  apply attr_is_datetime_inv in Hdt. destruct Hdt as [iso Hdt].
  unfold process_tweet.
  destruct (get_author_info_ok users tweet Husers Hauthor) as [info ->]. simpl.
  assert (Hm : exists items, get_media_items media tweet = Ok items).
  { unfold get_media_items.
    destruct (attr_opt tweet "attachments") as [a|]; [|eexists; reflexivity].
    destruct (attr_opt a "media_keys") as [ks|]; [|eexists; reflexivity].
    apply all_items_inv in Hatt. destruct Hatt as [keys [-> Hall]]. simpl.
    destruct (for_each_total (media_item_of media) keys) as [items ->].
    - eapply Forall_impl; [|exact Hall].
      intros k Hk. apply media_item_of_ok; assumption.
    - simpl. eexists. reflexivity. }
  destruct Hm as [items ->]. simpl.
  assert (Hr : exists refs, get_referenced_tweets tweets_lookup tweet = Ok refs).
  { unfold get_referenced_tweets.
    destruct (attr_opt tweet "referenced_tweets") as [refs|];
      [|eexists; reflexivity].
    destruct (py_truthy refs); [|eexists; reflexivity].
    apply all_items_inv in Hrefs. destruct Hrefs as [l [-> Hall]]. simpl.
    apply for_each_total. eapply Forall_impl; [|exact Hall].
    intros r Hr. apply ref_data_of_ok; assumption. }
  destruct Hr as [refs ->]. simpl.
  assert (He : exists entities, get_entities tweet = Ok entities).
  { unfold get_entities.
    destruct (attr_opt tweet "entities") as [e|]; [|eexists; reflexivity].
    apply andb_prop in Hent. destruct Hent as [Hent Hu].
    apply andb_prop in Hent. destruct Hent as [Hh Hm].
    destruct (set_entity_ok e "hashtags" hashtag_of _ empty_entities
                hashtag_of_ok Hh) as [e1 ->]. simpl.
    destruct (set_entity_ok e "mentions" mention_of _ e1 mention_of_ok Hm)
      as [e2 ->]. simpl.
    exact (set_entity_ok e "urls" url_of _ e2 url_of_ok Hu). }
  destruct He as [entities ->]. simpl.
  rewrite (attr_getattr _ _ _ Hid), (attr_getattr _ _ _ Htext),
    (attr_getattr _ _ _ Hdt). simpl.
  eexists. reflexivity.
Qed.

(** Normalisation of a well-formed page completes. *)
Lemma wf_page_ok (tweets_response : pyval) :
  wf_page tweets_response = true ->
  exists out, _process_tweets tweets_response = Ok out.
Proof.
  unfold wf_page, _process_tweets.
  destruct (attr_opt tweets_response "data") as [data|] eqn:Edata;
    [|discriminate].
  rewrite (attr_getattr _ _ _ Edata). simpl.
  destruct (py_truthy data); simpl; [|intros _; eexists; reflexivity].
  destruct (attr_opt tweets_response "includes") as [[]|] eqn:Einc;
    try discriminate.
  rewrite (attr_getattr _ _ _ Einc). simpl. intros H.
  apply andb_prop in H. destruct H as [H Hposts].
  apply andb_prop in H. destruct H as [H Htw].
  apply andb_prop in H. destruct H as [Hus Hme].
  destruct (side_table_ok entries "users" "id" wf_user) as [users [-> Husers]];
    [|exact Hus|].
  { intros x Hx. unfold wf_user in Hx.
    repeat (apply andb_prop in Hx; destruct Hx as [Hx _]). exact Hx. }
  destruct (side_table_ok entries "media" "media_key" wf_media)
    as [media [-> Hmedia]]; [|exact Hme|].
  { intros x Hx. unfold wf_media in Hx.
    apply andb_prop in Hx. destruct Hx as [Hx _]. exact Hx. }
  destruct (side_table_ok entries "tweets" "id" wf_included_tweet)
    as [tweets_lookup [-> Hlookup]]; [|exact Htw|].
  { intros x Hx. unfold wf_included_tweet in Hx.
    repeat (apply andb_prop in Hx; destruct Hx as [Hx _]). exact Hx. }
  cbn [rbind].
  apply all_items_inv in Hposts. destruct Hposts as [tweets [-> Hall]].
  cbn [rbind].
  apply for_each_total. eapply Forall_impl; [|exact Hall].
  intros t Ht. apply process_tweet_ok; assumption.
Qed.

Lemma process_tweet_fields (users media tweets_lookup : dict)
  (tweet record : pyval) :
  process_tweet users media tweets_lookup tweet = Ok record ->
  record_of_post tweet record.
Proof.
  unfold process_tweet. intros H.
  apply rbind_Ok in H. destruct H as [author_info [_ H]].
  apply rbind_Ok in H. destruct H as [media_items [_ H]].
  apply rbind_Ok in H. destruct H as [referenced [_ H]].
  apply rbind_Ok in H. destruct H as [entities [_ H]].
  apply rbind_Ok in H. destruct H as [id [Hid H]].
  apply rbind_Ok in H. destruct H as [text [Htext H]].
  apply rbind_Ok in H. destruct H as [created_at [Hca H]].
  apply rbind_Ok in H. destruct H as [iso [Hiso H]].
  injection H as <-.
  unfold py_getattr in Hid, Htext, Hca.
  destruct (attr_opt tweet "id") as [id'|] eqn:Eid; [|discriminate].
  destruct (attr_opt tweet "text") as [text'|] eqn:Etext; [|discriminate].
  destruct (attr_opt tweet "created_at") as [ca|] eqn:Eca; [|discriminate].
  injection Hid as ->. injection Htext as ->. injection Hca as ->.
  destruct created_at as [| | | |stamp| | |]; try discriminate.
  injection Hiso as <-.
  eexists _, id, text, stamp.
  repeat split; first [assumption | reflexivity].
Qed.

(* ================================================================== *)
(** ** Facts about the fetch loop *)
(* ================================================================== *)

Lemma with_prefix_Some {World A : Type} (t : list event)
  (o : option (result A * list event * World)) r tr w :
  with_prefix t o = Some (r, tr, w) ->
  exists tr', o = Some (r, tr', w) /\ tr = t ++ tr'.
Proof.
  destruct o as [[[r0 t0] w0]|]; simpl; intros H; [|discriminate].
  injection H as <- <- <-. exists t0. split; reflexivity.
Qed.



(** What a pass leaves in [all_tweets]: the posts so far and those of the
    page, cut to the cap when the cap is reached. *)
Lemma page_step_spec (max_tweets : Z) (all_tweets : list pyval)
  (page : pyval) :
  let uncut := all_tweets ++ page_posts page in
  match page_step max_tweets all_tweets page with
  | Break all_tweets' =>
      (all_tweets' = uncut /\
       (page_posts page = [] \/ (py_len uncut < max_tweets)%Z))
      \/ ((max_tweets <= py_len uncut)%Z /\
          all_tweets' = py_slice_to uncut max_tweets)
  | Continue all_tweets' _ =>
      all_tweets' = uncut /\ (py_len uncut < max_tweets)%Z
  | Raised _ all_tweets' =>
      all_tweets' = uncut /\
      (page_posts page = [] \/ (py_len uncut < max_tweets)%Z)
  end.
Proof.
  unfold page_step, page_posts.
  destruct (py_getattr page "data") as [data|e] eqn:Edata.
  - destruct (py_truthy data) eqn:Etruthy; simpl.
    + destruct (_process_tweets page) as [processed|e]; simpl.
      * destruct (py_len (all_tweets ++ processed) >=? max_tweets)%Z eqn:Ecap.
        -- right. split; [lia | reflexivity].
        -- assert (py_len (all_tweets ++ processed) < max_tweets)%Z by lia.
           destruct (py_getattr page "meta") as [meta|]; simpl; [|auto].
           destruct (py_in_str "next_token" meta) as [[]|]; simpl; auto.
           destruct (py_getitem_str meta "next_token"); simpl; auto.
      * rewrite app_nil_r. auto.
    + unfold _process_tweets. rewrite Edata. simpl. rewrite Etruthy. simpl.
      rewrite app_nil_r. left. auto.
  - unfold _process_tweets. rewrite Edata. simpl. rewrite app_nil_r. auto.
Qed.

Lemma firstn_all_app {A : Type} (n : nat) (l l' : list A) :
  List.length l <= n -> l' = [] \/ List.length (l ++ l') <= n ->
  firstn n (l ++ l') = l ++ l'.
Proof.
  intros H [-> | H']; apply firstn_all2; [rewrite app_nil_r|]; assumption.
Qed.

Section Loop.

Context {World : Type} (P : Platform World).

(** One pass of [while True], from the reply of the request on. *)
Lemma loop_step (fuel : nat) (user_id : pyval) (max_tweets : Z)
  (all_tweets : list pyval) (pagination_token : pyval) (w w1 : World)
  (r : result pyval) :
  client_get_users_tweets P w user_id pagination_token = (r, w1) ->
  get_user_tweets_loop P (S fuel) user_id max_tweets all_tweets
    pagination_token w
  = let request := EvGetUsersTweets user_id pagination_token r in
    match
      match r with
      | Ok tweets => page_step max_tweets all_tweets tweets
      | Err e => Raised e all_tweets
      end
    with
    | Break all_tweets' => Some (Ok all_tweets', [request], w1)
    | Continue all_tweets' pagination_token' =>
        with_prefix [request; EvSleep 1]
          (get_user_tweets_loop P fuel user_id max_tweets all_tweets'
             pagination_token' (time_sleep P w1 1))
    | Raised e all_tweets' =>
        if is_TooManyRequests e then
          with_prefix
            [ request;
              EvLog WARNING
                "Rate limit hit. Waiting 15 minutes before retrying..." [];
              EvSleep 900 ]
            (get_user_tweets_loop P fuel user_id max_tweets all_tweets'
               pagination_token (time_sleep P w1 900))
        else if is_Exception e then
          Some (Ok all_tweets',
                [request; EvLog ERROR "Error fetching tweets: {e}" [LExn e]],
                w1)
        else Some (Err e, [request], w1)
    end.
Proof.
  intros Hreq. cbn [get_user_tweets_loop].
  unfold bind at 1. unfold attempt, get_users_tweets. rewrite Hreq.
  cbv zeta.
  destruct (match r with
            | Ok tweets => page_step max_tweets all_tweets tweets
            | Err e => Raised e all_tweets
            end) as [a|a t|e a].
  - reflexivity.
  - unfold bind, sleep. simpl.
    destruct (get_user_tweets_loop P fuel user_id max_tweets a t
                (time_sleep P w1 1)) as [[[r0 t0] w0]|]; reflexivity.
  - destruct (is_TooManyRequests e).
    + unfold bind, sleep, log, emit. simpl.
      change (15 * 60)%Z with 900%Z.
      destruct (get_user_tweets_loop P fuel user_id max_tweets a
                  pagination_token (time_sleep P w1 900))
        as [[[r0 t0] w0]|]; reflexivity.
    + destruct (is_Exception e); reflexivity.
Qed.

(** The loop returns the posts it fetched, cut to the cap. *)
Lemma loop_result (fuel : nat) (user_id : pyval) (max_tweets : Z) :
  (0 <= max_tweets)%Z ->
  forall all_tweets pagination_token w res tr w',
    (py_len all_tweets <= max_tweets)%Z ->
    get_user_tweets_loop P fuel user_id max_tweets all_tweets
      pagination_token w = Some (Ok res, tr, w') ->
    res = firstn (Z.to_nat max_tweets) (all_tweets ++ fetched_posts tr).
Proof.
  intros Hcap. unfold py_len.
  induction fuel as [|fuel IH]; intros all tok w res tr w' Hlen Hrun.
  - discriminate Hrun.
  - destruct (client_get_users_tweets P w user_id tok) as [r w1] eqn:Hreq.
    rewrite (loop_step _ _ _ _ _ _ _ _ Hreq) in Hrun. cbv zeta in Hrun.
    assert (Hpage :
      forall ctl,
        match r with
        | Ok tweets => page_step max_tweets all tweets
        | Err e => Raised e all
        end = ctl ->
        let uncut := all ++ fetched_posts [EvGetUsersTweets user_id tok r] in
        match ctl with
        | Break all' =>
            all' = firstn (Z.to_nat max_tweets) uncut
        | Continue all' _ | Raised _ all' =>
            all' = uncut /\ (py_len all' <= max_tweets)%Z
        end).
    { intros ctl <-. simpl. rewrite app_nil_r. destruct r as [page|e].
      - pose proof (page_step_spec max_tweets all page) as Hspec.
        cbv zeta in Hspec. unfold py_len in *.
        destruct (page_step max_tweets all page) as [a|a t|e a].
        + destruct Hspec as [[-> Hs] | [Hs ->]].
          * symmetry. apply firstn_all_app; [lia|].
            destruct Hs as [Hs|Hs]; [left; exact Hs | right; lia].
          * unfold py_slice_to.
            destruct (0 <=? max_tweets)%Z eqn:E; [reflexivity | lia].
        + destruct Hspec as [-> Hs]. split; [reflexivity | lia].
        + destruct Hspec as [-> Hs]. split; [reflexivity|].
          destruct Hs as [-> | Hs]; [rewrite app_nil_r|]; lia.
      - simpl. rewrite app_nil_r. split; [reflexivity | exact Hlen]. }
    specialize (Hpage _ eq_refl). cbv zeta in Hpage.
    simpl fetched_posts in Hpage. rewrite app_nil_r in Hpage.
    destruct (match r with
              | Ok tweets => page_step max_tweets all tweets
              | Err e => Raised e all
              end) as [a|a t|e a].
    + injection Hrun as <- <- <-. simpl. rewrite app_nil_r. exact Hpage.
    + apply with_prefix_Some in Hrun. destruct Hrun as [tr' [Hrun ->]].
      destruct Hpage as [-> Hlen'].
      apply IH in Hrun; [|exact Hlen']. rewrite Hrun.
      simpl. rewrite app_assoc. reflexivity.
    + destruct Hpage as [-> Hlen'].
      destruct (is_TooManyRequests e).
      * apply with_prefix_Some in Hrun. destruct Hrun as [tr' [Hrun ->]].
        apply IH in Hrun; [|exact Hlen']. rewrite Hrun.
        simpl. rewrite app_assoc. reflexivity.
      * destruct (is_Exception e); [|discriminate].
        injection Hrun as <- <- <-. simpl. rewrite !app_nil_r.
        symmetry. apply firstn_all2. unfold py_len in Hlen'. lia.
Qed.

End Loop.

(** *** The cases of a pass *)

Lemma process_tweets_nonempty (page : pyval) (posts : list pyval) :
  _process_tweets page = Ok posts -> posts <> [] ->
  exists data, py_getattr page "data" = Ok data /\ py_truthy data = true.
Proof.
  unfold _process_tweets. intros H Hne.
  apply rbind_Ok in H. destruct H as [data [Hdata H]].
  exists data. split; [exact Hdata|].
  destruct (py_truthy data); [reflexivity|].
  simpl in H. injection H as <-. contradiction.
Qed.

Lemma page_step_cap (max_tweets : Z) (all_tweets : list pyval)
  (page : pyval) (posts : list pyval) :
  _process_tweets page = Ok posts -> posts <> [] ->
  (max_tweets <= py_len (all_tweets ++ posts))%Z ->
  page_step max_tweets all_tweets page
  = Break (py_slice_to (all_tweets ++ posts) max_tweets).
Proof.
  intros Hposts Hne Hcap.
  destruct (process_tweets_nonempty _ _ Hposts Hne) as [data [Hdata Ht]].
  unfold page_step. rewrite Hdata, Ht, Hposts. simpl.
  destruct (py_len (all_tweets ++ posts) >=? max_tweets)%Z eqn:E;
    [reflexivity | lia].
Qed.




(* ================================================================== *)
(** ** Exceptions and termination of the fetch loop *)
(* ================================================================== *)

Lemma rlo_Ok {A : Type} (a : A) : raises_lookup_only (Ok a).
Proof. intros e H. discriminate H. Qed.

Lemma rlo_bind {A B : Type} (m : result A) (k : A -> result B) :
  raises_lookup_only m -> (forall a, raises_lookup_only (k a)) ->
  raises_lookup_only (rbind m k).
Proof.
  intros Hm Hk e. destruct m as [a|e0]; simpl.
  - apply Hk.
  - intros H. injection H as <-. apply Hm. reflexivity.
Qed.

Lemma rlo_getattr (v : pyval) (name : string) :
  raises_lookup_only (py_getattr v name).
Proof.
  unfold py_getattr. intros e. destruct (attr_opt v name); intros H;
    [discriminate | injection H as <-; reflexivity].
Qed.

Lemma rlo_check_hashable (v : pyval) : raises_lookup_only (check_hashable v).
Proof.
  unfold check_hashable. intros e. destruct (hashable v); intros H;
    [discriminate | injection H as <-; reflexivity].
Qed.

Lemma rlo_getitem_str (c : pyval) (key : string) :
  raises_lookup_only (py_getitem_str c key).
Proof.
  unfold py_getitem_str. intros e.
  destruct c; try (intros H; injection H as <-; reflexivity).
  destruct (dict_get entries (PStr key)); intros H;
    [discriminate | injection H as <-; reflexivity].
Qed.

Lemma rlo_in_str (key : string) (c : pyval) :
  raises_lookup_only (py_in_str key c).
Proof.
  unfold py_in_str. intros e.
  destruct c; intros H; try discriminate; injection H as <-; reflexivity.
Qed.

Lemma rlo_iter (v : pyval) : raises_lookup_only (py_iter v).
Proof.
  unfold py_iter. intros e.
  destruct v; intros H; try discriminate; injection H as <-; reflexivity.
Qed.

Lemma rlo_isoformat (v : pyval) : raises_lookup_only (py_isoformat v).
Proof.
  unfold py_isoformat. intros e.
  destruct v; intros H; try discriminate; injection H as <-; reflexivity.
Qed.

Lemma rlo_for_each {A B : Type} (f : A -> result B) (xs : list A) :
  (forall x, raises_lookup_only (f x)) -> raises_lookup_only (for_each f xs).
Proof.
  intros Hf. induction xs as [|x rest IH]; simpl.
  - apply rlo_Ok.
  - apply rlo_bind; [apply Hf|]. intros y.
    apply rlo_bind; [exact IH|]. intros ys. apply rlo_Ok.
Qed.

Create HintDb rlo.

#[local] Hint Resolve rlo_Ok rlo_getattr rlo_check_hashable rlo_getitem_str
  rlo_in_str rlo_iter rlo_isoformat : rlo.

(** Takes a chain of binds, conditionals and matches apart. *)
Ltac rlo_step :=
  match goal with
  | |- raises_lookup_only (rbind _ _) => apply rlo_bind; [|intros ?]
  | |- raises_lookup_only (for_each _ _) => apply rlo_for_each; intros ?
  | |- raises_lookup_only (if ?b then _ else _) => destruct b
  | |- raises_lookup_only (match ?x with _ => _ end) => destruct x
  | |- raises_lookup_only _ => solve [auto with rlo]
  end.

Ltac rlo := repeat rlo_step.

Lemma rlo_dict_comprehension (key_attr : string) (items : list pyval) :
  forall acc, raises_lookup_only (dict_comprehension key_attr items acc).
Proof.
  induction items as [|x rest IH]; intros acc; simpl; rlo.
Qed.

#[local] Hint Resolve rlo_dict_comprehension : rlo.

Lemma rlo_side_table (includes : pyval) (name key_attr : string) :
  raises_lookup_only (side_table includes name key_attr).
Proof. unfold side_table. rlo. Qed.

Lemma rlo_author_info_of (author : pyval) :
  raises_lookup_only (author_info_of author).
Proof. unfold author_info_of. rlo. Qed.

#[local] Hint Resolve rlo_side_table rlo_author_info_of : rlo.

Lemma rlo_get_author_info (users : dict) (tweet : pyval) :
  raises_lookup_only (get_author_info users tweet).
Proof. unfold get_author_info. rlo. Qed.

Lemma rlo_media_item_of (media : dict) (media_key : pyval) :
  raises_lookup_only (media_item_of media media_key).
Proof. unfold media_item_of. rlo. Qed.

#[local] Hint Resolve rlo_get_author_info rlo_media_item_of : rlo.

Lemma rlo_get_media_items (media : dict) (tweet : pyval) :
  raises_lookup_only (get_media_items media tweet).
Proof. unfold get_media_items. rlo. Qed.

Lemma rlo_ref_data_of (tweets_lookup : dict) (ref : pyval) :
  raises_lookup_only (ref_data_of tweets_lookup ref).
Proof. unfold ref_data_of. rlo. Qed.

#[local] Hint Resolve rlo_get_media_items rlo_ref_data_of : rlo.

Lemma rlo_get_referenced_tweets (tweets_lookup : dict) (tweet : pyval) :
  raises_lookup_only (get_referenced_tweets tweets_lookup tweet).
Proof. unfold get_referenced_tweets. rlo. Qed.

Lemma rlo_set_entity (tweet_entities : pyval) (kind : string)
  (f : pyval -> result pyval) (entities : dict) :
  (forall x, raises_lookup_only (f x)) ->
  raises_lookup_only (set_entity tweet_entities kind f entities).
Proof.
  intros Hf. unfold set_entity.
  destruct (attr_opt tweet_entities kind) as [xs|]; [|apply rlo_Ok].
  destruct (py_truthy xs); [|apply rlo_Ok].
  apply rlo_bind; [apply rlo_iter|]. intros items.
  apply rlo_bind; [apply rlo_for_each; exact Hf|]. intros ys. apply rlo_Ok.
Qed.

Lemma rlo_get_entities (tweet : pyval) : raises_lookup_only (get_entities tweet).
Proof.
  unfold get_entities.
  destruct (attr_opt tweet "entities") as [e|]; [|apply rlo_Ok].
  apply rlo_bind.
  { apply rlo_set_entity. intros x. unfold hashtag_of. rlo. }
  intros e1. apply rlo_bind.
  { apply rlo_set_entity. intros x. unfold mention_of. rlo. }
  intros e2. apply rlo_set_entity. intros x. unfold url_of. rlo.
Qed.

#[local] Hint Resolve rlo_get_referenced_tweets rlo_get_entities : rlo.

Lemma rlo_process_tweet (users media tweets_lookup : dict) (tweet : pyval) :
  raises_lookup_only (process_tweet users media tweets_lookup tweet).
Proof. unfold process_tweet. rlo. Qed.

#[local] Hint Resolve rlo_process_tweet : rlo.

Lemma rlo_process_tweets (tweets_response : pyval) :
  raises_lookup_only (_process_tweets tweets_response).
Proof. unfold _process_tweets. rlo. Qed.

(** What the handling of a page raises is an instance of [Exception] and
    not the rate-limit signal. *)
Lemma page_step_raised (max_tweets : Z) (all_tweets all_tweets' : list pyval)
  (page : pyval) (e : exn) :
  page_step max_tweets all_tweets page = Raised e all_tweets' ->
  is_lookup_error e = true.
Proof.
  unfold page_step.
  destruct (py_getattr page "data") as [data|e0] eqn:Edata.
  - destruct (py_truthy data); simpl; [|discriminate].
    destruct (_process_tweets page) as [processed|e1] eqn:Eproc.
    + destruct (py_len (all_tweets ++ processed) >=? max_tweets)%Z;
        [discriminate|].
      match goal with
      | |- match ?m with _ => _ end = _ -> _ => destruct m as [[t|]|e2] eqn:Em
      end; try discriminate.
      intros H. injection H as <- <-.
      revert Em. generalize e2. change (raises_lookup_only
        (meta <- py_getattr page "meta";;
         has_next <- py_in_str "next_token" meta;;
         (if has_next
          then
           meta' <- py_getattr page "meta";;
           token <- py_getitem_str meta' "next_token";; Ok (Some token)
          else Ok None))).
      rlo.
    + intros H. injection H as <- <-.
      apply (rlo_process_tweets page). exact Eproc.
  - intros H. injection H as <- <-. apply (rlo_getattr page "data"). exact Edata.
Qed.

Lemma lookup_error_is_exception (e : exn) :
  is_lookup_error e = true ->
  is_Exception e = true /\ is_TooManyRequests e = false.
Proof. destruct e; simpl; intros H; try discriminate; split; reflexivity. Qed.

Lemma code_points_nonempty (c : ascii) (s : string) :
  code_points (String c s) <> [].
Proof.
  simpl. destruct (code_points s) as [|next others]; [discriminate|].
  destruct (starts_with_continuation next); discriminate.
Qed.

Lemma py_iter_truthy (v : pyval) (items : list pyval) :
  py_truthy v = true -> py_iter v = Ok items -> items <> [].
Proof.
  destruct v; simpl; try discriminate.
  - destruct s as [|c s]; [discriminate|].
    intros _ H. injection H as <-. unfold chars_of.
    pose proof (code_points_nonempty c s) as Hne.
    destruct (code_points (String c s)); [contradiction | discriminate].
  - destruct items0; [discriminate|]. intros _ H. injection H as <-.
    discriminate.
  - destruct entries; [discriminate|]. intros _ H. injection H as <-.
    discriminate.
Qed.

(** A page with posts yields records. *)
Lemma process_tweets_truthy (page data : pyval) (processed : list pyval) :
  py_getattr page "data" = Ok data -> py_truthy data = true ->
  _process_tweets page = Ok processed -> processed <> [].
Proof.
  intros Hdata Htruthy H. unfold _process_tweets in H.
  rewrite Hdata in H. simpl in H. rewrite Htruthy in H. simpl in H.
  apply rbind_Ok in H. destruct H as [includes [_ H]].
  apply rbind_Ok in H. destruct H as [users [_ H]].
  apply rbind_Ok in H. destruct H as [media [_ H]].
  apply rbind_Ok in H. destruct H as [tweets_lookup [_ H]].
  apply rbind_Ok in H. destruct H as [tweets [Htweets H]].
  apply for_each_Forall2 in H.
  pose proof (py_iter_truthy _ _ Htruthy Htweets) as Hne.
  destruct H; [contradiction | discriminate].
Qed.

(** A pass that goes on has added at least one post and stays below the
    cap. *)
Lemma page_step_continue_grows (max_tweets : Z)
  (all_tweets all_tweets' : list pyval) (page token : pyval) :
  page_step max_tweets all_tweets page = Continue all_tweets' token ->
  (py_len all_tweets < py_len all_tweets' < max_tweets)%Z.
Proof.
  intros Hstep.
  pose proof (page_step_spec max_tweets all_tweets page) as Hspec.
  cbv zeta in Hspec. rewrite Hstep in Hspec. destruct Hspec as [-> Hcap].
  split; [|exact Hcap].
  unfold page_step in Hstep.
  destruct (py_getattr page "data") as [data|] eqn:Hdata; [|discriminate].
  destruct (py_truthy data) eqn:Htruthy; simpl in Hstep; [|discriminate].
  unfold page_posts.
  destruct (_process_tweets page) as [processed|] eqn:Hproc; [|discriminate].
  pose proof (process_tweets_truthy _ _ _ Hdata Htruthy Hproc) as Hne.
  unfold py_len. rewrite length_app.
  destruct processed; [contradiction | simpl; lia].
Qed.

Section LoopRuns.

Context {World : Type} (P : Platform World) (Inv : World -> Prop).

(** With replies that are pages or instances of [Exception], the fetch loop
    raises nothing. *)
Lemma loop_never_raises (user_id : pyval) (max_tweets : Z) :
  platform_invariant P Inv page_or_exception ->
  forall fuel all_tweets pagination_token w r tr w',
    Inv w ->
    get_user_tweets_loop P fuel user_id max_tweets all_tweets
      pagination_token w = Some (r, tr, w') ->
    exists res, r = Ok res.
Proof.
  intros [Hsleep Hrequest].
  induction fuel as [|fuel IH]; intros all tok w r tr w' Hinv Hrun.
  - discriminate Hrun.
  - destruct (client_get_users_tweets P w user_id tok) as [r0 w1] eqn:Hreq.
    destruct (Hrequest _ _ _ _ _ Hinv Hreq) as [Hinv1 Hgood].
    rewrite (loop_step P _ _ _ _ _ _ _ _ Hreq) in Hrun. cbv zeta in Hrun.
    destruct (match r0 with
              | Ok tweets => page_step max_tweets all tweets
              | Err e => Raised e all
              end) as [a|a t|e a] eqn:Hctl.
    + injection Hrun as <- <- <-. eexists. reflexivity.
    + apply with_prefix_Some in Hrun. destruct Hrun as [tr' [Hrun _]].
      eapply IH; [|exact Hrun]. apply Hsleep. exact Hinv1.
    + destruct (is_TooManyRequests e).
      * apply with_prefix_Some in Hrun. destruct Hrun as [tr' [Hrun _]].
        eapply IH; [|exact Hrun]. apply Hsleep. exact Hinv1.
      * assert (He : is_Exception e = true).
        { destruct r0 as [page|e0].
          - apply page_step_raised in Hctl.
            apply lookup_error_is_exception in Hctl. apply Hctl.
          - injection Hctl as <- <-. exact Hgood. }
        rewrite He in Hrun. injection Hrun as <- <- <-.
        eexists. reflexivity.
Qed.

(** Without rate-limit signals the fetch loop returns within as many passes
    as the cap leaves room for posts, and one more. *)
Lemma loop_terminates (user_id : pyval) (max_tweets : Z) :
  platform_invariant P Inv not_rate_limited ->
  forall fuel all_tweets pagination_token w,
    Inv w ->
    (max_tweets - py_len all_tweets < Z.of_nat fuel)%Z ->
    (0 < fuel)%nat ->
    exists r tr w',
      get_user_tweets_loop P fuel user_id max_tweets all_tweets
        pagination_token w = Some (r, tr, w').
Proof.
  intros [Hsleep Hrequest].
  induction fuel as [|fuel IH]; intros all tok w Hinv Hroom Hpos; [lia|].
  destruct (client_get_users_tweets P w user_id tok) as [r0 w1] eqn:Hreq.
  destruct (Hrequest _ _ _ _ _ Hinv Hreq) as [Hinv1 Hgood].
  rewrite (loop_step P _ _ _ _ _ _ _ _ Hreq). cbv zeta.
  destruct (match r0 with
            | Ok tweets => page_step max_tweets all tweets
            | Err e => Raised e all
            end) as [a|a t|e a] eqn:Hctl.
  - eexists _, _, _. reflexivity.
  - destruct r0 as [page|e0]; [|discriminate].
    apply page_step_continue_grows in Hctl.
    destruct (IH a t (time_sleep P w1 1)) as [r [tr [w' Hrun]]];
      [apply Hsleep; exact Hinv1 | lia | lia |].
    rewrite Hrun. eexists _, _, _. reflexivity.
  - assert (He : is_TooManyRequests e = false).
    { destruct r0 as [page|e0].
      - apply page_step_raised in Hctl.
        apply lookup_error_is_exception in Hctl. apply Hctl.
      - injection Hctl as <- <-. exact Hgood. }
    rewrite He. destruct (is_Exception e); eexists _, _, _; reflexivity.
Qed.

End LoopRuns.

(** More passes than the loop needs change nothing. *)
Lemma loop_fuel_mono {World : Type} (P : Platform World) (user_id : pyval)
  (max_tweets : Z) (fuel : nat) :
  forall extra all_tweets pagination_token w run,
    get_user_tweets_loop P fuel user_id max_tweets all_tweets
      pagination_token w = Some run ->
    get_user_tweets_loop P (fuel + extra) user_id max_tweets all_tweets
      pagination_token w = Some run.
Proof.
  induction fuel as [|fuel IH]; intros extra all tok w run Hrun.
  - discriminate Hrun.
  - destruct (client_get_users_tweets P w user_id tok) as [r0 w1] eqn:Hreq.
    cbn [Nat.add].
    rewrite (loop_step P fuel _ _ _ _ _ _ _ Hreq) in Hrun.
    rewrite (loop_step P (fuel + extra) _ _ _ _ _ _ _ Hreq).
    cbv zeta in Hrun |- *.
    destruct (match r0 with
              | Ok tweets => page_step max_tweets all tweets
              | Err e => Raised e all
              end) as [a|a t|e a].
    + exact Hrun.
    + destruct (get_user_tweets_loop P fuel user_id max_tweets a t
                  (time_sleep P w1 1)) as [run'|] eqn:Hrest;
        [|discriminate].
      rewrite (IH extra _ _ _ _ Hrest). exact Hrun.
    + destruct (is_TooManyRequests e); [|exact Hrun].
      destruct (get_user_tweets_loop P fuel user_id max_tweets a tok
                  (time_sleep P w1 900)) as [run'|] eqn:Hrest;
        [|discriminate].
      rewrite (IH extra _ _ _ _ Hrest). exact Hrun.
Qed.

Lemma platform_invariant_weaken {World : Type} (P : Platform World)
  (Inv : World -> Prop) (good good' : result pyval -> Prop) :
  (forall r, good r -> good' r) ->
  platform_invariant P Inv good -> platform_invariant P Inv good'.
Proof.
  intros Himp [Hsleep Hrequest]. split; [exact Hsleep|].
  intros w id tok r w1 Hinv Hreq.
  destruct (Hrequest _ _ _ _ _ Hinv Hreq) as [H1 H2]. split; auto.
Qed.

Lemma calm_not_rate_limited (r : result pyval) :
  calm_reply r -> not_rate_limited r.
Proof. destruct r as [page|e]; simpl; [trivial | intros [_ H]; exact H]. Qed.

Lemma calm_page_or_exception (r : result pyval) :
  calm_reply r -> page_or_exception r.
Proof. destruct r as [page|e]; simpl; [trivial | intros [H _]; exact H]. Qed.

(** The scripted platform keeps a calm world calm, and answers a page
    request there with a page or an exception that is not the rate-limit
    signal. *)
Lemma scripted_calm :
  platform_invariant Scripted.platform calm_world calm_reply.
Proof.
  split.
  - intros w seconds H. exact H.
  - intros w id tok r w1 [Hreplies Hdefault] Hreq. simpl in Hreq.
    destruct (Scripted.page_replies w) as [|r0 rest] eqn:E.
    + injection Hreq as <- <-. split; [|exact Hdefault].
      split; [rewrite E; constructor | exact Hdefault].
    + injection Hreq as <- <-. inversion Hreplies; subst.
      split; [|assumption]. split; simpl; assumption.
Qed.


(* ================================================================== *)
(** ** Facts about the collection *)
(* ================================================================== *)

Lemma key_eqb_PStr (k : pyval) (s : string) :
  key_eqb k (PStr s) = true -> k = PStr s.
Proof.
  destruct k; simpl; try discriminate.
  intros H. apply String.eqb_eq in H. subst. reflexivity.
Qed.

Lemma dict_get_set_same (d : dict) (s : string) (v : pyval) :
  dict_get (dict_set d (PStr s) v) (PStr s) = Some v.
Proof.
  induction d as [|[k0 v0] rest IH]; simpl.
  - rewrite String.eqb_refl. reflexivity.
  - destruct (key_eqb k0 (PStr s)) eqn:E; simpl; rewrite E;
      [reflexivity | exact IH].
Qed.

Lemma dict_get_set_other (d : dict) (s s' : string) (v : pyval) :
  s <> s' ->
  dict_get (dict_set d (PStr s) v) (PStr s') = dict_get d (PStr s').
Proof.
  intros Hne. induction d as [|[k0 v0] rest IH]; simpl.
  - destruct (s =? s') eqn:E; [apply String.eqb_eq in E; contradiction|].
    reflexivity.
  - destruct (key_eqb k0 (PStr s)) eqn:E; simpl.
    + apply key_eqb_PStr in E. subst k0. simpl.
      destruct (s =? s') eqn:E'; [apply String.eqb_eq in E'; contradiction|].
      reflexivity.
    + rewrite IH. reflexivity.
Qed.

Lemma dict_set_entries (Q : pyval * pyval -> Prop) (d : dict) (k v : pyval) :
  Forall Q d -> (forall k', Q (k', v)) -> Forall Q (dict_set d k v).
Proof.
  intros Hd Hv. induction Hd as [|[k0 v0] rest H0 Hrest IH]; simpl.
  - constructor; [apply Hv | constructor].
  - destruct (key_eqb k0 k); constructor; auto.
Qed.

Section Collection.

Context {World : Type} (P : Platform World).

(** [get_user_id], from the reply of the lookup on. *)
Lemma get_user_id_run (username : string) (w w1 : World) (r : result pyval) :
  client_get_user P w username = (r, w1) ->
  get_user_id P username w
  = let request := EvGetUser username r in
    match user_id_of_reply r with
    | Ok (Some id) => Some (Ok id, [request], w1)
    | Ok None =>
        Some (Ok PNone,
              [request; EvLog ERROR "User not found: {username}" [LStr username]],
              w1)
    | Err e =>
        if is_Exception e then
          Some (Ok PNone,
                [ request;
                  EvLog ERROR "Error getting user ID for {username}: {e}"
                    [LStr username; LExn e] ],
                w1)
        else Some (Err e, [request], w1)
    end.
Proof.
  intros Hreq. unfold get_user_id. unfold bind at 1.
  unfold attempt, get_user. rewrite Hreq. cbv zeta.
  destruct (user_id_of_reply r) as [[id|]|e]; try reflexivity.
  destruct (is_Exception e); reflexivity.
Qed.

(** The events of the lookup and of the fetch loop write no file. *)
Lemma get_user_id_no_write (username : string) (w w' : World) r tr :
  get_user_id P username w = Some (r, tr, w') -> existsb is_write tr = false.
Proof.
  destruct (client_get_user P w username) as [r0 w1] eqn:Hreq.
  rewrite (get_user_id_run _ _ _ _ Hreq). cbv zeta.
  destruct (user_id_of_reply r0) as [[id|]|e].
  - intros H. injection H as <- <- <-. reflexivity.
  - intros H. injection H as <- <- <-. reflexivity.
  - destruct (is_Exception e); intros H; injection H as <- <- <-; reflexivity.
Qed.

Lemma loop_no_write (fuel : nat) (user_id : pyval) (max_tweets : Z) :
  forall all_tweets pagination_token w r tr w',
    get_user_tweets_loop P fuel user_id max_tweets all_tweets
      pagination_token w = Some (r, tr, w') ->
    existsb is_write tr = false.
Proof.
  induction fuel as [|fuel IH]; intros all tok w r tr w' Hrun.
  - discriminate Hrun.
  - destruct (client_get_users_tweets P w user_id tok) as [r0 w1] eqn:Hreq.
    rewrite (loop_step P _ _ _ _ _ _ _ _ Hreq) in Hrun. cbv zeta in Hrun.
    destruct (match r0 with
              | Ok tweets => page_step max_tweets all tweets
              | Err e => Raised e all
              end) as [a|a t|e a].
    + injection Hrun as <- <- <-. reflexivity.
    + apply with_prefix_Some in Hrun. destruct Hrun as [tr' [Hrun ->]].
      simpl. eapply IH. exact Hrun.
    + destruct (is_TooManyRequests e).
      * apply with_prefix_Some in Hrun. destruct Hrun as [tr' [Hrun ->]].
        simpl. eapply IH. exact Hrun.
      * destruct (is_Exception e); injection Hrun as <- <- <-; reflexivity.
Qed.

(** The body of the loop over the handles, case by case. *)
Lemma follow_user_run (self : TwitterScraper) (fuel : nat)
  (tweets_per_user : Z) (all_data : dict) (username : string) (w : World) :
  follow_user P self fuel tweets_per_user all_data username w
  = let start :=
      EvLog INFO "Processing tweets for user: {username}" [LStr username] in
    match get_user_id P username w with
    | None => None
    | Some (Err e, t1, w1) => Some (Err e, start :: t1, w1)
    | Some (Ok user_id, t1, w1) =>
        if negb (py_truthy user_id) then
          Some (Ok all_data,
                start :: t1 ++
                [EvLog WARNING
                   "Could not find user ID for {username}, skipping"
                   [LStr username]],
                w1)
        else
          match get_user_tweets P fuel user_id tweets_per_user w1 with
          | None => None
          | Some (Err e, t2, w2) => Some (Err e, start :: t1 ++ t2, w2)
          | Some (Ok tweets, t2, w2) =>
              let retrieved :=
                EvLog INFO "Retrieved {len(tweets)} tweets for {username}"
                  [LVal (PInt (py_len tweets)); LStr username] in
              match tweets with
              | [] => Some (Ok all_data, start :: t1 ++ t2 ++ [retrieved], w2)
              | _ :: _ =>
                  let filename := user_file P self username w2 in
                  let written := EvWriteJson filename (PList tweets) in
                  match json_dump_file P w2 filename (PList tweets) with
                  | (Err e, w3) =>
                      Some (Err e,
                            start :: t1 ++ t2 ++ [retrieved; written], w3)
                  | (Ok _, w3) =>
                      Some (Ok (dict_set all_data (PStr username)
                                  (PList tweets)),
                            start :: t1 ++ t2 ++
                            [ retrieved; written;
                              EvLog INFO
                                "Saved {len(tweets)} tweets for {username} to {filename}"
                                [ LVal (PInt (py_len tweets)); LStr username;
                                  LStr filename ] ],
                            w3)
                  end
              end
          end
    end.
Proof.
  unfold follow_user, bind, log, emit. cbv zeta. simpl.
  destruct (get_user_id P username w) as [[[[user_id|e] t1] w1]|];
    try reflexivity.
  destruct (py_truthy user_id); simpl; [|reflexivity].
  destruct (get_user_tweets P fuel user_id tweets_per_user w1)
    as [[[[tweets|e] t2] w2]|]; try reflexivity.
  destruct tweets as [|t ts]; simpl.
  - reflexivity.
  - unfold _save_user_data, bind, now_stamp, dump_json, log, emit, user_file.
    simpl.
    destruct (json_dump_file P w2 _ (PList (t :: ts))) as [[[]|e] w3]; simpl;
      rewrite ?app_nil_r; reflexivity.
Qed.

Lemma follow_user_cases (self : TwitterScraper) (fuel : nat)
  (tweets_per_user : Z) (all_data all_data' : dict) (username : string)
  (w w' : World) (tr : list event) :
  follow_user P self fuel tweets_per_user all_data username w
  = Some (Ok all_data', tr, w') ->
  (all_data' = all_data /\ existsb is_write tr = false) \/
  (exists tweets path,
      tweets <> [] /\
      all_data' = dict_set all_data (PStr username) (PList tweets) /\
      In (EvWriteJson path (PList tweets)) tr).
Proof.
  rewrite follow_user_run. cbv zeta.
  destruct (get_user_id P username w) as [[[[user_id|e] t1] w1]|] eqn:Hid;
    try discriminate.
  pose proof (get_user_id_no_write _ _ _ _ _ Hid) as Ht1.
  destruct (py_truthy user_id); simpl.
  - destruct (get_user_tweets P fuel user_id tweets_per_user w1)
      as [[[[tweets|e] t2] w2]|] eqn:Hfetch; try discriminate.
    pose proof (loop_no_write _ _ _ _ _ _ _ _ _ Hfetch) as Ht2.
    destruct tweets as [|t ts].
    + intros H. injection H as <- <- <-. left. split; [reflexivity|].
      simpl. rewrite !existsb_app, Ht1, Ht2. reflexivity.
    + cbv zeta.
      destruct (json_dump_file P w2 _ (PList (t :: ts))) as [[[]|e] w3];
        [|discriminate].
      intros H. injection H as <- <- <-. right.
      exists (t :: ts), (user_file P self username w2).
      split; [discriminate|]. split; [reflexivity|].
      right. apply in_or_app. right. apply in_or_app. right.
      right. left. reflexivity.
  - intros H. injection H as <- <- <-. left. split; [reflexivity|].
    simpl. rewrite existsb_app, Ht1. reflexivity.
Qed.

Lemma follow_users_from_cons (self : TwitterScraper) (fuel : nat)
  (tweets_per_user : Z) (all_data : dict) (username : string)
  (rest : list string) (w : World) :
  follow_users_from P self fuel tweets_per_user all_data (username :: rest) w
  = match follow_user P self fuel tweets_per_user all_data username w with
    | None => None
    | Some (Err e, t, w1) => Some (Err e, t, w1)
    | Some (Ok all_data', t, w1) =>
        with_prefix t
          (follow_users_from P self fuel tweets_per_user all_data' rest w1)
    end.
Proof.
  cbn [follow_users_from]. unfold bind at 1.
  destruct (follow_user P self fuel tweets_per_user all_data username w)
    as [[[[d|e] t] w1]|]; reflexivity.
Qed.

(** The handles the loop has not reached keep the entry they had. *)
Lemma follow_users_from_preserves (self : TwitterScraper) (fuel : nat)
  (tweets_per_user : Z) (username : string) (usernames : list string) :
  ~ In username usernames ->
  forall all_data w data tr w',
    follow_users_from P self fuel tweets_per_user all_data usernames w
    = Some (Ok data, tr, w') ->
    dict_get data (PStr username) = dict_get all_data (PStr username).
Proof.
  induction usernames as [|u rest IH]; intros Hnot all_data w data tr w' Hrun.
  - injection Hrun as <- <- <-. reflexivity.
  - rewrite follow_users_from_cons in Hrun.
    destruct (follow_user P self fuel tweets_per_user all_data u w)
      as [[[[d|e] t] w1]|] eqn:Hu; try discriminate.
    apply with_prefix_Some in Hrun. destruct Hrun as [tr' [Hrun ->]].
    apply IH in Hrun; [|intros Hin; apply Hnot; right; exact Hin].
    rewrite Hrun.
    apply follow_user_cases in Hu.
    destruct Hu as [[-> _] | [tweets [path [_ [-> _]]]]]; [reflexivity|].
    apply dict_get_set_other. intros ->. apply Hnot. left. reflexivity.
Qed.

Lemma follow_users_from_nonempty (self : TwitterScraper) (fuel : nat)
  (tweets_per_user : Z) (usernames : list string) :
  forall all_data w data tr w',
    Forall nonempty_entry all_data ->
    follow_users_from P self fuel tweets_per_user all_data usernames w
    = Some (Ok data, tr, w') ->
    Forall nonempty_entry data.
Proof.
  induction usernames as [|u rest IH]; intros all_data w data tr w' Hd Hrun.
  - injection Hrun as <- <- <-. exact Hd.
  - rewrite follow_users_from_cons in Hrun.
    destruct (follow_user P self fuel tweets_per_user all_data u w)
      as [[[[d|e] t] w1]|] eqn:Hu; try discriminate.
    apply with_prefix_Some in Hrun. destruct Hrun as [tr' [Hrun ->]].
    eapply IH; [|exact Hrun].
    apply follow_user_cases in Hu.
    destruct Hu as [[-> _] | [tweets [path [Hne [-> _]]]]]; [exact Hd|].
    apply dict_set_entries; [exact Hd|].
    intros k'. exists tweets. split; [reflexivity | exact Hne].
Qed.

(** The loop over [pre ++ post] is the loop over [pre], then over [post]. *)
Lemma follow_users_from_app (self : TwitterScraper) (fuel : nat)
  (tweets_per_user : Z) (pre post : list string) :
  forall all_data w data tr w',
    follow_users_from P self fuel tweets_per_user all_data (pre ++ post) w
    = Some (Ok data, tr, w') ->
    exists mid t1 w1 t2,
      follow_users_from P self fuel tweets_per_user all_data pre w
      = Some (Ok mid, t1, w1) /\
      follow_users_from P self fuel tweets_per_user mid post w1
      = Some (Ok data, t2, w') /\
      tr = t1 ++ t2.
Proof.
  induction pre as [|u rest IH]; intros all_data w data tr w' Hrun.
  - exists all_data, [], w, tr. repeat split. exact Hrun.
  - simpl app in Hrun. rewrite follow_users_from_cons in Hrun.
    rewrite follow_users_from_cons.
    destruct (follow_user P self fuel tweets_per_user all_data u w)
      as [[[[d|e] t] w1]|]; try discriminate.
    apply with_prefix_Some in Hrun. destruct Hrun as [tr' [Hrun ->]].
    apply IH in Hrun. destruct Hrun as [mid [t1 [w2 [t2 [H1 [H2 ->]]]]]].
    exists mid, (t ++ t1), w2, t2. rewrite H1. simpl.
    repeat split; [exact H2 | apply app_assoc].
Qed.

End Collection.

(* ================================================================== *)
(** ** Properties of normalisation *)
(* ================================================================== *)

Lemma entities_always_three_keys_witness :
  exists out,
    _process_tweets Samples.page_entities = Ok out /\
    Forall2 entities_shape (raw_posts Samples.page_entities) out.
Proof.
  eexists. split.
  - vm_compute. reflexivity.
  - apply (entities_always_three_keys Samples.page_entities).
    vm_compute. reflexivity.
Defined.

Lemma assoc_str_without (name n : string) (attrs : list (string * pyval)) :
  assoc_str n (filter (fun p => negb (fst p =? name)) attrs)
  = if (n =? name) then None else assoc_str n attrs.
Proof.
  induction attrs as [|[m v] rest IH]; simpl.
  - destruct (n =? name); reflexivity.
  - destruct (m =? name) eqn:Em; simpl.
    + rewrite IH. destruct (n =? name) eqn:En; [reflexivity|].
      destruct (m =? n) eqn:Emn; [|reflexivity].
      apply String.eqb_eq in Em, Emn. subst.
      rewrite String.eqb_refl in En. discriminate.
    + rewrite IH. destruct (m =? n) eqn:Emn; [|reflexivity].
      apply String.eqb_eq in Emn. subst. rewrite Em. reflexivity.
Qed.

Lemma wf_post_without (name : string) (tweet : pyval) :
  In name optional_post_fields ->
  wf_post tweet = true -> wf_post (without_attr name tweet) = true.
Proof.
  intros Hin. destruct tweet as [| | | | | | |oid attrs]; try (intros H; exact H).
  unfold wf_post, has_mandatory_fields, py_hasattr, attr_is_datetime,
    has_attr_hashable, without_attr, attr_opt.
  rewrite !assoc_str_without.
  simpl in Hin.
  repeat (destruct Hin as [<- | Hin]; [cbn [String.eqb Ascii.eqb Bool.eqb]|]);
    try contradiction; intros H;
    repeat (apply andb_prop in H; destruct H as [H ?]);
    repeat (apply andb_true_intro; split); assumption || reflexivity.
Qed.

Lemma process_tweets_length (tweets_response : pyval) (out : list pyval) :
  _process_tweets tweets_response = Ok out ->
  List.length out = List.length (raw_posts tweets_response).
Proof.
  intros H. apply process_tweets_pointwise in H.
  destruct H as [users [media [tweets_lookup H]]].
  symmetry. eapply Forall2_length. exact H.
Qed.

Lemma process_tweets_in_order (tweets_response : pyval) (out : list pyval) :
  _process_tweets tweets_response = Ok out ->
  Forall2 record_of_post (raw_posts tweets_response) out.
Proof.
  intros H. apply process_tweets_pointwise in H.
  destruct H as [users [media [tweets_lookup H]]].
  induction H as [|tweet record tweets records Hrec _ IH]; constructor.
  - eapply process_tweet_fields. exact Hrec.
  - exact IH.
Qed.

(** C3, as stated, fails: a page whose only post carries id, text and
    timestamp, and quotes a post whose included copy has no timestamp, makes
    [_process_tweets] raise, so no record is produced for the post. *)
Lemma one_record_per_post_counterexample :
  mandatory_fields_present Samples.page_ref_without_timestamp = true /\
  List.length (raw_posts Samples.page_ref_without_timestamp) = 1 /\
  _process_tweets Samples.page_ref_without_timestamp
  = Err (AttributeError "isoformat").
Proof. repeat split; vm_compute; reflexivity. Qed.

(** C3, amended.  For every well-formed raw page ([wf_page]: every raw post
    carries id, text, a datetime timestamp and an author id, and the
    side-table records, reference entries and entity items that are present
    carry the fields the normaliser reads), [_process_tweets] returns exactly
    one Post Record per raw post, in the order of the page: record [i] holds
    the id, the text and the timestamp of raw post [i]. *)
Theorem one_record_per_post_in_order (tweets_response : pyval) :
  wf_page tweets_response = true ->
  exists out,
    _process_tweets tweets_response = Ok out /\
    List.length out = List.length (raw_posts tweets_response) /\
    Forall2 record_of_post (raw_posts tweets_response) out.
Proof.
  intros Hwf. destruct (wf_page_ok _ Hwf) as [out Hout].
  exists out. split; [exact Hout|]. split.
  - apply process_tweets_length. exact Hout.
  - apply process_tweets_in_order. exact Hout.
Qed.

Lemma one_record_per_post_in_order_witness :
  wf_page Samples.page_bare = true /\
  exists out,
    _process_tweets Samples.page_bare = Ok out /\
    List.length out = List.length (raw_posts Samples.page_bare) /\
    Forall2 record_of_post (raw_posts Samples.page_bare) out.
Proof.
  split.
  - vm_compute. reflexivity.
  - apply (one_record_per_post_in_order Samples.page_bare).
    vm_compute. reflexivity.
Defined.

(** C9, as stated, fails: every post of the page carries id, text and
    timestamp, the author's record lacks its metrics, and [_process_tweets]
    raises. *)
Lemma never_fails_counterexample :
  mandatory_fields_present Samples.page_author_without_metrics = true /\
  _process_tweets Samples.page_author_without_metrics = Err TypeError.
Proof. split; vm_compute; reflexivity. Qed.

(** C9, amended.  On a well-formed raw page ([wf_page]) normalisation raises
    nothing; a well-formed post stays well formed when any of [lang],
    [source], [public_metrics], [entities], [attachments] or
    [referenced_tweets] is taken away from it; and a side table that is
    absent from [includes] is an empty lookup dictionary. *)
Theorem normalisation_tolerates_absent_optionals (tweets_response : pyval) :
  wf_page tweets_response = true ->
  (exists out, _process_tweets tweets_response = Ok out) /\
  (forall tweet name,
      In tweet (raw_posts tweets_response) ->
      In name optional_post_fields ->
      wf_post (without_attr name tweet) = true) /\
  (forall includes name key_attr,
      attr_opt tweets_response "includes" = Some (PDict includes) ->
      dict_get includes (PStr name) = None ->
      side_table (PDict includes) name key_attr = Ok []).
Proof.
  intros Hwf. split; [apply wf_page_ok; exact Hwf|]. split.
  - intros tweet name Hin Hname. apply wf_post_without; [exact Hname|].
    unfold wf_page in Hwf. unfold raw_posts, py_getattr in Hin.
    destruct (attr_opt tweets_response "data") as [data|]; [|discriminate].
    destruct (py_truthy data); [|contradiction].
    destruct (attr_opt tweets_response "includes") as [[]|]; try discriminate.
    apply andb_prop in Hwf. destruct Hwf as [_ Hposts].
    apply all_items_inv in Hposts. destruct Hposts as [items [Hit Hall]].
    rewrite Hit in Hin. rewrite Forall_forall in Hall. apply Hall. exact Hin.
  - intros includes name key_attr _ Habs. apply side_table_absent. exact Habs.
Qed.

Lemma normalisation_tolerates_absent_optionals_witness :
  wf_page Samples.page_bare = true /\
  (exists out, _process_tweets Samples.page_bare = Ok out) /\
  (forall tweet name,
      In tweet (raw_posts Samples.page_bare) ->
      In name optional_post_fields ->
      wf_post (without_attr name tweet) = true) /\
  (forall includes name key_attr,
      attr_opt Samples.page_bare "includes" = Some (PDict includes) ->
      dict_get includes (PStr name) = None ->
      side_table (PDict includes) name key_attr = Ok []).
Proof.
  split.
  - vm_compute. reflexivity.
  - apply (normalisation_tolerates_absent_optionals Samples.page_bare).
    vm_compute. reflexivity.
Defined.

(* ================================================================== *)
(** ** Properties of the fetch loop *)
(* ================================================================== *)

(** C1.  [get_user_tweets] returns at most [max_tweets] Post Records (for a
    cap that is not negative), and what it returns is the first [max_tweets]
    of the posts of the pages it fetched, in fetch order.  With a cap of 4
    and a first page of 5 posts it returns the first 4 posts of that page
    after that one request.  On a platform that sends no rate-limit signal
    it does return, within [max_tweets + 1] passes. *)
Theorem pagination_respects_cap {World : Type} (P : Platform World)
  (user_id : pyval) (w : World) :
  (forall fuel max_tweets res tr w',
      (0 <= max_tweets)%Z ->
      get_user_tweets P fuel user_id max_tweets w = Some (Ok res, tr, w') ->
      (py_len res <= max_tweets)%Z /\
      res = firstn (Z.to_nat max_tweets) (fetched_posts tr)) /\
  (forall fuel page posts w1,
      client_get_users_tweets P w user_id PNone = (Ok page, w1) ->
      _process_tweets page = Ok posts ->
      List.length posts = 5 ->
      get_user_tweets P (S fuel) user_id 4 w
      = Some (Ok (firstn 4 posts),
              [EvGetUsersTweets user_id PNone (Ok page)], w1)) /\
  (forall (Inv : World -> Prop) max_tweets extra,
      platform_invariant P Inv calm_reply ->
      Inv w ->
      (0 <= max_tweets)%Z ->
      exists res tr w',
        get_user_tweets P (S (Z.to_nat max_tweets) + extra) user_id
          max_tweets w = Some (Ok res, tr, w') /\
        (py_len res <= max_tweets)%Z).
Proof.
  assert (Hbound : forall fuel max_tweets res tr w',
      (0 <= max_tweets)%Z ->
      get_user_tweets P fuel user_id max_tweets w = Some (Ok res, tr, w') ->
      (py_len res <= max_tweets)%Z /\
      res = firstn (Z.to_nat max_tweets) (fetched_posts tr));
    [|split; [exact Hbound | split]].
  - intros fuel max_tweets res tr w' Hcap Hrun.
    assert (Hres : res = firstn (Z.to_nat max_tweets) (fetched_posts tr)).
    { apply (loop_result P fuel user_id max_tweets Hcap [] PNone w res tr w');
        [simpl; exact Hcap | exact Hrun]. }
    split; [|exact Hres].
    unfold py_len. rewrite Hres.
    pose proof (firstn_le_length (Z.to_nat max_tweets) (fetched_posts tr)).
    lia.
  - intros fuel page posts w1 Hreq Hposts Hlen.
    unfold get_user_tweets. rewrite (loop_step P _ _ _ _ _ _ _ _ Hreq).
    cbv zeta.
    rewrite (page_step_cap 4 [] page posts Hposts).
    + reflexivity.
    + intros ->. discriminate Hlen.
    + unfold py_len. simpl. lia.
  - intros Inv max_tweets extra Hinv Hw Hcap.
    destruct (loop_terminates P Inv user_id max_tweets
                (platform_invariant_weaken _ _ _ _ calm_not_rate_limited Hinv)
                (S (Z.to_nat max_tweets)) [] PNone w Hw)
      as [r [tr [w' Hrun]]]; [unfold py_len; cbn [List.length]; lia | lia |].
    apply (loop_fuel_mono P _ _ _ extra) in Hrun.
    destruct (loop_never_raises P Inv user_id max_tweets
                (platform_invariant_weaken _ _ _ _ calm_page_or_exception Hinv)
                _ _ _ _ _ _ _ Hw Hrun) as [res ->].
    exists res, tr, w'. split; [exact Hrun|].
    apply (Hbound _ _ _ _ _ Hcap Hrun).
Qed.

Lemma pagination_respects_cap_witness :
  get_user_tweets Scripted.platform 1 (PInt 7) 4 Samples.world_two_pages
  = Some (Ok (firstn 4 Samples.records1),
          [EvGetUsersTweets (PInt 7) PNone (Ok Samples.page1)],
          Samples.with_pages [Ok Samples.page2] (Ok Scripted.empty_page))
  /\ (py_len (firstn 4 Samples.records1) <= 4)%Z
  /\ firstn 4 Samples.records1
     = firstn (Z.to_nat 4)
         (fetched_posts [EvGetUsersTweets (PInt 7) PNone (Ok Samples.page1)])
  /\ (exists res tr w',
         get_user_tweets Scripted.platform (S (Z.to_nat 4) + 0) (PInt 7) 4
           Samples.world_two_pages = Some (Ok res, tr, w') /\
         (py_len res <= 4)%Z).
Proof.
  pose proof (pagination_respects_cap Scripted.platform (PInt 7)
                Samples.world_two_pages) as [Hcap [Hfirst Hreturns]].
  assert (Hrun :
    get_user_tweets Scripted.platform 1 (PInt 7) 4 Samples.world_two_pages
    = Some (Ok (firstn 4 Samples.records1),
            [EvGetUsersTweets (PInt 7) PNone (Ok Samples.page1)],
            Samples.with_pages [Ok Samples.page2] (Ok Scripted.empty_page))).
  { apply (Hfirst 0 Samples.page1 Samples.records1); reflexivity. }
  split; [exact Hrun|].
  destruct (Hcap 1 4%Z _ _ _ ltac:(lia) Hrun) as [Hle Hfirstn].
  split; [exact Hle|]. split; [exact Hfirstn|].
  apply (Hreturns calm_world 4%Z 0 scripted_calm).
  - split; [repeat constructor | exact I].
  - lia.
Defined.





(* ================================================================== *)
(** ** Properties of account resolution and of the collection *)
(* ================================================================== *)

Lemma user_id_of_reply_missing (r : result pyval) :
  reported_missing r = true -> user_id_of_reply r = Ok None.
Proof.
  unfold reported_missing, user_id_of_reply, py_getattr.
  destruct r as [user|e]; [|discriminate]. simpl.
  destruct (attr_opt user "data") as [data|]; [|discriminate]. simpl.
  destruct (py_truthy data); [discriminate | reflexivity].
Qed.

Lemma user_id_of_reply_err (r : result pyval) (e : exn) :
  user_id_of_reply r = Err e -> r = Err e \/ is_Exception e = true.
Proof.
  unfold user_id_of_reply, py_getattr.
  destruct r as [user|e0]; simpl.
  - destruct (attr_opt user "data") as [data|]; simpl.
    + destruct (py_truthy data); [|discriminate].
      destruct (attr_opt data "id"); simpl; [discriminate|].
      intros H. injection H as <-. right. reflexivity.
    + intros H. injection H as <-. right. reflexivity.
  - intros H. injection H as <-. left. reflexivity.
Qed.

(** C5, as stated, fails: the lookup of a handle fails with an authorisation
    error, and [get_user_id] returns [None] after an error-level log entry;
    nothing is raised to the caller. *)
Lemma resolution_failure_propagates_counterexample :
  get_user_id Scripted.platform "alice" Samples.world_unauthorized
  = Some (Ok PNone,
          [ EvGetUser "alice" (Err (OtherException "401 Unauthorized"));
            EvLog ERROR "Error getting user ID for {username}: {e}"
              [LStr "alice"; LExn (OtherException "401 Unauthorized")] ],
          Samples.world_unauthorized).
Proof. vm_compute. reflexivity. Qed.

(** C5, amended.  [get_user_id] raises nothing and returns [None] both when
    the platform reports that the handle does not exist and when the lookup
    raises an exception, transport and authorisation failures included; each
    is logged at error level, and [follow_users] then logs a warning, leaves
    the mapping as it is and goes on to the next handle. *)
Theorem get_user_id_returns_null_on_any_failure {World : Type}
  (P : Platform World) (username : string) (w w1 : World)
  (r : result pyval) :
  client_get_user P w username = (r, w1) ->
  (forall e, r = Err e -> is_Exception e = true) ->
  exists id tr,
    get_user_id P username w = Some (Ok id, tr, w1) /\
    (reported_missing r = true ->
     id = PNone /\
     tr = [ EvGetUser username r;
            EvLog ERROR "User not found: {username}" [LStr username] ]) /\
    (forall e, r = Err e ->
     id = PNone /\
     tr = [ EvGetUser username r;
            EvLog ERROR "Error getting user ID for {username}: {e}"
              [LStr username; LExn e] ]) /\
    (id = PNone ->
     forall self fuel tweets_per_user all_data,
       follow_user P self fuel tweets_per_user all_data username w
       = Some (Ok all_data,
               EvLog INFO "Processing tweets for user: {username}"
                 [LStr username]
               :: tr ++
               [EvLog WARNING
                  "Could not find user ID for {username}, skipping"
                  [LStr username]],
               w1)).
Proof.
  intros Hreq Hexn.
  pose proof (get_user_id_run P username w w1 r Hreq) as Hrun.
  cbv zeta in Hrun.
  assert (Hcaller : forall id tr,
    get_user_id P username w = Some (Ok id, tr, w1) ->
    id = PNone ->
    forall self fuel tweets_per_user all_data,
      follow_user P self fuel tweets_per_user all_data username w
      = Some (Ok all_data,
              EvLog INFO "Processing tweets for user: {username}"
                [LStr username]
              :: tr ++
              [EvLog WARNING
                 "Could not find user ID for {username}, skipping"
                 [LStr username]],
              w1)).
  { intros id tr Hid -> self fuel tweets_per_user all_data.
    rewrite follow_user_run. cbv zeta. rewrite Hid. reflexivity. }
  destruct (user_id_of_reply r) as [[id|]|e'] eqn:Hreply.
  - exists id, [EvGetUser username r]. split; [exact Hrun|].
    split; [|split].
    + intros Hmiss. apply user_id_of_reply_missing in Hmiss. congruence.
    + intros e ->. simpl in Hreply. discriminate.
    + apply Hcaller. exact Hrun.
  - eexists PNone, _. split; [exact Hrun|]. split; [|split].
    + intros _. split; reflexivity.
    + intros e ->. simpl in Hreply. discriminate.
    + apply Hcaller. exact Hrun.
  - assert (He : is_Exception e' = true).
    { destruct (user_id_of_reply_err _ _ Hreply) as [-> | He];
        [apply Hexn; reflexivity | exact He]. }
    rewrite He in Hrun.
    eexists PNone, _. split; [exact Hrun|]. split; [|split].
    + intros Hmiss. apply user_id_of_reply_missing in Hmiss. congruence.
    + intros e ->. simpl in Hreply. injection Hreply as <-.
      split; reflexivity.
    + apply Hcaller. exact Hrun.
Qed.

Lemma get_user_id_returns_null_on_any_failure_witness :
  exists id tr,
    get_user_id Scripted.platform "alice" Samples.world_unauthorized
    = Some (Ok id, tr, Samples.world_unauthorized) /\
    (reported_missing (Err (OtherException "401 Unauthorized")) = true ->
     id = PNone /\
     tr = [ EvGetUser "alice" (Err (OtherException "401 Unauthorized"));
            EvLog ERROR "User not found: {username}" [LStr "alice"] ]) /\
    (forall e, @Err pyval (OtherException "401 Unauthorized") = Err e ->
     id = PNone /\
     tr = [ EvGetUser "alice" (Err (OtherException "401 Unauthorized"));
            EvLog ERROR "Error getting user ID for {username}: {e}"
              [LStr "alice"; LExn e] ]) /\
    (id = PNone ->
     forall self fuel tweets_per_user all_data,
       follow_user Scripted.platform self fuel tweets_per_user all_data
         "alice" Samples.world_unauthorized
       = Some (Ok all_data,
               EvLog INFO "Processing tweets for user: {username}"
                 [LStr "alice"]
               :: tr ++
               [EvLog WARNING
                  "Could not find user ID for {username}, skipping"
                  [LStr "alice"]],
               Samples.world_unauthorized)).
Proof.
  apply (get_user_id_returns_null_on_any_failure Scripted.platform "alice"
           Samples.world_unauthorized Samples.world_unauthorized
           (Err (OtherException "401 Unauthorized"))).
  - reflexivity.
  - intros e H. injection H as <-. reflexivity.
Defined.

(** C10.  A handle that resolves and whose fetch yields zero posts leaves
    the mapping as it is and writes no file; every handle in the mapping
    [follow_users] returns holds a non-empty list of Post Records; and a
    handle that is configured once and yields zero posts is not a key of
    the mapping. *)
Theorem zero_posts_handle_omitted {World : Type} (P : Platform World)
  (self : TwitterScraper) (fuel : nat) (tweets_per_user : Z) :
  (forall all_data username w user_id t1 w1 t2 w2,
      get_user_id P username w = Some (Ok user_id, t1, w1) ->
      py_truthy user_id = true ->
      get_user_tweets P fuel user_id tweets_per_user w1
      = Some (Ok [], t2, w2) ->
      exists tr,
        follow_user P self fuel tweets_per_user all_data username w
        = Some (Ok all_data, tr, w2) /\
        existsb is_write tr = false) /\
  (forall usernames w data tr w',
      follow_users P self fuel usernames tweets_per_user w
      = Some (Ok data, tr, w') ->
      Forall nonempty_entry data) /\
  (forall pre username post w mid t0 w0 user_id t1 w1 t2 w2 data tr w',
      ~ In username pre -> ~ In username post ->
      follow_users P self fuel pre tweets_per_user w = Some (Ok mid, t0, w0) ->
      get_user_id P username w0 = Some (Ok user_id, t1, w1) ->
      py_truthy user_id = true ->
      get_user_tweets P fuel user_id tweets_per_user w1
      = Some (Ok [], t2, w2) ->
      follow_users P self fuel (pre ++ username :: post) tweets_per_user w
      = Some (Ok data, tr, w') ->
      dict_get data (PStr username) = None).
Proof.
  assert (Hone : forall all_data username w user_id t1 w1 t2 w2,
      get_user_id P username w = Some (Ok user_id, t1, w1) ->
      py_truthy user_id = true ->
      get_user_tweets P fuel user_id tweets_per_user w1
      = Some (Ok [], t2, w2) ->
      exists tr,
        follow_user P self fuel tweets_per_user all_data username w
        = Some (Ok all_data, tr, w2) /\
        existsb is_write tr = false).
  { intros all_data username w user_id t1 w1 t2 w2 Hid Htruthy Hfetch.
    pose proof (follow_user_run P self fuel tweets_per_user all_data
                  username w) as Hrun.
    cbv zeta in Hrun. rewrite Hid, Htruthy in Hrun. simpl in Hrun.
    rewrite Hfetch in Hrun.
    eexists. split; [exact Hrun|].
    simpl. rewrite !existsb_app.
    rewrite (get_user_id_no_write P _ _ _ _ _ Hid).
    rewrite (loop_no_write P _ _ _ _ _ _ _ _ _ Hfetch). reflexivity. }
  split; [exact Hone|]. split.
  - intros usernames w data tr w' Hrun.
    eapply (follow_users_from_nonempty P); [|exact Hrun]. constructor.
  - intros pre username post w mid t0 w0 user_id t1 w1 t2 w2 data tr w'
      Hpre Hpost Hmid Hid Htruthy Hfetch Hrun.
    unfold follow_users in *.
    apply follow_users_from_app in Hrun.
    destruct Hrun as [mid' [ta [wa [tb [Ha [Hb _]]]]]].
    rewrite Hmid in Ha. injection Ha as <- <- <-.
    rewrite follow_users_from_cons in Hb.
    destruct (Hone mid username w0 user_id t1 w1 t2 w2 Hid Htruthy Hfetch)
      as [tru [Hu _]].
    rewrite Hu in Hb.
    apply with_prefix_Some in Hb. destruct Hb as [tc [Hb _]].
    rewrite (follow_users_from_preserves P _ _ _ _ _ Hpost _ _ _ _ _ Hb).
    rewrite (follow_users_from_preserves P _ _ _ _ _ Hpre _ _ _ _ _ Hmid).
    reflexivity.
Qed.

Lemma zero_posts_handle_omitted_witness :
  (exists tr,
      follow_user Scripted.platform Samples.scraper 3 50 [] "alice"
        Samples.world_no_posts
      = Some (Ok [], tr, Samples.world_no_posts) /\
      existsb is_write tr = false) /\
  (exists data tr w',
      follow_users Scripted.platform Samples.scraper 3 ["alice"; "bob"] 50
        Samples.world_two_pages
      = Some (Ok data, tr, w') /\
      Forall nonempty_entry data) /\
  (exists data tr w',
      follow_users Scripted.platform Samples.scraper 3 ["alice"] 50
        Samples.world_no_posts
      = Some (Ok data, tr, w') /\
      dict_get data (PStr "alice") = None).
Proof.
  pose proof (zero_posts_handle_omitted Scripted.platform Samples.scraper 3 50)
    as [Hone [Hall Habsent]].
  split; [|split].
  - apply (Hone [] "alice" Samples.world_no_posts (PInt 7)
             [EvGetUser "alice" (Scripted.user_reply 7)]
             Samples.world_no_posts
             [EvGetUsersTweets (PInt 7) PNone (Ok Scripted.empty_page)]);
      reflexivity.
  - eexists _, _, _. split; [vm_compute; reflexivity|].
    eapply (Hall ["alice"; "bob"] Samples.world_two_pages).
    vm_compute. reflexivity.
  - eexists _, _, _. split; [vm_compute; reflexivity|].
    eapply (Habsent [] "alice" [] Samples.world_no_posts [] []
              Samples.world_no_posts (PInt 7)
              [EvGetUser "alice" (Scripted.user_reply 7)]
              Samples.world_no_posts
              [EvGetUsersTweets (PInt 7) PNone (Ok Scripted.empty_page)]
              Samples.world_no_posts);
      try (intros []); reflexivity.
Defined.

(** [main], from the scraper and the collected mapping on. *)
Lemma main_with_run {World : Type} (P : Platform World) (fuel : nat)
  (usernames : list string) (w w0 w1 w2 : World) (scraper : TwitterScraper)
  (t0 t1 : list event) (data : dict) :
  __init__ P "twitter_credentials.json" w = Some (Ok scraper, t0, w0) ->
  follow_users P scraper fuel usernames 50 w0 = Some (Ok data, t1, w1) ->
  let combined_file :=
    os_path_join (data_dir scraper)
      ("all_tweets_" ++ strftime_now P w1 ++ ".json") in
  json_dump_file P w1 combined_file (PDict data) = (Ok tt, w2) ->
  main_with P fuel usernames w
  = Some (Ok tt,
          t0 ++ t1 ++
          [ EvWriteJson combined_file (PDict data);
            EvLog INFO "Saved combined data to {combined_file}"
              [LStr combined_file];
            EvLog INFO "Execution complete" [] ],
          w2).
Proof.
  intros Hinit Hfollow combined_file Hdump.
  unfold main_with. unfold bind at 1. rewrite Hinit.
  unfold bind at 1. rewrite Hfollow.
  unfold bind, now_stamp, dump_json, log, emit. cbv beta iota zeta.
  unfold combined_file in Hdump. rewrite Hdump. reflexivity.
Qed.

(** C8.  An exception other than the rate-limit signal on a page request
    ends the fetch loop of that account with what it has collected so far:
    after a first page that is kept, a failing second request returns the
    posts of the first page.  [follow_users] stores the posts of the account
    in the mapping, writes them to the per-account file and goes on with the
    next handle; the entry stays in the mapping it returns, which [main]
    writes to the combined file.  The fetch of an account raises nothing to
    [follow_users] as long as the platform raises instances of [Exception]
    only. *)
Theorem fetch_error_keeps_partial_results {World : Type} (P : Platform World)
  (self : TwitterScraper) (fuel : nat) (tweets_per_user : Z) :
  (forall fuel' user_id all_tweets pagination_token w e w1,
      client_get_users_tweets P w user_id pagination_token = (Err e, w1) ->
      is_Exception e = true ->
      is_TooManyRequests e = false ->
      get_user_tweets_loop P (S fuel') user_id tweets_per_user all_tweets
        pagination_token w
      = Some (Ok all_tweets,
              [ EvGetUsersTweets user_id pagination_token (Err e);
                EvLog ERROR "Error fetching tweets: {e}" [LExn e] ],
              w1)) /\
  (forall fuel' user_id w page1 all1 T w1 e w2,
      client_get_users_tweets P w user_id PNone = (Ok page1, w1) ->
      page_step tweets_per_user [] page1 = Continue all1 T ->
      client_get_users_tweets P (time_sleep P w1 1) user_id T = (Err e, w2) ->
      is_Exception e = true ->
      is_TooManyRequests e = false ->
      get_user_tweets P (S (S fuel')) user_id tweets_per_user w
      = Some (Ok all1,
              [ EvGetUsersTweets user_id PNone (Ok page1);
                EvSleep 1;
                EvGetUsersTweets user_id T (Err e);
                EvLog ERROR "Error fetching tweets: {e}" [LExn e] ],
              w2)) /\
  (forall all_data username rest w user_id t1 w1 tweets t2 w2 w3,
      get_user_id P username w = Some (Ok user_id, t1, w1) ->
      py_truthy user_id = true ->
      get_user_tweets P fuel user_id tweets_per_user w1
      = Some (Ok tweets, t2, w2) ->
      tweets <> [] ->
      json_dump_file P w2 (user_file P self username w2) (PList tweets)
      = (Ok tt, w3) ->
      follow_users_from P self fuel tweets_per_user all_data
        (username :: rest) w
      = with_prefix
          (EvLog INFO "Processing tweets for user: {username}" [LStr username]
           :: t1 ++ t2 ++
           [ EvLog INFO "Retrieved {len(tweets)} tweets for {username}"
               [LVal (PInt (py_len tweets)); LStr username];
             EvWriteJson (user_file P self username w2) (PList tweets);
             EvLog INFO
               "Saved {len(tweets)} tweets for {username} to {filename}"
               [ LVal (PInt (py_len tweets)); LStr username;
                 LStr (user_file P self username w2) ] ])
          (follow_users_from P self fuel tweets_per_user
             (dict_set all_data (PStr username) (PList tweets)) rest w3)
      /\
      (~ In username rest ->
       forall data tr w',
         follow_users_from P self fuel tweets_per_user all_data
           (username :: rest) w = Some (Ok data, tr, w') ->
         dict_get data (PStr username) = Some (PList tweets))) /\
  (forall usernames w scraper t0 w0 data t1 w1 w2,
      __init__ P "twitter_credentials.json" w = Some (Ok scraper, t0, w0) ->
      follow_users P scraper fuel usernames 50 w0 = Some (Ok data, t1, w1) ->
      json_dump_file P w1
        (os_path_join (data_dir scraper)
           ("all_tweets_" ++ strftime_now P w1 ++ ".json"))
        (PDict data) = (Ok tt, w2) ->
      In (EvWriteJson
            (os_path_join (data_dir scraper)
               ("all_tweets_" ++ strftime_now P w1 ++ ".json"))
            (PDict data))
         (trace_of (main_with P fuel usernames w))) /\
  (forall (Inv : World -> Prop) user_id w r tr w',
      platform_invariant P Inv page_or_exception ->
      Inv w ->
      get_user_tweets P fuel user_id tweets_per_user w = Some (r, tr, w') ->
      exists res, r = Ok res).
Proof.
  assert (Habort : forall fuel' user_id all_tweets pagination_token w e w1,
      client_get_users_tweets P w user_id pagination_token = (Err e, w1) ->
      is_Exception e = true ->
      is_TooManyRequests e = false ->
      get_user_tweets_loop P (S fuel') user_id tweets_per_user all_tweets
        pagination_token w
      = Some (Ok all_tweets,
              [ EvGetUsersTweets user_id pagination_token (Err e);
                EvLog ERROR "Error fetching tweets: {e}" [LExn e] ],
              w1)).
  { intros fuel' user_id all_tweets tok w e w1 Hreq Hexn Hrate.
    rewrite (loop_step P _ _ _ _ _ _ _ _ Hreq). cbv zeta.
    rewrite Hrate, Hexn. reflexivity. }
  split; [exact Habort|]. split; [|split; [|split]].
  - intros fuel' user_id w page1 all1 T w1 e w2 Hreq1 Hstep Hreq2 Hexn Hrate.
    unfold get_user_tweets.
    rewrite (loop_step P _ _ _ _ _ _ _ _ Hreq1). cbv zeta. rewrite Hstep.
    rewrite (Habort _ _ _ _ _ _ _ Hreq2 Hexn Hrate). reflexivity.
  - intros all_data username rest w user_id t1 w1 tweets t2 w2 w3
      Hid Htruthy Hfetch Hne Hdump.
    assert (Hrun :
      follow_user P self fuel tweets_per_user all_data username w
      = Some (Ok (dict_set all_data (PStr username) (PList tweets)),
              EvLog INFO "Processing tweets for user: {username}"
                [LStr username]
              :: t1 ++ t2 ++
              [ EvLog INFO "Retrieved {len(tweets)} tweets for {username}"
                  [LVal (PInt (py_len tweets)); LStr username];
                EvWriteJson (user_file P self username w2) (PList tweets);
                EvLog INFO
                  "Saved {len(tweets)} tweets for {username} to {filename}"
                  [ LVal (PInt (py_len tweets)); LStr username;
                    LStr (user_file P self username w2) ] ],
              w3)).
    { rewrite follow_user_run. cbv zeta.
      rewrite Hid, Htruthy. simpl. rewrite Hfetch.
      destruct tweets as [|t ts]; [contradiction|].
      rewrite Hdump. reflexivity. }
    split.
    + rewrite follow_users_from_cons, Hrun. reflexivity.
    + intros Hnot data tr w' Hall.
      rewrite follow_users_from_cons, Hrun in Hall.
      apply with_prefix_Some in Hall. destruct Hall as [tr' [Hall _]].
      rewrite (follow_users_from_preserves P _ _ _ _ _ Hnot _ _ _ _ _ Hall).
      apply dict_get_set_same.
  - intros usernames w scraper t0 w0 data t1 w1 w2 Hinit Hfollow Hdump.
    rewrite (main_with_run P fuel usernames w w0 w1 w2 scraper t0 t1 data
               Hinit Hfollow Hdump).
    simpl. apply in_or_app. right. apply in_or_app. right.
    left. reflexivity.
  - intros Inv user_id w r tr w' Hinv Hw Hrun.
    exact (loop_never_raises P Inv user_id tweets_per_user Hinv
             _ _ _ _ _ _ _ Hw Hrun).
Qed.

Lemma fetch_error_keeps_partial_results_witness :
  get_user_tweets Scripted.platform 2 (PInt 7) 100
    Samples.world_breaks_on_page2
  = Some (Ok Samples.records1,
          [ EvGetUsersTweets (PInt 7) PNone (Ok Samples.page1);
            EvSleep 1;
            EvGetUsersTweets (PInt 7) (PStr "T")
              (Err (OtherException "503 Service Unavailable"));
            EvLog ERROR "Error fetching tweets: {e}"
              [LExn (OtherException "503 Service Unavailable")] ],
          time_sleep Scripted.platform
            (Samples.with_pages [Ok Samples.page2] (Ok Scripted.empty_page))
            1)
  /\ (exists data tr w',
         follow_users Scripted.platform Samples.scraper 2 ["alice"; "bob"]
           100 Samples.world_breaks_on_page2
         = Some (Ok data, tr, w') /\
         dict_get data (PStr "alice") = Some (PList Samples.records1) /\
         dict_get data (PStr "bob") = Some (PList Samples.records2) /\
         In (EvWriteJson "twitter_data/alice_20250201_120000.json"
               (PList Samples.records1)) tr).
Proof.
  pose proof (fetch_error_keeps_partial_results Scripted.platform
                Samples.scraper 2 100) as [_ [Hmid [Hkeep _]]].
  assert (Hfetch :
    get_user_tweets Scripted.platform 2 (PInt 7) 100
      Samples.world_breaks_on_page2
    = Some (Ok Samples.records1,
            [ EvGetUsersTweets (PInt 7) PNone (Ok Samples.page1);
              EvSleep 1;
              EvGetUsersTweets (PInt 7) (PStr "T")
                (Err (OtherException "503 Service Unavailable"));
              EvLog ERROR "Error fetching tweets: {e}"
                [LExn (OtherException "503 Service Unavailable")] ],
            time_sleep Scripted.platform
              (Samples.with_pages [Ok Samples.page2] (Ok Scripted.empty_page))
              1)).
  { apply (Hmid 0 (PInt 7) Samples.world_breaks_on_page2 Samples.page1
             Samples.records1 (PStr "T")
             (Samples.with_pages
                [Err (OtherException "503 Service Unavailable");
                 Ok Samples.page2] (Ok Scripted.empty_page))
             (OtherException "503 Service Unavailable"));
      reflexivity. }
  split; [exact Hfetch|].
  eexists _, _, _. split; [vm_compute; reflexivity|].
  split; [|split; [reflexivity | vm_compute; tauto]].
  eapply (proj2 (Hkeep [] "alice" ["bob"] Samples.world_breaks_on_page2
                   (PInt 7) [EvGetUser "alice" (Scripted.user_reply 7)]
                   Samples.world_breaks_on_page2 Samples.records1 _ _ _
                   eq_refl eq_refl Hfetch ltac:(discriminate) eq_refl)).
  - intros [H|[]]. discriminate H.
  - vm_compute. reflexivity.
Defined.

(* ================================================================== *)
(** ** Properties of credential loading *)
(* ================================================================== *)

(** C4.  The check of [_load_credentials] that the credentials were updated
    from the defaults compares [consumer_key] alone.  In a credentials file
    where only [consumer_key] was filled in, four fields still hold their
    placeholder; [_load_credentials] returns the bundle without a log
    entry, [main] constructs the client from the placeholder secrets and
    goes on to send requests. *)
Theorem placeholder_secrets_reach_the_client :
  Forall
    (fun field =>
       py_getitem_str Samples.half_filled_credentials (fst field)
       = Ok (PStr (snd field)) /\
       py_getitem_str sample_credentials (fst field) = Ok (PStr (snd field)))
    [ ("consumer_secret", "YOUR_CONSUMER_SECRET");
      ("access_token", "YOUR_ACCESS_TOKEN");
      ("access_token_secret", "YOUR_ACCESS_TOKEN_SECRET");
      ("bearer_token", "YOUR_BEARER_TOKEN") ] /\
  _load_credentials Scripted.platform "twitter_credentials.json"
    (Samples.world_with_credentials Samples.half_filled_credentials)
  = Some (Ok Samples.half_filled_credentials, [],
          Samples.world_with_credentials Samples.half_filled_credentials) /\
  exists rest,
    trace_of
      (main_with Scripted.platform 3 ["alice"]
         (Samples.world_with_credentials Samples.half_filled_credentials))
    = [ EvNewClient
          [ (PStr "bearer_token", PStr "YOUR_BEARER_TOKEN");
            (PStr "consumer_key", PStr "ck-3f9a");
            (PStr "consumer_secret", PStr "YOUR_CONSUMER_SECRET");
            (PStr "access_token", PStr "YOUR_ACCESS_TOKEN");
            (PStr "access_token_secret", PStr "YOUR_ACCESS_TOKEN_SECRET");
            (PStr "wait_on_rate_limit", PBool true) ];
        EvLog INFO "Successfully authenticated with Twitter API" [];
        EvMakedirs "twitter_data";
        EvLog INFO "Processing tweets for user: {username}" [LStr "alice"];
        EvGetUser "alice" (Scripted.user_reply 7) ] ++ rest.
Proof.
  split; [repeat constructor|].
  split; [vm_compute; reflexivity|].
  eexists. cbv. reflexivity.
Qed.

(** X22.  When the [consumer_key] of the credentials file still equals
    its placeholder (as in the sample file), [_load_credentials] logs an
    error and exits with status 1, and so do [__init__] and [main], before
    any request to the platform. *)
Theorem placeholder_consumer_key_is_fatal {World : Type} (P : Platform World)
  (file_path : string) (w : World) (credentials : pyval) :
  os_path_exists P w file_path = true ->
  json_load_file P w file_path = Ok credentials ->
  py_getitem_str credentials "consumer_key" = Ok (PStr "YOUR_CONSUMER_KEY") ->
  let refused : option (result pyval * list event * World) :=
    Some (Err (SystemExit 1),
          [EvLog ERROR
             "API credentials in {file_path} have not been updated. Please add your actual API credentials."
             [LStr file_path]],
          w) in
  _load_credentials P file_path w = refused /\
  (exists tr,
      __init__ P file_path w = Some (Err (SystemExit 1), tr, w) /\
      existsb is_network tr = false) /\
  (file_path = "twitter_credentials.json" ->
   forall fuel usernames,
   exists tr,
     main_with P fuel usernames w = Some (Err (SystemExit 1), tr, w) /\
     existsb is_network tr = false).
Proof.
  intros Hexists Hload Hkey refused.
  assert (Hrefused : _load_credentials P file_path w = refused).
  { unfold _load_credentials, bind, attempt, load_json, lift, log, emit,
      py_exit, raise.
    rewrite Hload, Hkey. reflexivity. }
  assert (Hinit :
    __init__ P file_path w
    = Some (Err (SystemExit 1),
            [EvLog ERROR
               "API credentials in {file_path} have not been updated. Please add your actual API credentials."
               [LStr file_path]],
            w)).
  { unfold __init__. unfold bind at 1. unfold get_world.
    rewrite Hexists. cbn [negb].
    unfold bind at 1. unfold ret at 1.
    unfold bind at 1. rewrite Hrefused. reflexivity. }
  split; [exact Hrefused|]. split.
  - eexists. split; [exact Hinit | reflexivity].
  - intros -> fuel usernames. eexists. split.
    + unfold main_with. unfold bind at 1. rewrite Hinit. reflexivity.
    + reflexivity.
Qed.

Lemma placeholder_consumer_key_is_fatal_witness :
  os_path_exists Scripted.platform
    (Samples.world_with_credentials (sample_credentials))
    "twitter_credentials.json" = true /\
  exists tr,
    main_with Scripted.platform 3 ["alice"]
      (Samples.world_with_credentials sample_credentials)
    = Some (Err (SystemExit 1), tr,
            Samples.world_with_credentials sample_credentials) /\
    existsb is_network tr = false.
Proof.
  split; [reflexivity|].
  apply (proj2 (proj2 (placeholder_consumer_key_is_fatal Scripted.platform
                         "twitter_credentials.json"
                         (Samples.world_with_credentials sample_credentials)
                         sample_credentials eq_refl eq_refl eq_refl))
           eq_refl 3 ["alice"]).
Defined.

(* ================================================================== *)
(** ** Further properties: start-up *)
(* ================================================================== *)

Lemma key_eqb_PStr_iff (k : pyval) (s : string) :
  key_eqb k (PStr s) = true <-> k = PStr s.
Proof.
  split; [apply key_eqb_PStr|]. intros ->. simpl. apply String.eqb_refl.
Qed.

Section StartUp.

Context {World : Type} (P : Platform World).

(** [_load_credentials], outcome by outcome of reading the file. *)
Lemma load_credentials_run (file_path : string) (w : World) :
  _load_credentials P file_path w
  = match json_load_file P w file_path with
    | Ok credentials =>
        match py_getitem_str credentials "consumer_key" with
        | Ok consumer_key =>
            if key_eqb consumer_key (PStr "YOUR_CONSUMER_KEY") then
              Some (Err (SystemExit 1),
                    [EvLog ERROR
                       "API credentials in {file_path} have not been updated. Please add your actual API credentials."
                       [LStr file_path]],
                    w)
            else Some (Ok credentials, [], w)
        | Err e =>
            Some (Err (SystemExit 1),
                  [EvLog ERROR "Error reading credentials: {e}" [LExn e]], w)
        end
    | Err e =>
        if is_JSONDecodeError e then
          match json_dump_file P w file_path sample_credentials with
          | (Ok _, w1) =>
              Some (Err (SystemExit 1), malformed_events file_path, w1)
          | (Err e', w1) =>
              Some (Err e',
                    [ EvLog ERROR "Invalid JSON in credentials file: {file_path}"
                        [LStr file_path];
                      EvWriteJson file_path sample_credentials ],
                    w1)
          end
        else if is_Exception e then
          Some (Err (SystemExit 1),
                [EvLog ERROR "Error reading credentials: {e}" [LExn e]], w)
        else Some (Err e, [], w)
    end.
Proof.
  unfold _load_credentials, bind, attempt, load_json, lift, log, emit,
    py_exit, raise, ret.
  destruct (json_load_file P w file_path) as [credentials|e].
  - destruct (py_getitem_str credentials "consumer_key") as [ck|e] eqn:Hck.
    + destruct (key_eqb ck (PStr "YOUR_CONSUMER_KEY")); reflexivity.
    + pose proof (rlo_getitem_str credentials "consumer_key" e Hck) as He.
      destruct e; try discriminate He; reflexivity.
  - destruct (is_JSONDecodeError e) eqn:Hjson.
    + unfold _create_sample_credentials, bind, dump_json, log, emit.
      destruct (json_dump_file P w file_path sample_credentials)
        as [[[]|e'] w1]; reflexivity.
    + destruct (is_Exception e); reflexivity.
Qed.

End StartUp.

(** X1.  Without a credentials file, [__init__] writes the sample bundle to
    the path, logs two notices and exits with status 1; nothing is read, no
    client is constructed and no request is sent.  [main] ends the same
    way.  If the sample cannot be written, the exception of the write leaves
    [__init__] as it is. *)
Theorem missing_credentials_file_bootstraps {World : Type}
  (P : Platform World) (credentials_file : string) (w : World) :
  os_path_exists P w credentials_file = false ->
  __init__ P credentials_file w
  = match json_dump_file P w credentials_file sample_credentials with
    | (Ok _, w1) =>
        Some (Err (SystemExit 1), bootstrap_events credentials_file, w1)
    | (Err e, w1) =>
        Some (Err e, [EvWriteJson credentials_file sample_credentials], w1)
    end
  /\ (credentials_file = "twitter_credentials.json" ->
      forall fuel usernames w1,
        json_dump_file P w credentials_file sample_credentials = (Ok tt, w1) ->
        main_with P fuel usernames w
        = Some (Err (SystemExit 1), bootstrap_events credentials_file, w1))
  /\ existsb is_network (bootstrap_events credentials_file) = false
  /\ existsb is_new_client (bootstrap_events credentials_file) = false.
Proof.
  intros Hmissing.
  assert (Hinit :
    __init__ P credentials_file w
    = match json_dump_file P w credentials_file sample_credentials with
      | (Ok _, w1) =>
          Some (Err (SystemExit 1), bootstrap_events credentials_file, w1)
      | (Err e, w1) =>
          Some (Err e, [EvWriteJson credentials_file sample_credentials], w1)
      end).
  { unfold __init__. unfold bind at 1. unfold get_world.
    rewrite Hmissing. cbn [negb].
    unfold bind at 1.
    unfold _create_sample_credentials, bind, dump_json, log, emit, py_exit,
      raise.
    destruct (json_dump_file P w credentials_file sample_credentials)
      as [[[]|e] w1]; reflexivity. }
  split; [exact Hinit|]. split; [|split; reflexivity].
  intros -> fuel usernames w1 Hdump.
  unfold main_with. unfold bind at 1. rewrite Hinit, Hdump. reflexivity.
Qed.

Lemma missing_credentials_file_bootstraps_witness :
  main_with Scripted.platform 3 ["alice"] Samples2.world_without_file
  = Some (Err (SystemExit 1), bootstrap_events "twitter_credentials.json",
          Samples2.world_bootstrapped).
Proof.
  apply (proj1 (proj2 (missing_credentials_file_bootstraps Scripted.platform
                         "twitter_credentials.json" Samples2.world_without_file
                         eq_refl))
           eq_refl 3 ["alice"]).
  reflexivity.
Defined.

(** X2.  A credentials file that is not JSON makes [_load_credentials] log
    the error, write the sample bundle over the file, log two notices and
    exit with status 1; [__init__] ends the same way, before any client or
    request. *)
Theorem malformed_credentials_file_is_regenerated {World : Type}
  (P : Platform World) (file_path : string) (w w1 : World) :
  json_load_file P w file_path = Err JSONDecodeError ->
  json_dump_file P w file_path sample_credentials = (Ok tt, w1) ->
  _load_credentials P file_path w
  = Some (Err (SystemExit 1), malformed_events file_path, w1)
  /\ (os_path_exists P w file_path = true ->
      __init__ P file_path w
      = Some (Err (SystemExit 1), malformed_events file_path, w1))
  /\ existsb is_network (malformed_events file_path) = false
  /\ existsb is_new_client (malformed_events file_path) = false.
Proof.
  intros Hload Hdump.
  assert (Hrun : _load_credentials P file_path w
                 = Some (Err (SystemExit 1), malformed_events file_path, w1)).
  { rewrite load_credentials_run, Hload. simpl. rewrite Hdump. reflexivity. }
  split; [exact Hrun|]. split; [|split; reflexivity].
  intros Hexists. unfold __init__. unfold bind at 1. unfold get_world.
  rewrite Hexists. cbn [negb]. unfold bind at 1. unfold ret at 1.
  unfold bind at 1. rewrite Hrun. reflexivity.
Qed.

Lemma malformed_credentials_file_is_regenerated_witness :
  _load_credentials Scripted.platform "twitter_credentials.json"
    Samples2.world_malformed_file
  = Some (Err (SystemExit 1), malformed_events "twitter_credentials.json",
          snd (json_dump_file Scripted.platform Samples2.world_malformed_file
                 "twitter_credentials.json" sample_credentials)).
Proof.
  apply (proj1 (malformed_credentials_file_is_regenerated Scripted.platform
                  "twitter_credentials.json" Samples2.world_malformed_file _
                  eq_refl eq_refl)).
Defined.

(** X3.  [_load_credentials] returns a bundle exactly when the file parses,
    the parsed value has a [consumer_key] and that differs from the
    placeholder; the bundle is the parsed file, nothing is logged or
    written.  An [Exception] of the read other than a JSON error is logged
    and becomes an exit with status 1.  A run that raises exits with status
    1, with two exceptions: the read raised something that is no
    [Exception], or the file was not JSON and the write of the sample
    raised. *)
Theorem load_credentials_accepts_exactly {World : Type} (P : Platform World)
  (file_path : string) (w : World) :
  (forall credentials tr w',
      _load_credentials P file_path w = Some (Ok credentials, tr, w') <->
      json_load_file P w file_path = Ok credentials /\
      (exists consumer_key,
          py_getitem_str credentials "consumer_key" = Ok consumer_key /\
          consumer_key <> PStr "YOUR_CONSUMER_KEY") /\
      tr = [] /\ w' = w) /\
  (forall e,
      json_load_file P w file_path = Err e ->
      is_Exception e = true -> is_JSONDecodeError e = false ->
      _load_credentials P file_path w
      = Some (Err (SystemExit 1),
              [EvLog ERROR "Error reading credentials: {e}" [LExn e]], w)) /\
  (forall e tr w',
      _load_credentials P file_path w = Some (Err e, tr, w') ->
      e = SystemExit 1 \/
      (json_load_file P w file_path = Err e /\ is_Exception e = false /\
       tr = [] /\ w' = w) \/
      (json_load_file P w file_path = Err JSONDecodeError /\
       json_dump_file P w file_path sample_credentials = (Err e, w'))).
Proof.
  split.
  - intros credentials tr w'. rewrite load_credentials_run. split.
    + destruct (json_load_file P w file_path) as [c|e].
      * destruct (py_getitem_str c "consumer_key") as [ck|e] eqn:Hck;
          [|discriminate].
        destruct (key_eqb ck (PStr "YOUR_CONSUMER_KEY")) eqn:Hkey;
          [discriminate|].
        intros H. injection H as <- <- <-.
        split; [reflexivity|]. split; [|split; reflexivity].
        exists ck. split; [exact Hck|].
        intros Heq. apply key_eqb_PStr_iff in Heq. congruence.
      * destruct (is_JSONDecodeError e).
        -- destruct (json_dump_file P w file_path sample_credentials)
             as [[[]|e'] w1]; discriminate.
        -- destruct (is_Exception e); discriminate.
    + intros [Hload [[ck [Hck Hne]] [-> ->]]]. rewrite Hload, Hck.
      destruct (key_eqb ck (PStr "YOUR_CONSUMER_KEY")) eqn:Hkey;
        [|reflexivity].
      apply key_eqb_PStr_iff in Hkey. contradiction.
  - split.
    + intros e Hload Hexn Hjson. rewrite load_credentials_run.
      rewrite Hload, Hjson, Hexn. reflexivity.
    + intros e tr w'. rewrite load_credentials_run.
      destruct (json_load_file P w file_path) as [c|e0].
      * destruct (py_getitem_str c "consumer_key") as [ck|e1].
        -- destruct (key_eqb ck (PStr "YOUR_CONSUMER_KEY"));
             intros H; [|discriminate].
           injection H as <- <- <-. left. reflexivity.
        -- intros H. injection H as <- <- <-. left. reflexivity.
      * destruct (is_JSONDecodeError e0) eqn:Hjson.
        -- assert (e0 = JSONDecodeError) as ->
             by (destruct e0; try discriminate Hjson; reflexivity).
           destruct (json_dump_file P w file_path sample_credentials)
             as [[[]|e'] w1]; intros H; injection H as <- <- <-.
           ++ left. reflexivity.
           ++ right. right. split; reflexivity.
        -- destruct (is_Exception e0) eqn:Hexn;
             intros H; injection H as <- <- <-.
           ++ left. reflexivity.
           ++ right. left. repeat split; try reflexivity. exact Hexn.
Qed.

Lemma load_credentials_accepts_exactly_witness :
  _load_credentials Scripted.platform "twitter_credentials.json"
    Scripted.world0
  = Some (Ok Scripted.real_credentials, [], Scripted.world0) /\
  _load_credentials Scripted.platform "twitter_credentials.json"
    Samples2.world_without_file
  = Some (Err (SystemExit 1),
          [EvLog ERROR "Error reading credentials: {e}"
             [LExn (OSError "No such file or directory")]],
          Samples2.world_without_file).
Proof.
  split.
  - apply (proj1 (load_credentials_accepts_exactly Scripted.platform
                    "twitter_credentials.json" Scripted.world0)).
    split; [reflexivity|]. split; [|split; reflexivity].
    exists (PStr "ck"). split; [reflexivity | discriminate].
  - apply (proj1 (proj2 (load_credentials_accepts_exactly Scripted.platform
                           "twitter_credentials.json"
                           Samples2.world_without_file)));
      reflexivity.
Defined.

(** X4.  [_authenticate] reads the five credential keys; when one of them is
    missing from the bundle it logs the failure and exits with status 1
    without constructing a client.  With all five it constructs the client
    from exactly those values and [wait_on_rate_limit=True]; an [Exception]
    of the constructor becomes an exit with status 1. *)
Theorem authenticate_needs_all_keys {World : Type} (P : Platform World)
  (credentials : pyval) (w : World) :
  ((exists key, In key credential_keys /\ has_key key credentials = false) ->
   exists e,
     _authenticate P credentials w
     = Some (Err (SystemExit 1),
             [EvLog ERROR "Authentication failed: {e}" [LExn e]], w)) /\
  (forall bearer_token consumer_key consumer_secret access_token
          access_token_secret,
      py_getitem_str credentials "bearer_token" = Ok bearer_token ->
      py_getitem_str credentials "consumer_key" = Ok consumer_key ->
      py_getitem_str credentials "consumer_secret" = Ok consumer_secret ->
      py_getitem_str credentials "access_token" = Ok access_token ->
      py_getitem_str credentials "access_token_secret"
      = Ok access_token_secret ->
      let kwargs :=
        [ (PStr "bearer_token", bearer_token);
          (PStr "consumer_key", consumer_key);
          (PStr "consumer_secret", consumer_secret);
          (PStr "access_token", access_token);
          (PStr "access_token_secret", access_token_secret);
          (PStr "wait_on_rate_limit", PBool true) ] in
      _authenticate P credentials w
      = match tweepy_Client P w kwargs with
        | (Ok _, w1) =>
            Some (Ok tt,
                  [ EvNewClient kwargs;
                    EvLog INFO "Successfully authenticated with Twitter API"
                      [] ],
                  w1)
        | (Err e, w1) =>
            if is_Exception e then
              Some (Err (SystemExit 1),
                    [ EvNewClient kwargs;
                      EvLog ERROR "Authentication failed: {e}" [LExn e] ],
                    w1)
            else Some (Err e, [EvNewClient kwargs], w1)
        end).
Proof.
  split.
  - intros [key [Hin Hmissing]].
    unfold _authenticate, bind, attempt, lift, new_client, log, emit, py_exit,
      raise, ret.
    unfold has_key in Hmissing. simpl in Hin.
    destruct (py_getitem_str credentials "bearer_token") as [v1|e] eqn:H1.
    2:{ pose proof (rlo_getitem_str _ _ _ H1) as He.
        exists e. destruct e; try discriminate He; reflexivity. }
    destruct (py_getitem_str credentials "consumer_key") as [v2|e] eqn:H2.
    2:{ pose proof (rlo_getitem_str _ _ _ H2) as He.
        exists e. destruct e; try discriminate He; reflexivity. }
    destruct (py_getitem_str credentials "consumer_secret") as [v3|e] eqn:H3.
    2:{ pose proof (rlo_getitem_str _ _ _ H3) as He.
        exists e. destruct e; try discriminate He; reflexivity. }
    destruct (py_getitem_str credentials "access_token") as [v4|e] eqn:H4.
    2:{ pose proof (rlo_getitem_str _ _ _ H4) as He.
        exists e. destruct e; try discriminate He; reflexivity. }
    destruct (py_getitem_str credentials "access_token_secret")
      as [v5|e] eqn:H5.
    2:{ pose proof (rlo_getitem_str _ _ _ H5) as He.
        exists e. destruct e; try discriminate He; reflexivity. }
    exfalso.
    destruct Hin as [<-|[<-|[<-|[<-|[<-|[]]]]]];
      [rewrite H1 in Hmissing | rewrite H2 in Hmissing
       | rewrite H3 in Hmissing | rewrite H4 in Hmissing
       | rewrite H5 in Hmissing]; discriminate Hmissing.
  - intros v1 v2 v3 v4 v5 H1 H2 H3 H4 H5 kwargs.
    unfold _authenticate, bind, attempt, lift, new_client, log, emit, py_exit,
      raise, ret.
    rewrite H1, H2, H3, H4, H5. fold kwargs.
    destruct (tweepy_Client P w kwargs) as [[[]|e] w1]; [reflexivity|].
    destruct (is_Exception e); reflexivity.
Qed.

Lemma authenticate_needs_all_keys_witness :
  (exists e,
      _authenticate Scripted.platform Samples2.credentials_without_bearer
        Scripted.world0
      = Some (Err (SystemExit 1),
              [EvLog ERROR "Authentication failed: {e}" [LExn e]],
              Scripted.world0)) /\
  _authenticate Scripted.platform Scripted.real_credentials Scripted.world0
  = Some (Ok tt,
          [ EvNewClient
              [ (PStr "bearer_token", PStr "bt");
                (PStr "consumer_key", PStr "ck");
                (PStr "consumer_secret", PStr "cs");
                (PStr "access_token", PStr "at");
                (PStr "access_token_secret", PStr "ats");
                (PStr "wait_on_rate_limit", PBool true) ];
            EvLog INFO "Successfully authenticated with Twitter API" [] ],
          Scripted.world0).
Proof.
  split.
  - apply (proj1 (authenticate_needs_all_keys Scripted.platform
                    Samples2.credentials_without_bearer Scripted.world0)).
    exists "bearer_token". split; [left; reflexivity | reflexivity].
  - apply (proj2 (authenticate_needs_all_keys Scripted.platform
                    Scripted.real_credentials Scripted.world0)
             (PStr "bt") (PStr "ck") (PStr "cs") (PStr "at") (PStr "ats"));
      reflexivity.
Defined.

(* ================================================================== *)
(** ** Further properties: the normaliser *)
(* ================================================================== *)

(** *** Equality of keys is an equivalence where it holds *)

Lemma key_eqb_sym (a b : pyval) : key_eqb a b = key_eqb b a.
Proof.
  destruct a, b; simpl; try reflexivity.
  - destruct b, b0; reflexivity.
  - apply Z.eqb_sym.
  - apply String.eqb_sym.
  - apply String.eqb_sym.
  - apply Nat.eqb_sym.
Qed.

Lemma key_eqb_trans (a b c : pyval) :
  key_eqb a b = true -> key_eqb b c = true -> key_eqb a c = true.
Proof.
  destruct a, b; simpl; try discriminate; destruct c; simpl;
    try discriminate;
    rewrite ?Z.eqb_eq, ?String.eqb_eq, ?Nat.eqb_eq, ?Bool.eqb_true_iff;
    try congruence;
    repeat match goal with b : bool |- _ => destruct b end;
    intros; subst; try reflexivity; try discriminate; try lia.
Qed.

Lemma key_eqb_congr (k0 k q : pyval) :
  key_eqb k0 k = true -> key_eqb k0 q = key_eqb k q.
Proof.
  intros H. destruct (key_eqb k q) eqn:E.
  - eapply key_eqb_trans; eassumption.
  - destruct (key_eqb k0 q) eqn:E'; [|reflexivity].
    rewrite <- E. symmetry. eapply key_eqb_trans; [|exact E'].
    rewrite key_eqb_sym. exact H.
Qed.

(** Insert, then look up. *)
Lemma dict_get_set_eq (d : dict) (k v q : pyval) :
  dict_get (dict_set d k v) q
  = if key_eqb k q then Some v else dict_get d q.
Proof.
  induction d as [|[k0 v0] rest IH]; simpl.
  - reflexivity.
  - destruct (key_eqb k0 k) eqn:E; simpl.
    + rewrite (key_eqb_congr _ _ q E). destruct (key_eqb k q); reflexivity.
    + destruct (key_eqb k0 q) eqn:E'; [|exact IH].
      destruct (key_eqb k q) eqn:E''; [|reflexivity].
      assert (key_eqb k0 k = true); [|congruence].
      eapply key_eqb_trans; [exact E'|]. rewrite key_eqb_sym. exact E''.
Qed.

Lemma dict_comprehension_lookup (key_attr : string) (items : list pyval)
  (q : pyval) :
  forall acc d,
    dict_comprehension key_attr items acc = Ok d ->
    dict_get d q
    = match last_with_key key_attr q items with
      | Some x => Some x
      | None => dict_get acc q
      end.
Proof.
  induction items as [|x rest IH]; simpl; intros acc d H.
  - injection H as <-. reflexivity.
  - apply rbind_Ok in H. destruct H as [k [Hk H]].
    apply rbind_Ok in H. destruct H as [[] [_ H]].
    rewrite (IH _ _ H).
    destruct (last_with_key key_attr q rest) as [y|]; [reflexivity|].
    rewrite dict_get_set_eq.
    unfold py_getattr in Hk.
    destruct (attr_opt x key_attr) as [kx|]; [|discriminate].
    injection Hk as ->. destruct (key_eqb k q); reflexivity.
Qed.

Lemma side_table_lookup (includes : dict)
  (name key_attr : string) (table : dict) (q : pyval) :
  side_table (PDict includes) name key_attr = Ok table ->
  dict_get table q = last_with_key key_attr q (included includes name).
Proof.
  unfold side_table, included. simpl. intros H.
  destruct (existsb _ (dict_keys includes)) eqn:Ex.
  - destruct (dict_get includes (PStr name)) as [xs|] eqn:E.
    + simpl in H. apply rbind_Ok in H. destruct H as [items [Hit H]].
      rewrite Hit. rewrite (dict_comprehension_lookup _ _ q _ _ H).
      destruct (last_with_key key_attr q items); reflexivity.
    + apply dict_get_keys in E. congruence.
  - injection H as <-. apply dict_get_keys in Ex. rewrite Ex. reflexivity.
Qed.

(** X6.  A lookup dictionary built from a side table of [includes] finds,
    under a key, the last record of the table whose key attribute equals it,
    and nothing under a key that no record has. *)
Theorem side_table_finds_last_record (includes : dict)
  (name key_attr : string) (table : dict) (q : pyval) :
  side_table (PDict includes) name key_attr = Ok table ->
  dict_get table q = last_with_key key_attr q (included includes name).
Proof. apply side_table_lookup. Qed.

Lemma side_table_finds_last_record_witness :
  dict_get
    [ (PInt 7, PObj 0 [("id", PInt 7); ("name", PStr "second")]) ] (PInt 7)
  = last_with_key "id" (PInt 7)
      (included
         [ (PStr "users",
            PList [ PObj 0 [("id", PInt 7); ("name", PStr "first")];
                    PObj 0 [("id", PInt 7); ("name", PStr "second")] ]) ]
         "users").
Proof.
  apply (side_table_finds_last_record
           [ (PStr "users",
              PList [ PObj 0 [("id", PInt 7); ("name", PStr "first")];
                      PObj 0 [("id", PInt 7); ("name", PStr "second")] ]) ]
           "users" "id").
  reflexivity.
Defined.

(** *** The records of a page, with its lookup dictionaries *)

Lemma process_tweets_tables (tweets_response : pyval) (out : list pyval) :
  _process_tweets tweets_response = Ok out ->
  (raw_posts tweets_response = [] /\ out = []) \/
  exists includes users media tweets_lookup,
    attr_opt tweets_response "includes" = Some includes /\
    side_table includes "users" "id" = Ok users /\
    side_table includes "media" "media_key" = Ok media /\
    side_table includes "tweets" "id" = Ok tweets_lookup /\
    Forall2 (fun tweet record =>
               process_tweet users media tweets_lookup tweet = Ok record)
            (raw_posts tweets_response) out.
Proof.
  unfold _process_tweets, raw_posts. intros H.
  apply rbind_Ok in H. destruct H as [data [Hdata H]]. rewrite Hdata.
  destruct (py_truthy data); simpl in H.
  - right.
    apply rbind_Ok in H. destruct H as [includes [Hinc H]].
    apply rbind_Ok in H. destruct H as [users [Hu H]].
    apply rbind_Ok in H. destruct H as [media [Hm H]].
    apply rbind_Ok in H. destruct H as [tweets_lookup [Ht H]].
    apply rbind_Ok in H. destruct H as [tweets [Htweets H]].
    rewrite Htweets. exists includes, users, media, tweets_lookup.
    unfold py_getattr in Hinc.
    destruct (attr_opt tweets_response "includes") as [inc|]; [|discriminate].
    injection Hinc as ->.
    repeat split; try assumption. apply for_each_Forall2. exact H.
  - injection H as <-. left. split; reflexivity.
Qed.

Lemma Forall2_weaken {A B : Type} (R R' : A -> B -> Prop) (l : list A)
  (l' : list B) :
  (forall a b, R a b -> R' a b) -> Forall2 R l l' -> Forall2 R' l l'.
Proof. intros H. induction 1; constructor; auto. Qed.

(** Splits the bound steps of [process_tweet]. *)
Lemma process_tweet_parts (users media tweets_lookup : dict)
  (tweet record : pyval) :
  process_tweet users media tweets_lookup tweet = Ok record ->
  exists author_info media_items referenced_tweets entities id text iso,
    get_author_info users tweet = Ok author_info /\
    get_media_items media tweet = Ok media_items /\
    get_referenced_tweets tweets_lookup tweet = Ok referenced_tweets /\
    get_entities tweet = Ok entities /\
    record
    = PDict
        [ (PStr "id", id);
          (PStr "text", text);
          (PStr "created_at", iso);
          (PStr "lang", py_getattr_default tweet "lang" PNone);
          (PStr "source", py_getattr_default tweet "source" PNone);
          (PStr "public_metrics",
             py_getattr_default tweet "public_metrics" PNone);
          (PStr "author", author_info);
          (PStr "media", or_None media_items);
          (PStr "referenced_tweets", or_None referenced_tweets);
          (PStr "entities", PDict entities) ].
Proof.
  unfold process_tweet. intros H.
  apply rbind_Ok in H. destruct H as [author_info [Ha H]].
  apply rbind_Ok in H. destruct H as [media_items [Hm H]].
  apply rbind_Ok in H. destruct H as [referenced [Hr H]].
  apply rbind_Ok in H. destruct H as [entities [He H]].
  apply rbind_Ok in H. destruct H as [id [_ H]].
  apply rbind_Ok in H. destruct H as [text [_ H]].
  apply rbind_Ok in H. destruct H as [created_at [_ H]].
  apply rbind_Ok in H. destruct H as [iso [_ H]].
  injection H as <-.
  exists author_info, media_items, referenced, entities, id, text, iso.
  repeat split; assumption.
Qed.

(** X5.  Every Post Record has the same ten keys in the same order, and its
    [lang], [source] and [public_metrics] are those of the raw post, [None]
    where the post has none. *)
Theorem records_have_fixed_shape (tweets_response : pyval)
  (out : list pyval) :
  _process_tweets tweets_response = Ok out ->
  Forall2 record_shape (raw_posts tweets_response) out.
Proof.
  intros H. apply process_tweets_pointwise in H.
  destruct H as [users [media [tweets_lookup H]]].
  eapply Forall2_weaken; [|exact H]. intros tweet record Hrec.
  apply process_tweet_parts in Hrec.
  destruct Hrec as [a [m [r [e [id [text [iso [_ [_ [_ [_ ->]]]]]]]]]]].
  eexists. split; [reflexivity|]. repeat split.
Qed.

Lemma records_have_fixed_shape_witness :
  Forall2 record_shape (raw_posts Samples.page_entities)
    (page_posts Samples.page_entities).
Proof.
  apply (records_have_fixed_shape Samples.page_entities).
  vm_compute. reflexivity.
Defined.

Lemma last_with_key_truthy (key_attr : string) (q : pyval)
  (items : list pyval) (x : pyval) :
  last_with_key key_attr q items = Some x -> py_truthy x = true.
Proof.
  induction items as [|y rest IH]; simpl; [discriminate|].
  destruct (last_with_key key_attr q rest) as [z|].
  - intros H. injection H as <-. apply IH. reflexivity.
  - destruct y; simpl; try discriminate.
    destruct (assoc_str key_attr attrs) as [kx|]; [|discriminate].
    destruct (key_eqb kx q); [|discriminate].
    intros H. injection H as <-. reflexivity.
Qed.

Lemma getattr_attr (v : pyval) (name : string) (x : pyval) :
  py_getattr v name = Ok x -> attr_opt v name = Some x.
Proof.
  unfold py_getattr. destruct (attr_opt v name); intros H;
    [injection H as <-; reflexivity | discriminate].
Qed.

Lemma author_info_of_summary (author info : pyval) :
  author_info_of author = Ok info -> author_summary author info.
Proof.
  unfold author_info_of. intros H.
  apply rbind_Ok in H. destruct H as [id [Hid H]].
  apply rbind_Ok in H. destruct H as [name [Hname H]].
  apply rbind_Ok in H. destruct H as [username [Huser H]].
  apply rbind_Ok in H. destruct H as [description [Hdesc H]].
  apply rbind_Ok in H. destruct H as [pm1 [Hpm1 H]].
  apply rbind_Ok in H. destruct H as [followers [Hf H]].
  apply rbind_Ok in H. destruct H as [pm2 [Hpm2 H]].
  apply rbind_Ok in H. destruct H as [following [Hg H]].
  apply rbind_Ok in H. destruct H as [pm3 [Hpm3 H]].
  apply rbind_Ok in H. destruct H as [tweets [Ht H]].
  injection H as <-.
  assert (pm2 = pm1) by congruence. assert (pm3 = pm1) by congruence. subst.
  apply getattr_attr in Hid, Hname, Huser, Hdesc, Hpm1.
  exists id, name, username, description, pm1, followers, following, tweets.
  repeat split; assumption.
Qed.

Lemma get_author_info_spec (users : dict) (tweet info : pyval) :
  get_author_info users tweet = Ok info ->
  exists author_id,
    attr_opt tweet "author_id" = Some author_id /\
    match dict_get users author_id with
    | None => info = PNone
    | Some u => if py_truthy u then author_summary u info else info = PNone
    end.
Proof.
  unfold get_author_info. intros H.
  apply rbind_Ok in H. destruct H as [author_id [Hid H]].
  apply rbind_Ok in H. destruct H as [[] [_ H]].
  apply getattr_attr in Hid. exists author_id. split; [exact Hid|].
  destruct (dict_get users author_id) as [u|].
  - destruct (py_truthy u).
    + apply author_info_of_summary. exact H.
    + injection H as <-. reflexivity.
  - simpl in H. injection H as <-. reflexivity.
Qed.

(** X7.  The author of a Post Record is the summary of the last included
    user whose id equals the post's [author_id]: its id, name, handle,
    description and three counts, [verified] defaulting to [False] and
    [profile_image_url] to [None]; it is [None] when no included user has
    that id. *)
Theorem author_is_resolved_from_includes (tweets_response : pyval)
  (includes : dict) (out : list pyval) :
  _process_tweets tweets_response = Ok out ->
  attr_opt tweets_response "includes" = Some (PDict includes) ->
  Forall2 (author_resolved (included includes "users"))
    (raw_posts tweets_response) out.
Proof.
  intros H Hinc. apply process_tweets_tables in H.
  destruct H as [[-> ->] | [inc [users [media [tl [Hinc' [Hu [_ [_ H]]]]]]]]];
    [constructor|].
  rewrite Hinc in Hinc'. injection Hinc' as <-.
  eapply Forall2_weaken; [|exact H]. intros tweet record Hrec.
  apply process_tweet_parts in Hrec.
  destruct Hrec as [a [m [r [e [id [text [iso [Ha [_ [_ [_ ->]]]]]]]]]]].
  apply get_author_info_spec in Ha. destruct Ha as [author_id [Hid Ha]].
  exists author_id. split; [exact Hid|].
  rewrite (side_table_lookup _ _ _ _ author_id Hu) in Ha.
  destruct (last_with_key "id" author_id (included includes "users"))
    as [u|] eqn:Hlast.
  - rewrite (last_with_key_truthy _ _ _ _ Hlast) in Ha.
    exists a. split; [reflexivity | exact Ha].
  - subst a. reflexivity.
Qed.

Lemma author_is_resolved_from_includes_witness :
  Forall2 (author_resolved (included page_rich_includes "users"))
    (raw_posts page_rich) (page_posts page_rich).
Proof.
  apply (author_is_resolved_from_includes page_rich page_rich_includes).
  - vm_compute. reflexivity.
  - reflexivity.
Defined.

Lemma media_item_of_spec (media : dict) (media_key : pyval)
  (items : list pyval) :
  media_item_of media media_key = Ok items ->
  match dict_get media media_key with
  | None => items = []
  | Some m => exists item, items = [item] /\ media_item_for media_key m item
  end.
Proof.
  unfold media_item_of. intros H.
  apply rbind_Ok in H. destruct H as [[] [_ H]].
  destruct (dict_get media media_key) as [m|].
  - apply rbind_Ok in H. destruct H as [ty [Hty H]].
    apply getattr_attr in Hty. unfold media_item_for.
    destruct (attr_opt m "public_metrics") as [pm|];
      injection H as <-; eexists; (split; [reflexivity|]);
      exists ty; eexists; repeat split; try reflexivity; exact Hty.
  - injection H as <-. reflexivity.
Qed.

Lemma media_items_spec (media : dict) (keys : list pyval) :
  forall itemss,
    for_each (media_item_of media) keys = Ok itemss ->
    Forall2
      (fun media_key item =>
         exists m,
           dict_get media media_key = Some m /\
           media_item_for media_key m item)
      (filter (fun k => is_some (dict_get media k)) keys)
      (List.concat itemss).
Proof.
  induction keys as [|k rest IH]; simpl; intros itemss H.
  - injection H as <-. constructor.
  - apply rbind_Ok in H. destruct H as [items [Hk H]].
    apply rbind_Ok in H. destruct H as [itemss' [Hrest H]].
    injection H as <-. simpl.
    apply media_item_of_spec in Hk. specialize (IH _ Hrest).
    destruct (dict_get media k) as [m|] eqn:E; simpl.
    + destruct Hk as [item [-> Hitem]]. simpl. constructor; [|exact IH].
      exists m. split; [exact E | exact Hitem].
    + subst items. exact IH.
Qed.

Lemma get_media_items_spec (media : dict) (tweet : pyval)
  (items : list pyval) :
  get_media_items media tweet = Ok items ->
  Forall2
    (fun media_key item =>
       exists m,
         dict_get media media_key = Some m /\
         media_item_for media_key m item)
    (filter (fun k => is_some (dict_get media k)) (attached_media_keys tweet))
    items.
Proof.
  unfold get_media_items, attached_media_keys.
  destruct (attr_opt tweet "attachments") as [a|].
  - destruct (attr_opt a "media_keys") as [ks|].
    + intros H. apply rbind_Ok in H. destruct H as [keys [-> H]].
      apply rbind_Ok in H. destruct H as [itemss [Hitems H]].
      injection H as <-. apply media_items_spec. exact Hitems.
    + intros H. injection H as <-. constructor.
  - intros H. injection H as <-. constructor.
Qed.

Lemma filter_ext_eq {A : Type} (f g : A -> bool) (l : list A) :
  (forall a, f a = g a) -> filter f l = filter g l.
Proof.
  intros H. induction l as [|a rest IH]; simpl; [reflexivity|].
  rewrite H, IH. reflexivity.
Qed.

Lemma media_resolved_all (tweets_response : pyval)
  (includes : dict) (out : list pyval) :
  _process_tweets tweets_response = Ok out ->
  attr_opt tweets_response "includes" = Some (PDict includes) ->
  Forall2 (media_resolved (included includes "media"))
    (raw_posts tweets_response) out.
Proof.
  intros H Hinc. apply process_tweets_tables in H.
  destruct H as [[-> ->] | [inc [users [media [tl [Hinc' [_ [Hm [_ H]]]]]]]]];
    [constructor|].
  rewrite Hinc in Hinc'. injection Hinc' as <-.
  eapply Forall2_weaken; [|exact H]. intros tweet record Hrec.
  apply process_tweet_parts in Hrec.
  destruct Hrec as [a [m [r [e [id [text [iso [_ [Hmi [_ [_ ->]]]]]]]]]]].
  apply get_media_items_spec in Hmi.
  exists m. split; [reflexivity|].
  rewrite (filter_ext_eq _
             (fun k => is_some (last_with_key "media_key" k
                                  (included includes "media")))) in Hmi.
  - eapply Forall2_weaken; [|exact Hmi].
    intros k item [rec [Hget Hitem]]. exists rec. split; [|exact Hitem].
    rewrite <- (side_table_lookup _ _ _ _ k Hm). exact Hget.
  - intros k. rewrite (side_table_lookup _ _ _ _ k Hm). reflexivity.
Qed.

(** Media keys held under a key of a mapping are not read. *)
Lemma media_resolved_mapping (media : list pyval) (tweet record : pyval)
  (attachments : dict) :
  media_resolved media tweet record ->
  attr_opt tweet "attachments" = Some (PDict attachments) ->
  record_field "media" record = Some PNone.
Proof.
  intros [items [Hfield Hitems]] Hatt.
  unfold attached_media_keys in Hitems. rewrite Hatt in Hitems.
  simpl in Hitems. inversion Hitems; subst. exact Hfield.
Qed.

(** The characters of a [str] are its bytes, cut before every byte that
    starts a character. *)
Lemma code_points_concat (s : string) :
  String.concat EmptyString (code_points s) = s.
Proof.
  induction s as [|c s IH]; [reflexivity|].
  simpl. destruct (code_points s) as [|next others] eqn:Hcp.
  - simpl in IH. subst s. reflexivity.
  - destruct (starts_with_continuation next).
    + rewrite <- IH. destruct others; reflexivity.
    + rewrite <- IH. reflexivity.
Qed.

(** A [str] of four bytes and three characters: the two bytes of the second
    character stay together. *)
Lemma code_points_two_byte_character :
  code_points
    (String "a" (String (ascii_of_nat 195) (String (ascii_of_nat 169) "b")))
  = [ "a"%string;
      String (ascii_of_nat 195) (String (ascii_of_nat 169) EmptyString);
      "b"%string ].
Proof. reflexivity. Qed.

(** X8.  The media field of a Post Record is built from what attribute
    access reaches.  For a raw post whose [attachments] is an object with an
    attribute [media_keys], it holds one item per media key that has a
    record among the included media, in attachment order; keys without a
    record are skipped.  Each item carries its key, the type, [url] and
    [alt_text] of the record ([None] where it has none) and its metrics if
    it has any.  The field is [None] when no key is resolved, and it is
    [None] for every raw post whose [attachments] is a mapping, whatever
    media keys the mapping holds and whatever media are included. *)
Theorem media_are_resolved_in_order (tweets_response : pyval)
  (includes : dict) (out : list pyval) :
  _process_tweets tweets_response = Ok out ->
  attr_opt tweets_response "includes" = Some (PDict includes) ->
  Forall2
    (fun tweet record =>
       media_resolved (included includes "media") tweet record /\
       forall attachments,
         attr_opt tweet "attachments" = Some (PDict attachments) ->
         record_field "media" record = Some PNone)
    (raw_posts tweets_response) out.
Proof.
  intros H Hinc.
  eapply Forall2_weaken; [|exact (media_resolved_all _ _ _ H Hinc)].
  intros tweet record Hres. split; [exact Hres|].
  intros attachments. apply (media_resolved_mapping _ _ _ _ Hres).
Qed.

Lemma media_are_resolved_in_order_witness :
  Forall2
    (fun tweet record =>
       media_resolved (included page_rich_includes "media") tweet record /\
       forall attachments,
         attr_opt tweet "attachments" = Some (PDict attachments) ->
         record_field "media" record = Some PNone)
    (raw_posts page_rich ++ raw_posts page_mapped)
    (page_posts page_rich ++ page_posts page_mapped) /\
  map (record_field "media") (page_posts page_rich)
  = [ Some (PList [ PDict [ (PStr "type", PStr "photo");
                            (PStr "media_key", PStr "m1");
                            (PStr "url", PStr "https://img/1");
                            (PStr "alt_text", PNone) ] ]) ] /\
  map (record_field "media") (page_posts page_mapped) = [Some PNone].
Proof.
  split; [|split; vm_compute; reflexivity].
  apply Forall2_app.
  - apply (media_are_resolved_in_order page_rich page_rich_includes).
    + vm_compute. reflexivity.
    + reflexivity.
  - apply (media_are_resolved_in_order page_mapped page_rich_includes).
    + vm_compute. reflexivity.
    + reflexivity.
Defined.

Lemma ref_data_of_spec (tweets_lookup : dict) (ref ref_data : pyval) :
  ref_data_of tweets_lookup ref = Ok ref_data ->
  exists ty id fields,
    attr_opt ref "type" = Some ty /\
    attr_opt ref "id" = Some id /\
    ref_data = PDict fields /\
    dict_get fields (PStr "type") = Some ty /\
    dict_get fields (PStr "id") = Some id /\
    match dict_get tweets_lookup id with
    | None => dict_keys fields = [PStr "type"; PStr "id"]
    | Some target =>
        exists text iso,
          attr_opt target "text" = Some text /\
          attr_opt target "created_at" = Some (PDatetime iso) /\
          dict_get fields (PStr "text") = Some text /\
          dict_get fields (PStr "created_at") = Some (PStr iso) /\
          dict_get fields (PStr "public_metrics")
          = attr_opt target "public_metrics"
    end.
Proof.
  unfold ref_data_of. intros H.
  apply rbind_Ok in H. destruct H as [ty [Hty H]].
  apply rbind_Ok in H. destruct H as [id [Hid H]].
  apply rbind_Ok in H. destruct H as [id' [Hid' H]].
  assert (id' = id) by congruence. subst id'.
  apply rbind_Ok in H. destruct H as [[] [_ H]].
  apply getattr_attr in Hty, Hid.
  exists ty, id.
  destruct (dict_get tweets_lookup id) as [target|].
  - apply rbind_Ok in H. destruct H as [text [Htext H]].
    apply rbind_Ok in H. destruct H as [created_at [Hca H]].
    apply rbind_Ok in H. destruct H as [iso [Hiso H]].
    apply getattr_attr in Htext, Hca.
    destruct created_at as [| | | |stamp| | |]; try discriminate.
    injection Hiso as <-.
    destruct (attr_opt target "public_metrics") as [pm|] eqn:Hpm;
      injection H as <-; eexists; repeat split; try eassumption;
      try reflexivity; exists text, stamp; repeat split; assumption.
  - injection H as <-. eexists. repeat split; assumption.
Qed.

(** X9.  The referenced-posts field of a Post Record holds one reference
    record per reference entry of the raw post, in order, with the type and
    id of the entry; the record also has the text, the ISO timestamp and,
    if any, the metrics of the target when the target is among the included
    posts, and only type and id otherwise.  The field is [None] for a post
    without entries. *)
Theorem references_are_kept_in_order (tweets_response : pyval)
  (includes : dict) (out : list pyval) :
  _process_tweets tweets_response = Ok out ->
  attr_opt tweets_response "includes" = Some (PDict includes) ->
  Forall2 (references_resolved (included includes "tweets"))
    (raw_posts tweets_response) out.
Proof.
  intros H Hinc. apply process_tweets_tables in H.
  destruct H as [[-> ->] | [inc [users [media [tl [Hinc' [_ [_ [Ht H]]]]]]]]];
    [constructor|].
  rewrite Hinc in Hinc'. injection Hinc' as <-.
  eapply Forall2_weaken; [|exact H]. intros tweet record Hrec.
  apply process_tweet_parts in Hrec.
  destruct Hrec as [a [m [r [e [id [text [iso [_ [_ [Hr [_ ->]]]]]]]]]]].
  exists r. split; [reflexivity|].
  unfold get_referenced_tweets in Hr. unfold reference_entries.
  destruct (attr_opt tweet "referenced_tweets") as [refs|].
  - destruct (py_truthy refs).
    + apply rbind_Ok in Hr. destruct Hr as [entries [-> Hr]].
      apply for_each_Forall2 in Hr.
      eapply Forall2_weaken; [|exact Hr]. intros ref rd Hrd.
      apply ref_data_of_spec in Hrd.
      destruct Hrd as [ty [rid [fields [H1 [H2 [H3 [H4 [H5 H6]]]]]]]].
      exists ty, rid, fields. repeat split; try assumption.
      rewrite <- (side_table_lookup _ _ _ _ rid Ht). exact H6.
    + injection Hr as <-. constructor.
  - injection Hr as <-. constructor.
Qed.

Lemma references_are_kept_in_order_witness :
  Forall2 (references_resolved (included page_rich_includes "tweets"))
    (raw_posts page_rich) (page_posts page_rich).
Proof.
  apply (references_are_kept_in_order page_rich page_rich_includes).
  - vm_compute. reflexivity.
  - reflexivity.
Defined.

Lemma set_entity_items (tweet_entities : pyval) (kind : string)
  (f : pyval -> result pyval) (entities entities' : dict) :
  set_entity tweet_entities kind f entities = Ok entities' ->
  (kind_items tweet_entities kind = [] /\ entities' = entities) \/
  (exists ys,
      Forall2 (fun x y => f x = Ok y) (kind_items tweet_entities kind) ys /\
      entities' = dict_set entities (PStr kind) (PList ys)).
Proof.
  unfold set_entity, kind_items.
  destruct (attr_opt tweet_entities kind) as [xs|].
  - destruct (py_truthy xs).
    + intros H. apply rbind_Ok in H. destruct H as [items [-> H]].
      apply rbind_Ok in H. destruct H as [ys [Hys H]].
      injection H as <-. right. exists ys.
      split; [apply for_each_Forall2; exact Hys | reflexivity].
    + intros H. injection H as <-. left. split; reflexivity.
  - intros H. injection H as <-. left. split; reflexivity.
Qed.

Lemma get_entities_items (tweet : pyval) (entities : dict) :
  get_entities tweet = Ok entities ->
  exists hashtags mentions urls,
    entities = [ (PStr "hashtags", PList hashtags);
                 (PStr "mentions", PList mentions);
                 (PStr "urls", PList urls) ] /\
    Forall2 (fun x y => hashtag_of x = Ok y)
      (entity_items tweet "hashtags") hashtags /\
    Forall2 (fun x y => mention_of x = Ok y)
      (entity_items tweet "mentions") mentions /\
    Forall2 (fun x y => url_of x = Ok y) (entity_items tweet "urls") urls.
Proof.
  unfold get_entities, entity_items.
  destruct (attr_opt tweet "entities") as [e|].
  - intros H.
    apply rbind_Ok in H. destruct H as [e1 [H1 H]].
    apply rbind_Ok in H. destruct H as [e2 [H2 H3]].
    apply set_entity_items in H1, H2, H3.
    destruct H1 as [[E1 ->] | [hs [F1 ->]]];
      destruct H2 as [[E2 ->] | [ms [F2 ->]]];
      destruct H3 as [[E3 ->] | [us [F3 ->]]];
      cbn; eexists _, _, _; (split; [reflexivity|]);
      rewrite ?E1, ?E2, ?E3; repeat split; first [assumption | constructor].
  - intros H. injection H as <-. exists [], [], [].
    repeat split; constructor.
Qed.

Lemma entities_extracted_all (tweets_response : pyval) (out : list pyval) :
  _process_tweets tweets_response = Ok out ->
  Forall2 entities_extracted (raw_posts tweets_response) out.
Proof.
  intros H. apply process_tweets_pointwise in H.
  destruct H as [users [media [tweets_lookup H]]].
  eapply Forall2_weaken; [|exact H]. intros tweet record Hrec.
  apply process_tweet_parts in Hrec.
  destruct Hrec as [a [m [r [e [id [text [iso [_ [_ [_ [He ->]]]]]]]]]]].
  apply get_entities_items in He.
  destruct He as [hs [ms [us [-> [Hh [Hm Hu]]]]]].
  exists hs, ms, us. split; [reflexivity|]. split; [exact Hh|]. split.
  - eapply Forall2_weaken; [|exact Hm]. intros item mention Hitem.
    unfold mention_of in Hitem.
    apply rbind_Ok in Hitem. destruct Hitem as [username [H1 Hitem]].
    apply rbind_Ok in Hitem. destruct Hitem as [mid [H2 Hitem]].
    injection Hitem as <-. exists username, mid. repeat split; assumption.
  - eapply Forall2_weaken; [|exact Hu]. intros item url Hitem.
    unfold url_of in Hitem.
    apply rbind_Ok in Hitem. destruct Hitem as [short [H1 Hitem]].
    apply rbind_Ok in Hitem. destruct Hitem as [expanded [H2 Hitem]].
    injection Hitem as <-. exists short, expanded. repeat split; assumption.
Qed.

(** Entity items held under the keys of a mapping are not read. *)
Lemma entities_extracted_mapping (tweet record : pyval) (entities : dict) :
  entities_extracted tweet record ->
  attr_opt tweet "entities" = Some (PDict entities) ->
  record_field "entities" record = Some (PDict empty_entities).
Proof.
  intros [hs [ms [us [Hfield [Hh [Hm Hu]]]]]] Hent.
  unfold entity_items in Hh, Hm, Hu. rewrite Hent in Hh, Hm, Hu.
  simpl in Hh, Hm, Hu.
  inversion Hh; inversion Hm; inversion Hu; subst. exact Hfield.
Qed.

(** X10.  The entities of a Post Record are built from what attribute
    access reaches.  For a raw post whose [entities] is an object, its
    hashtags are the [tag] of every item under the attribute [hashtags], its
    mentions the [username] and [id] of every item under [mentions], its
    URLs the [url] and [expanded_url] of every item under [urls], each in
    order.  For a raw post whose [entities] is a mapping the three lists are
    empty, whatever the mapping holds under those keys. *)
Theorem entities_are_extracted_in_order (tweets_response : pyval)
  (out : list pyval) :
  _process_tweets tweets_response = Ok out ->
  Forall2
    (fun tweet record =>
       entities_extracted tweet record /\
       forall entities,
         attr_opt tweet "entities" = Some (PDict entities) ->
         record_field "entities" record = Some (PDict empty_entities))
    (raw_posts tweets_response) out.
Proof.
  intros H.
  eapply Forall2_weaken; [|exact (entities_extracted_all _ _ H)].
  intros tweet record Hext. split; [exact Hext|].
  intros entities. apply (entities_extracted_mapping _ _ _ Hext).
Qed.

Lemma entities_are_extracted_in_order_witness :
  Forall2
    (fun tweet record =>
       entities_extracted tweet record /\
       forall entities,
         attr_opt tweet "entities" = Some (PDict entities) ->
         record_field "entities" record = Some (PDict empty_entities))
    (raw_posts page_rich ++ raw_posts page_mapped)
    (page_posts page_rich ++ page_posts page_mapped) /\
  map (record_field "entities") (page_posts page_rich)
  = [ Some (PDict
              [ (PStr "hashtags", PList [PStr "rocq"]);
                (PStr "mentions",
                 PList [PDict [(PStr "username", PStr "ada");
                               (PStr "id", PStr "7")]]);
                (PStr "urls",
                 PList [PDict [(PStr "url", PStr "https://t.co/x");
                               (PStr "expanded_url",
                                PStr "https://example.org/x")]]) ]) ] /\
  map (record_field "entities") (page_posts page_mapped)
  = [Some (PDict empty_entities)].
Proof.
  split; [|split; vm_compute; reflexivity].
  apply Forall2_app.
  - apply (entities_are_extracted_in_order page_rich).
    vm_compute. reflexivity.
  - apply (entities_are_extracted_in_order page_mapped).
    vm_compute. reflexivity.
Defined.

(* ================================================================== *)
(** ** Further properties: the fetch loop *)
(* ================================================================== *)


Lemma pass_ctl_rate_limited (max_tweets : Z)
  (all_tweets all_tweets' : list pyval) (reply : result pyval) (e : exn) :
  pass_ctl max_tweets all_tweets reply = Raised e all_tweets' ->
  is_TooManyRequests e = true ->
  reply = Err TooManyRequests /\ all_tweets' = all_tweets.
Proof.
  destruct reply as [page|e0]; simpl; intros H He.
  - apply page_step_raised in H. apply lookup_error_is_exception in H.
    destruct H as [_ H]. congruence.
  - injection H as <- <-. destruct e0; try discriminate He.
    split; reflexivity.
Qed.

Section LoopTraces.

Context {World : Type} (P : Platform World).
Variables (user_id : pyval) (max_tweets : Z).

(** Induction over the passes of a run of the loop that finished. *)
Lemma loop_run_ind (Q : list pyval -> pyval -> list event -> Prop) :
  (forall all_tweets token reply all_tweets',
      pass_ctl max_tweets all_tweets reply = Break all_tweets' ->
      Q all_tweets token [EvGetUsersTweets user_id token reply]) ->
  (forall all_tweets token page all_tweets' token' rest,
      page_step max_tweets all_tweets page = Continue all_tweets' token' ->
      Q all_tweets' token' rest ->
      Q all_tweets token
        (EvGetUsersTweets user_id token (Ok page) :: EvSleep 1 :: rest)) ->
  (forall all_tweets token rest,
      Q all_tweets token rest ->
      Q all_tweets token (rate_limited_pass user_id token ++ rest)) ->
  (forall all_tweets token reply e all_tweets',
      pass_ctl max_tweets all_tweets reply = Raised e all_tweets' ->
      is_TooManyRequests e = false ->
      Q all_tweets token
        (EvGetUsersTweets user_id token reply
         :: if is_Exception e
            then [EvLog ERROR "Error fetching tweets: {e}" [LExn e]]
            else [])) ->
  forall fuel all_tweets token w r tr w',
    get_user_tweets_loop P fuel user_id max_tweets all_tweets token w
    = Some (r, tr, w') ->
    Q all_tweets token tr.
Proof.
  intros Hbreak Hcontinue Hlimit Hraise.
  induction fuel as [|fuel IH]; intros all tok w r tr w' Hrun.
  - discriminate Hrun.
  - destruct (client_get_users_tweets P w user_id tok) as [r0 w1] eqn:Hreq.
    rewrite (loop_step P _ _ _ _ _ _ _ _ Hreq) in Hrun. cbv zeta in Hrun.
    fold (pass_ctl max_tweets all r0) in Hrun.
    destruct (pass_ctl max_tweets all r0) as [a|a t|e a] eqn:Hctl.
    + injection Hrun as <- <- <-. eapply Hbreak. exact Hctl.
    + apply with_prefix_Some in Hrun. destruct Hrun as [tr' [Hrun ->]].
      destruct r0 as [page|e0]; [|discriminate].
      eapply Hcontinue; [exact Hctl|]. eapply IH. exact Hrun.
    + destruct (is_TooManyRequests e) eqn:He.
      * apply with_prefix_Some in Hrun. destruct Hrun as [tr' [Hrun ->]].
        destruct (pass_ctl_rate_limited _ _ _ _ _ Hctl He) as [-> ->].
        apply (Hlimit all tok tr'). eapply IH. exact Hrun.
      * pose proof (Hraise all tok r0 e a Hctl He) as HQ.
        destruct (is_Exception e); injection Hrun as <- <- <-; exact HQ.
Qed.

End LoopTraces.



(** X12.  A fetch that finished made one page request more than it slept:
    it sleeps after every request but the last, 900 seconds after a
    rate-limit signal and one second otherwise.  Its events are page
    requests, sleeps and log entries only: it looks up no user, constructs
    no client and writes no file. *)
Theorem fetch_sleeps_between_requests {World : Type} (P : Platform World)
  (fuel : nat) (user_id : pyval) (max_tweets : Z) (w w' : World)
  (r : result (list pyval)) (tr : list event) :
  get_user_tweets P fuel user_id max_tweets w = Some (r, tr, w') ->
  count is_page_request tr = (count is_sleep tr + 1)%Z /\
  total_sleep tr
  = (count is_sleep tr + 899 * count is_rate_limit_signal tr)%Z /\
  forallb (fun ev => is_page_request ev || is_sleep ev || is_log ev) tr
  = true.
Proof.
  unfold get_user_tweets.
  apply (loop_run_ind P user_id max_tweets
           (fun _ _ tr =>
              count is_page_request tr = (count is_sleep tr + 1)%Z /\
              total_sleep tr
              = (count is_sleep tr + 899 * count is_rate_limit_signal tr)%Z /\
              forallb (fun ev => is_page_request ev || is_sleep ev
                                 || is_log ev) tr = true)).
  - intros all tok reply a Hctl. unfold count. simpl.
    destruct reply as [page|e]; [|discriminate Hctl].
    repeat split.
  - intros all tok page a t rest _ [H1 [H2 H3]].
    unfold count in *. cbn [filter is_page_request is_sleep
      is_rate_limit_signal total_sleep forallb orb andb is_log List.length].
    rewrite H3. repeat split; lia.
  - intros all tok rest [H1 [H2 H3]].
    unfold count, rate_limited_pass in *.
    cbn [app filter is_page_request is_sleep is_rate_limit_signal
      is_TooManyRequests total_sleep forallb orb andb is_log List.length].
    rewrite H3. repeat split; lia.
  - intros all tok reply e a Hctl He. unfold count.
    destruct reply as [page|e0];
      [|simpl in Hctl; injection Hctl as <- <-];
      destruct (is_Exception _); simpl; rewrite ?He; repeat split.
Qed.

Lemma fetch_sleeps_between_requests_witness :
  exists tr,
    trace_of (get_user_tweets Scripted.platform 5 (PInt 7) 100
                Samples.world_throttled_twice) = tr /\
    count is_page_request tr = (count is_sleep tr + 1)%Z /\
    total_sleep tr
    = (count is_sleep tr + 899 * count is_rate_limit_signal tr)%Z /\
    forallb (fun ev => is_page_request ev || is_sleep ev || is_log ev) tr
    = true.
Proof.
  eexists. split; [vm_compute; reflexivity|].
  eapply (fetch_sleeps_between_requests Scripted.platform 5 (PInt 7) 100
            Samples.world_throttled_twice).
  vm_compute. reflexivity.
Defined.

(** X13.  A fetch sends at most as many page requests as the cap leaves room
    for posts (one at least), plus one per rate-limit signal it got. *)
Theorem requests_are_bounded_by_the_cap {World : Type} (P : Platform World)
  (fuel : nat) (user_id : pyval) (max_tweets : Z) (w w' : World)
  (r : result (list pyval)) (tr : list event) :
  get_user_tweets P fuel user_id max_tweets w = Some (r, tr, w') ->
  (count is_page_request tr
   <= Z.max 1 max_tweets + count is_rate_limit_signal tr)%Z.
Proof.
  unfold get_user_tweets. intros Hrun.
  assert (H : (count is_page_request tr
               <= Z.max 1 (max_tweets - py_len (@nil pyval))
                  + count is_rate_limit_signal tr)%Z).
  { revert Hrun.
    apply (loop_run_ind P user_id max_tweets
             (fun all _ tr =>
                (count is_page_request tr
                 <= Z.max 1 (max_tweets - py_len all)
                    + count is_rate_limit_signal tr)%Z)).
    - intros all tok reply a Hctl. unfold count. simpl.
      destruct reply as [page|e]; [|discriminate Hctl]. simpl. lia.
    - intros all tok page a t rest Hstep Hrest.
      apply page_step_continue_grows in Hstep.
      unfold count in *.
      cbn [filter is_page_request is_rate_limit_signal List.length].
      lia.
    - intros all tok rest Hrest.
      unfold count, rate_limited_pass in *.
      cbn [app filter is_page_request is_rate_limit_signal
        is_TooManyRequests List.length].
      lia.
    - intros all tok reply e a Hctl He. unfold count.
      destruct reply as [page|e0];
        [|simpl in Hctl; injection Hctl as <- <-];
        destruct (is_Exception _); simpl; rewrite ?He; simpl; lia. }
  unfold py_len in H. simpl in H. rewrite Z.sub_0_r in H. exact H.
Qed.

Lemma requests_are_bounded_by_the_cap_witness :
  exists tr,
    trace_of (get_user_tweets Scripted.platform 5 (PInt 7) 6
                Samples.world_two_pages) = tr /\
    (count is_page_request tr <= Z.max 1 6 + count is_rate_limit_signal tr)%Z.
Proof.
  eexists. split; [vm_compute; reflexivity|].
  eapply (requests_are_bounded_by_the_cap Scripted.platform 5 (PInt 7) 6
            Samples.world_two_pages).
  vm_compute. reflexivity.
Defined.

(** X14.  A cap of zero or less does not stop the first request: a first
    page with posts ends the fetch after that one request, and what is
    returned is the page cut by the slice [[:max_tweets]], nothing for a cap
    of zero and all but the last [-max_tweets] posts for a negative cap. *)
Theorem nonpositive_cap_still_fetches_one_page {World : Type}
  (P : Platform World) (fuel : nat) (user_id : pyval) (max_tweets : Z)
  (w w1 : World) (page : pyval) (posts : list pyval) :
  (max_tweets <= 0)%Z ->
  client_get_users_tweets P w user_id PNone = (Ok page, w1) ->
  _process_tweets page = Ok posts ->
  posts <> [] ->
  get_user_tweets P (S fuel) user_id max_tweets w
  = Some (Ok (if (max_tweets =? 0)%Z then []
              else firstn (List.length posts - Z.to_nat (- max_tweets))
                     posts),
          [EvGetUsersTweets user_id PNone (Ok page)], w1).
Proof.
  intros Hcap Hreq Hposts Hne.
  unfold get_user_tweets. rewrite (loop_step P _ _ _ _ _ _ _ _ Hreq).
  cbv zeta.
  rewrite (page_step_cap max_tweets [] page posts Hposts Hne).
  - simpl app. unfold py_slice_to.
    destruct (0 <=? max_tweets)%Z eqn:E.
    + assert (max_tweets = 0%Z) by lia. subst. reflexivity.
    + destruct (max_tweets =? 0)%Z eqn:E0; [lia|].
      replace (Z.to_nat (Z.of_nat (List.length posts) + max_tweets))
        with (List.length posts - Z.to_nat (- max_tweets)) by lia.
      reflexivity.
  - unfold py_len. lia.
Qed.

Lemma nonpositive_cap_still_fetches_one_page_witness :
  get_user_tweets Scripted.platform 1 (PInt 7) (-2) Samples.world_two_pages
  = Some (Ok (firstn 3 Samples.records1),
          [EvGetUsersTweets (PInt 7) PNone (Ok Samples.page1)],
          Samples.with_pages [Ok Samples.page2] (Ok Scripted.empty_page))
  /\ get_user_tweets Scripted.platform 1 (PInt 7) 0 Samples.world_two_pages
     = Some (Ok [],
             [EvGetUsersTweets (PInt 7) PNone (Ok Samples.page1)],
             Samples.with_pages [Ok Samples.page2] (Ok Scripted.empty_page)).
Proof.
  split.
  - apply (nonpositive_cap_still_fetches_one_page Scripted.platform 0
             (PInt 7) (-2) Samples.world_two_pages _ Samples.page1
             Samples.records1);
      [lia | reflexivity | reflexivity | discriminate].
  - apply (nonpositive_cap_still_fetches_one_page Scripted.platform 0
             (PInt 7) 0 Samples.world_two_pages _ Samples.page1
             Samples.records1);
      [lia | reflexivity | reflexivity | discriminate].
Defined.

(* ================================================================== *)
(** ** Further properties: the collection *)
(* ================================================================== *)

Lemma lookups_app (t1 t2 : list event) :
  lookups (t1 ++ t2) = lookups t1 ++ lookups t2.
Proof. unfold lookups. apply flat_map_app. Qed.

Lemma lookups_cons_log (lvl : level) (fstring : string)
  (args : list logarg) (tr : list event) :
  lookups (EvLog lvl fstring args :: tr) = lookups tr.
Proof. reflexivity. Qed.

Lemma no_lookups (tr : list event) :
  forallb (fun ev => is_page_request ev || is_sleep ev || is_log ev) tr = true ->
  lookups tr = [].
Proof.
  induction tr as [|ev rest IH]; simpl; [reflexivity|].
  intros H. apply andb_prop in H. destruct H as [Hev Hrest].
  rewrite (IH Hrest). destruct ev; simpl in *; try discriminate; reflexivity.
Qed.

Lemma in_no_write (tr : list event) (path : string) (content : pyval) :
  existsb is_write tr = false -> ~ In (EvWriteJson path content) tr.
Proof.
  intros H Hin.
  assert (existsb is_write tr = true); [|congruence].
  apply existsb_exists. exists (EvWriteJson path content).
  split; [exact Hin | reflexivity].
Qed.

Lemma dict_set_entries_str (Q : pyval * pyval -> Prop) (d : dict)
  (s : string) (v : pyval) :
  Forall Q d -> Q (PStr s, v) -> Forall Q (dict_set d (PStr s) v).
Proof.
  intros Hd Hv. induction Hd as [|[k0 v0] rest H0 Hrest IH]; simpl.
  - constructor; [exact Hv | constructor].
  - destruct (key_eqb k0 (PStr s)) eqn:E.
    + apply key_eqb_PStr in E. subst k0. constructor; assumption.
    + constructor; assumption.
Qed.

Lemma dict_set_keys_str (d : dict) (s : string) (v : pyval) :
  dict_keys (dict_set d (PStr s) v)
  = if existsb (fun k0 => key_eqb k0 (PStr s)) (dict_keys d)
    then dict_keys d else dict_keys d ++ [PStr s].
Proof.
  induction d as [|[k0 v0] rest IH]; simpl; [reflexivity|].
  destruct (key_eqb k0 (PStr s)) eqn:E; simpl; [reflexivity|].
  rewrite IH. destruct (existsb _ (dict_keys rest)); reflexivity.
Qed.

Lemma dict_set_keys_NoDup (d : dict) (s : string) (v : pyval) :
  NoDup (dict_keys d) -> NoDup (dict_keys (dict_set d (PStr s) v)).
Proof.
  intros H. rewrite dict_set_keys_str.
  destruct (existsb _ (dict_keys d)) eqn:E; [exact H|].
  apply NoDup_app; [exact H | repeat constructor; intros [] |].
  intros k Hk [<-|[]].
  assert (existsb (fun k0 => key_eqb k0 (PStr s)) (dict_keys d) = true);
    [|congruence].
  apply existsb_exists. exists (PStr s). split; [exact Hk|].
  simpl. apply String.eqb_refl.
Qed.

Section CollectionTraces.

Context {World : Type} (P : Platform World).

Lemma loop_events (fuel : nat) (user_id : pyval) (max_tweets : Z) :
  forall all_tweets token w r tr w',
    get_user_tweets_loop P fuel user_id max_tweets all_tweets token w
    = Some (r, tr, w') ->
    forallb (fun ev => is_page_request ev || is_sleep ev || is_log ev) tr
    = true.
Proof.
  intros all_tweets token w r tr w'.
  apply (loop_run_ind P user_id max_tweets
           (fun _ _ tr =>
              forallb (fun ev => is_page_request ev || is_sleep ev
                                 || is_log ev) tr = true)).
  - reflexivity.
  - intros all tok page a t rest _ H. simpl. exact H.
  - intros all tok rest H. simpl. exact H.
  - intros all tok reply e a _ _. destruct (is_Exception e); reflexivity.
Qed.

Lemma get_user_id_lookups (username : string) (w w' : World) r tr :
  get_user_id P username w = Some (r, tr, w') -> lookups tr = [username].
Proof.
  destruct (client_get_user P w username) as [r0 w1] eqn:Hreq.
  rewrite (get_user_id_run P _ _ _ _ Hreq). cbv zeta.
  destruct (user_id_of_reply r0) as [[id|]|e].
  - intros H. injection H as <- <- <-. reflexivity.
  - intros H. injection H as <- <- <-. reflexivity.
  - destruct (is_Exception e); intros H; injection H as <- <- <-; reflexivity.
Qed.

(** What a finished pass over one handle looked up and wrote. *)
Lemma follow_user_trace (self : TwitterScraper) (fuel : nat)
  (tweets_per_user : Z) (all_data : dict) (username : string) (w w' : World)
  (r : result dict) (tr : list event) :
  follow_user P self fuel tweets_per_user all_data username w
  = Some (r, tr, w') ->
  lookups tr = [username] /\
  forall path content,
    In (EvWriteJson path content) tr ->
    exists w0 tweets,
      path = user_file P self username w0 /\
      content = PList tweets /\ tweets <> [].
Proof.
  rewrite follow_user_run. cbv zeta.
  destruct (get_user_id P username w) as [[[[user_id|e] t1] w1]|] eqn:Hid;
    try discriminate.
  2:{ intros H. injection H as <- <- <-.
      pose proof (get_user_id_lookups _ _ _ _ _ Hid) as Hl.
      pose proof (get_user_id_no_write P _ _ _ _ _ Hid) as Hw.
      split; [simpl; exact Hl|].
      intros path content [Hin|Hin]; [discriminate|].
      exfalso. eapply in_no_write; eassumption. }
  pose proof (get_user_id_lookups _ _ _ _ _ Hid) as Hl1.
  pose proof (get_user_id_no_write P _ _ _ _ _ Hid) as Hw1.
  destruct (py_truthy user_id); simpl.
  2:{ intros H. injection H as <- <- <-. split.
      - rewrite lookups_cons_log, lookups_app, Hl1. reflexivity.
      - intros path content [Hin|Hin]; [discriminate|].
        apply in_app_or in Hin. destruct Hin as [Hin|[Hin|[]]];
          [|discriminate].
        exfalso. eapply in_no_write; eassumption. }
  destruct (get_user_tweets P fuel user_id tweets_per_user w1)
    as [[[[tweets|e] t2] w2]|] eqn:Hfetch; try discriminate.
  2:{ intros H. injection H as <- <- <-.
      pose proof (loop_no_write P _ _ _ _ _ _ _ _ _ Hfetch) as Hw2.
      pose proof (no_lookups _ (loop_events _ _ _ _ _ _ _ _ _ Hfetch)) as Hl2.
      split.
      - rewrite lookups_cons_log, lookups_app, Hl1, Hl2. reflexivity.
      - intros path content [Hin|Hin]; [discriminate|].
        apply in_app_or in Hin. destruct Hin as [Hin|Hin];
          [ destruct (in_no_write _ _ _ Hw1 Hin)
          | destruct (in_no_write _ _ _ Hw2 Hin) ]. }
  pose proof (loop_no_write P _ _ _ _ _ _ _ _ _ Hfetch) as Hw2.
  pose proof (no_lookups _ (loop_events _ _ _ _ _ _ _ _ _ Hfetch)) as Hl2.
  assert (Hlook : forall tail,
    lookups tail = [] ->
    lookups (EvLog INFO "Processing tweets for user: {username}"
               [LStr username] :: t1 ++ t2 ++ tail) = [username]).
  { intros tail Htail.
    rewrite lookups_cons_log, !lookups_app, Hl1, Hl2, Htail. reflexivity. }
  assert (Hwrite : forall tail path content,
    In (EvWriteJson path content)
       (EvLog INFO "Processing tweets for user: {username}" [LStr username]
        :: t1 ++ t2 ++ tail) ->
    In (EvWriteJson path content) tail).
  { intros tail path content [Hin|Hin]; [discriminate|].
    apply in_app_or in Hin. destruct Hin as [Hin|Hin];
      [exfalso; exact (in_no_write _ _ _ Hw1 Hin)|].
    apply in_app_or in Hin. destruct Hin as [Hin|Hin];
      [exfalso; exact (in_no_write _ _ _ Hw2 Hin) | exact Hin]. }
  destruct tweets as [|t ts].
  - intros H. injection H as <- <- <-. split; [apply Hlook; reflexivity|].
    intros path content Hin. apply Hwrite in Hin.
    destruct Hin as [Hin|[]]. discriminate.
  - cbv zeta.
    destruct (json_dump_file P w2 _ (PList (t :: ts))) as [[[]|e] w3];
      intros H; injection H as <- <- <-;
      (split; [apply Hlook; reflexivity|]);
      intros path content Hin; apply Hwrite in Hin;
      destruct Hin as [Hin|[Hin|Hin]]; try discriminate;
      try (destruct Hin as [Hin|[]]; discriminate);
      try contradiction;
      injection Hin as <- <-; exists w2, (t :: ts);
      repeat split; discriminate.
Qed.

End CollectionTraces.

Section CollectionRuns.

Context {World : Type} (P : Platform World).

Lemma follow_users_from_lookups (self : TwitterScraper) (fuel : nat)
  (tweets_per_user : Z) (usernames : list string) :
  forall all_data w r tr w',
    follow_users_from P self fuel tweets_per_user all_data usernames w
    = Some (r, tr, w') ->
    exists rest,
      usernames = lookups tr ++ rest /\
      (forall data, r = Ok data -> rest = []).
Proof.
  induction usernames as [|u rest IH]; intros all_data w r tr w' Hrun.
  - injection Hrun as <- <- <-. exists []. split; reflexivity.
  - rewrite follow_users_from_cons in Hrun.
    destruct (follow_user P self fuel tweets_per_user all_data u w)
      as [[[[d|e] t] w1]|] eqn:Hu; try discriminate.
    + apply follow_user_trace in Hu. destruct Hu as [Hl _].
      apply with_prefix_Some in Hrun. destruct Hrun as [tr' [Hrun ->]].
      destruct (IH _ _ _ _ _ Hrun) as [rest' [Heq Hok]].
      exists rest'. rewrite lookups_app, Hl. simpl.
      split; [f_equal; exact Heq | exact Hok].
    + apply follow_user_trace in Hu. destruct Hu as [Hl _].
      injection Hrun as <- <- <-. exists rest. rewrite Hl.
      split; [reflexivity | discriminate].
Qed.

Lemma follow_users_from_saved (self : TwitterScraper) (fuel : nat)
  (tweets_per_user : Z) (usernames : list string) :
  forall handles tr0 all_data w data tr w',
    Forall (entry_saved handles tr0) all_data ->
    NoDup (dict_keys all_data) ->
    follow_users_from P self fuel tweets_per_user all_data usernames w
    = Some (Ok data, tr, w') ->
    Forall (entry_saved (handles ++ usernames) (tr0 ++ tr)) data /\
    NoDup (dict_keys data).
Proof.
  induction usernames as [|u rest IH];
    intros handles tr0 all_data w data tr w' Hsaved Hnodup Hrun.
  - injection Hrun as <- <- <-. rewrite !app_nil_r. split; assumption.
  - rewrite follow_users_from_cons in Hrun.
    destruct (follow_user P self fuel tweets_per_user all_data u w)
      as [[[[d|e] t] w1]|] eqn:Hu; try discriminate.
    apply with_prefix_Some in Hrun. destruct Hrun as [tr' [Hrun ->]].
    replace (handles ++ u :: rest) with ((handles ++ [u]) ++ rest)
      by (rewrite <- app_assoc; reflexivity).
    rewrite app_assoc.
    apply (IH (handles ++ [u]) (tr0 ++ t) d w1 data tr' w'); [| |exact Hrun].
    + assert (Hold : Forall (entry_saved (handles ++ [u]) (tr0 ++ t))
                       all_data).
      { eapply Forall_impl; [|exact Hsaved].
        intros kv [name [tweets [path [-> [Hin Hw]]]]].
        exists name, tweets, path.
        repeat split; apply in_or_app; left; assumption. }
      apply follow_user_cases in Hu.
      destruct Hu as [[-> _] | [tweets [path [_ [-> Hw]]]]]; [exact Hold|].
      apply dict_set_entries_str; [exact Hold|].
      exists u, tweets, path. split; [reflexivity|].
      split; apply in_or_app; right; [left; reflexivity | exact Hw].
    + apply follow_user_cases in Hu.
      destruct Hu as [[-> _] | [tweets [path [_ [-> _]]]]]; [exact Hnodup|].
      apply dict_set_keys_NoDup. exact Hnodup.
Qed.

Lemma follow_users_from_writes (self : TwitterScraper) (fuel : nat)
  (tweets_per_user : Z) (usernames : list string) :
  forall all_data w r tr w' path content,
    follow_users_from P self fuel tweets_per_user all_data usernames w
    = Some (r, tr, w') ->
    In (EvWriteJson path content) tr ->
    exists username w0 tweets,
      In username usernames /\
      path = user_file P self username w0 /\
      content = PList tweets /\ tweets <> [].
Proof.
  induction usernames as [|u rest IH];
    intros all_data w r tr w' path content Hrun Hin.
  - injection Hrun as <- <- <-. destruct Hin.
  - rewrite follow_users_from_cons in Hrun.
    destruct (follow_user P self fuel tweets_per_user all_data u w)
      as [[[[d|e] t] w1]|] eqn:Hu; try discriminate.
    + apply follow_user_trace in Hu. destruct Hu as [_ Hw].
      apply with_prefix_Some in Hrun. destruct Hrun as [tr' [Hrun ->]].
      apply in_app_or in Hin. destruct Hin as [Hin|Hin].
      * destruct (Hw _ _ Hin) as [w0 [tweets [H1 [H2 H3]]]].
        exists u, w0, tweets. repeat split; try assumption. left. reflexivity.
      * destruct (IH _ _ _ _ _ _ _ Hrun Hin)
          as [name [w0 [tweets [H0 [H1 [H2 H3]]]]]].
        exists name, w0, tweets. repeat split; try assumption.
        right. exact H0.
    + apply follow_user_trace in Hu. destruct Hu as [_ Hw].
      injection Hrun as <- <- <-.
      destruct (Hw _ _ Hin) as [w0 [tweets [H1 [H2 H3]]]].
      exists u, w0, tweets. repeat split; try assumption. left. reflexivity.
Qed.

Lemma follow_user_events (self : TwitterScraper) (fuel : nat)
  (tweets_per_user : Z) (all_data : dict) (username : string) (w w' : World)
  (r : result dict) (tr : list event) :
  follow_user P self fuel tweets_per_user all_data username w
  = Some (r, tr, w') ->
  forallb collection_event tr = true.
Proof.
  assert (Hloop : forall t,
    forallb (fun ev => is_page_request ev || is_sleep ev || is_log ev) t
    = true -> forallb collection_event t = true).
  { intros t Ht. rewrite forallb_forall in *. intros ev Hin.
    specialize (Ht ev Hin). destruct ev; try discriminate Ht; reflexivity. }
  assert (Hid : forall u w0 r0 t w1,
    get_user_id P u w0 = Some (r0, t, w1) ->
    forallb collection_event t = true).
  { intros u w0 r0 t w1.
    destruct (client_get_user P w0 u) as [r1 w2] eqn:Hreq.
    rewrite (get_user_id_run P _ _ _ _ Hreq). cbv zeta.
    destruct (user_id_of_reply r1) as [[id|]|e];
      [| |destruct (is_Exception e)];
      intros H; injection H as <- <- <-; reflexivity. }
  rewrite follow_user_run. cbv zeta.
  destruct (get_user_id P username w) as [[[[user_id|e] t1] w1]|] eqn:Hrun;
    try discriminate.
  2:{ intros H. injection H as <- <- <-. simpl. eapply Hid. exact Hrun. }
  apply Hid in Hrun.
  destruct (py_truthy user_id); cbn [negb]; cbv iota.
  2:{ intros H. injection H as <- <- <-. simpl.
      rewrite forallb_app, Hrun. reflexivity. }
  destruct (get_user_tweets P fuel user_id tweets_per_user w1)
    as [[[[tweets|e] t2] w2]|] eqn:Hfetch; try discriminate.
  2:{ intros H. injection H as <- <- <-. simpl.
      rewrite forallb_app, Hrun. simpl.
      apply Hloop. eapply loop_events. exact Hfetch. }
  pose proof (Hloop _ (loop_events P _ _ _ _ _ _ _ _ _ Hfetch)) as H2.
  destruct tweets as [|t ts].
  - intros H. injection H as <- <- <-. simpl.
    rewrite !forallb_app, Hrun, H2. reflexivity.
  - destruct (json_dump_file P w2 _ _) as [[[]|e] w3];
      intros H; injection H as <- <- <-; simpl;
      rewrite !forallb_app, Hrun, H2; reflexivity.
Qed.

Lemma follow_users_from_events (self : TwitterScraper) (fuel : nat)
  (tweets_per_user : Z) (usernames : list string) :
  forall all_data w r tr w',
    follow_users_from P self fuel tweets_per_user all_data usernames w
    = Some (r, tr, w') ->
    forallb collection_event tr = true.
Proof.
  induction usernames as [|u rest IH]; intros all_data w r tr w' Hrun.
  - injection Hrun as <- <- <-. reflexivity.
  - rewrite follow_users_from_cons in Hrun.
    destruct (follow_user P self fuel tweets_per_user all_data u w)
      as [[[[d|e] t] w1]|] eqn:Hu; try discriminate.
    + apply follow_user_events in Hu.
      apply with_prefix_Some in Hrun. destruct Hrun as [tr' [Hrun ->]].
      rewrite forallb_app, Hu. simpl. eapply IH. exact Hrun.
    + apply follow_user_events in Hu. injection Hrun as <- <- <-. exact Hu.
Qed.

End CollectionRuns.

(** X15.  [follow_users] looks up every configured handle exactly once, in
    the configured order, whatever the lookups and fetches return; a run
    that is cut short by an exception has looked up a prefix of the
    handles. *)
Theorem every_handle_is_looked_up_once {World : Type} (P : Platform World)
  (self : TwitterScraper) (fuel : nat) (usernames : list string)
  (tweets_per_user : Z) (w w' : World) (r : result dict) (tr : list event) :
  follow_users P self fuel usernames tweets_per_user w = Some (r, tr, w') ->
  exists rest,
    usernames = lookups tr ++ rest /\
    (forall data, r = Ok data -> rest = []).
Proof. apply follow_users_from_lookups. Qed.

Lemma every_handle_is_looked_up_once_witness :
  exists tr rest,
    trace_of (follow_users Scripted.platform Samples.scraper 3
                ["alice"; "carol"; "bob"] 50 Samples.world_two_pages) = tr /\
    ["alice"; "carol"; "bob"] = lookups tr ++ rest /\
    rest = [].
Proof.
  destruct (follow_users Scripted.platform Samples.scraper 3
              ["alice"; "carol"; "bob"] 50 Samples.world_two_pages)
    as [[[r tr] w']|] eqn:Hrun; [|vm_compute in Hrun; discriminate Hrun].
  destruct (every_handle_is_looked_up_once _ _ _ _ _ _ _ _ _ Hrun)
    as [rest [Heq Hok]].
  exists tr, rest. split; [reflexivity|]. split; [exact Heq|].
  destruct r as [data|e]; [eapply Hok; reflexivity|].
  vm_compute in Hrun. discriminate Hrun.
Defined.

(** X16.  In the mapping [follow_users] returns no handle occurs twice, and
    every entry is a configured handle with a list of records that was
    written to a file during the run. *)
Theorem every_entry_was_saved {World : Type} (P : Platform World)
  (self : TwitterScraper) (fuel : nat) (usernames : list string)
  (tweets_per_user : Z) (w w' : World) (data : dict) (tr : list event) :
  follow_users P self fuel usernames tweets_per_user w
  = Some (Ok data, tr, w') ->
  Forall (entry_saved usernames tr) data /\ NoDup (dict_keys data).
Proof.
  intros Hrun.
  apply (follow_users_from_saved P self fuel tweets_per_user usernames
           [] [] [] w data tr w'); [constructor | constructor | exact Hrun].
Qed.

Lemma every_entry_was_saved_witness :
  exists data tr w',
    follow_users Scripted.platform Samples.scraper 3 ["alice"; "bob"; "alice"]
      50 Samples.world_two_pages = Some (Ok data, tr, w') /\
    Forall (entry_saved ["alice"; "bob"; "alice"] tr) data /\
    NoDup (dict_keys data).
Proof.
  eexists _, _, _. split; [vm_compute; reflexivity|].
  eapply (every_entry_was_saved Scripted.platform Samples.scraper 3
            ["alice"; "bob"; "alice"] 50 Samples.world_two_pages).
  vm_compute. reflexivity.
Defined.

(** X17.  A run of [follow_users] consists of requests, waits, logger
    calls and JSON dumps only, and every JSON dump is a per-account file: it
    holds the non-empty list of records of a configured handle, and its path
    is [os.path.join] of the data directory and
    [<handle>_<timestamp>.json]; for the data directory [twitter_data] and a
    handle that does not begin with a slash that is
    [twitter_data/<handle>_<timestamp>.json].  (What the logger calls append
    to the log file is part of the logger calls.) *)
Theorem only_account_files_are_written {World : Type} (P : Platform World)
  (self : TwitterScraper) (fuel : nat) (usernames : list string)
  (tweets_per_user : Z) (w w' : World) (r : result dict) (tr : list event) :
  follow_users P self fuel usernames tweets_per_user w = Some (r, tr, w') ->
  forallb collection_event tr = true /\
  forall path content,
    In (EvWriteJson path content) tr ->
    exists username w0 tweets,
      In username usernames /\
      path = user_file P self username w0 /\
      content = PList tweets /\ tweets <> [] /\
      (data_dir self = "twitter_data" ->
       (forall rest, username <> String "/" rest) ->
       path = ("twitter_data/" ++ username ++ "_" ++ strftime_now P w0
               ++ ".json")%string).
Proof.
  intros Hrun.
  split; [eapply follow_users_from_events; exact Hrun|].
  intros path content Hin.
  destruct (follow_users_from_writes P _ _ _ _ _ _ _ _ _ _ _ Hrun Hin)
    as [username [w0 [tweets [H0 [H1 [H2 H3]]]]]].
  exists username, w0, tweets. repeat split; try assumption.
  intros Hdir Hslash. rewrite H1. unfold user_file. rewrite Hdir.
  unfold os_path_join.
  destruct username as [|c rest]; [reflexivity|].
  simpl.
  destruct c as [[] [] [] [] [] [] [] []]; try reflexivity.
  exfalso. apply (Hslash rest). reflexivity.
Qed.

Lemma only_account_files_are_written_witness :
  exists username w0 tweets,
    In username ["alice"; "bob"] /\
    "twitter_data/alice_20250201_120000.json"
    = user_file Scripted.platform Samples.scraper username w0 /\
    PList Samples.records1 = PList tweets /\ tweets <> [] /\
    (data_dir Samples.scraper = "twitter_data" ->
     (forall rest, username <> String "/" rest) ->
     "twitter_data/alice_20250201_120000.json"
     = ("twitter_data/" ++ username ++ "_"
        ++ strftime_now Scripted.platform w0 ++ ".json")%string).
Proof.
  destruct (follow_users Scripted.platform Samples.scraper 2 ["alice"; "bob"]
              100 Samples.world_breaks_on_page2)
    as [[[r tr] w']|] eqn:Hrun; [|vm_compute in Hrun; discriminate Hrun].
  apply (proj2 (only_account_files_are_written Scripted.platform
                  Samples.scraper 2 ["alice"; "bob"] 100
                  Samples.world_breaks_on_page2 w' r tr Hrun)).
  vm_compute in Hrun. injection Hrun as _ <- _.
  vm_compute. tauto.
Defined.

(** X18.  An exception while a per-account file is written is not caught:
    [follow_users] raises it at once, the handles after that one are not
    processed, and [main] raises it without writing the combined file. *)
Theorem write_failure_ends_the_run {World : Type} (P : Platform World)
  (self : TwitterScraper) (fuel : nat) (tweets_per_user : Z) :
  (forall all_data username rest w user_id t1 w1 tweets t2 w2 e w3,
      get_user_id P username w = Some (Ok user_id, t1, w1) ->
      py_truthy user_id = true ->
      get_user_tweets P fuel user_id tweets_per_user w1
      = Some (Ok tweets, t2, w2) ->
      tweets <> [] ->
      json_dump_file P w2 (user_file P self username w2) (PList tweets)
      = (Err e, w3) ->
      exists tr,
        follow_users_from P self fuel tweets_per_user all_data
          (username :: rest) w = Some (Err e, tr, w3) /\
        lookups tr = [username]) /\
  (forall usernames w scraper t0 w0 e t1 w1,
      __init__ P "twitter_credentials.json" w = Some (Ok scraper, t0, w0) ->
      follow_users P scraper fuel usernames 50 w0 = Some (Err e, t1, w1) ->
      main_with P fuel usernames w = Some (Err e, t0 ++ t1, w1)).
Proof.
  split.
  - intros all_data username rest w user_id t1 w1 tweets t2 w2 e w3
      Hid Htruthy Hfetch Hne Hdump.
    pose proof (follow_user_run P self fuel tweets_per_user all_data
                  username w) as Hrun.
    cbv zeta in Hrun. rewrite Hid, Htruthy in Hrun. simpl in Hrun.
    rewrite Hfetch in Hrun.
    destruct tweets as [|t ts]; [contradiction|].
    rewrite Hdump in Hrun.
    rewrite follow_users_from_cons, Hrun.
    eexists. split; [reflexivity|].
    apply (follow_user_trace P _ _ _ _ _ _ _ _ _ Hrun).
  - intros usernames w scraper t0 w0 e t1 w1 Hinit Hfollow.
    unfold main_with. unfold bind at 1. rewrite Hinit.
    unfold bind at 1. rewrite Hfollow. reflexivity.
Qed.

Lemma write_failure_ends_the_run_witness :
  exists tr w',
    main_with read_only_platform 3 ["alice"; "bob"] Samples.world_two_pages
    = Some (Err (OSError "Read-only file system"), tr, w') /\
    lookups tr = ["alice"].
Proof.
  pose proof (write_failure_ends_the_run read_only_platform Samples.scraper
                3 50) as [Hfollow Hmain].
  destruct (Hfollow [] "alice" ["bob"] Samples.world_two_pages (PInt 7)
              [EvGetUser "alice" (Scripted.user_reply 7)]
              Samples.world_two_pages
              (Samples.records1 ++ Samples.records2)
              [ EvGetUsersTweets (PInt 7) PNone (Ok Samples.page1);
                EvSleep 1;
                EvGetUsersTweets (PInt 7) (PStr "T") (Ok Samples.page2) ]
              (time_sleep Scripted.platform
                 (Samples.with_pages [] (Ok Scripted.empty_page)) 1)
              (OSError "Read-only file system")
              (time_sleep Scripted.platform
                 (Samples.with_pages [] (Ok Scripted.empty_page)) 1)
              eq_refl eq_refl eq_refl ltac:(discriminate) eq_refl)
    as [tr [Hrun Hlook]].
  eexists _, _. split.
  - eapply Hmain; [vm_compute; reflexivity | exact Hrun].
  - rewrite lookups_app, Hlook. reflexivity.
Defined.

(* ================================================================== *)
(** ** Further properties: construction and the whole run *)
(* ================================================================== *)

Section Construction.

Context {World : Type} (P : Platform World).

Lemma authenticate_trace (credentials : pyval) (w w' : World)
  (r : result unit) (tr : list event) :
  _authenticate P credentials w = Some (r, tr, w') ->
  existsb is_network tr = false /\
  (forall u, r = Ok u ->
     exists kwargs,
       tr = [ EvNewClient kwargs;
              EvLog INFO "Successfully authenticated with Twitter API" [] ] /\
       dict_get kwargs (PStr "wait_on_rate_limit") = Some (PBool true)).
Proof.
  unfold _authenticate, bind, attempt, lift, new_client, log, emit, py_exit,
    raise, ret.
  destruct (py_getitem_str credentials "bearer_token") as [v1|e].
  2:{ destruct (is_Exception e); intros H; injection H as <- <- <-;
        (split; [reflexivity | discriminate]). }
  destruct (py_getitem_str credentials "consumer_key") as [v2|e].
  2:{ destruct (is_Exception e); intros H; injection H as <- <- <-;
        (split; [reflexivity | discriminate]). }
  destruct (py_getitem_str credentials "consumer_secret") as [v3|e].
  2:{ destruct (is_Exception e); intros H; injection H as <- <- <-;
        (split; [reflexivity | discriminate]). }
  destruct (py_getitem_str credentials "access_token") as [v4|e].
  2:{ destruct (is_Exception e); intros H; injection H as <- <- <-;
        (split; [reflexivity | discriminate]). }
  destruct (py_getitem_str credentials "access_token_secret") as [v5|e].
  2:{ destruct (is_Exception e); intros H; injection H as <- <- <-;
        (split; [reflexivity | discriminate]). }
  destruct (tweepy_Client P w _) as [[[]|e] w1].
  - intros H. injection H as <- <- <-. split; [reflexivity|].
    intros u _. eexists. split; reflexivity.
  - destruct (is_Exception e); intros H; injection H as <- <- <-;
      (split; [reflexivity | discriminate]).
Qed.

Lemma load_credentials_trace (file_path : string) (w w' : World)
  (r : result pyval) (tr : list event) :
  _load_credentials P file_path w = Some (r, tr, w') ->
  existsb is_network tr = false /\
  (forall credentials, r = Ok credentials ->
     tr = [] /\ w' = w /\ json_load_file P w file_path = Ok credentials /\
     py_getitem_str credentials "consumer_key"
     <> Ok (PStr "YOUR_CONSUMER_KEY")).
Proof.
  rewrite load_credentials_run.
  destruct (json_load_file P w file_path) as [c|e].
  - destruct (py_getitem_str c "consumer_key") as [ck|e] eqn:Hck.
    + destruct (key_eqb ck (PStr "YOUR_CONSUMER_KEY")) eqn:Hk;
        intros H; injection H as <- <- <-;
        (split; [reflexivity|]); [discriminate|].
      intros c' Hc. injection Hc as <-. repeat split; try reflexivity.
      intros Heq. rewrite Hck in Heq. injection Heq as ->.
      rewrite (proj2 (key_eqb_PStr_iff _ _) eq_refl) in Hk. discriminate Hk.
    + intros H; injection H as <- <- <-. split; [reflexivity|discriminate].
  - destruct (is_JSONDecodeError e).
    + destruct (json_dump_file P w file_path sample_credentials)
        as [[[]|e'] w1]; intros H; injection H as <- <- <-;
        (split; [reflexivity|discriminate]).
    + destruct (is_Exception e); intros H; injection H as <- <- <-;
        (split; [reflexivity|discriminate]).
Qed.

Lemma init_trace (credentials_file : string) (w w' : World)
  (r : result TwitterScraper) (tr : list event) :
  __init__ P credentials_file w = Some (r, tr, w') ->
  existsb is_network tr = false /\
  (forall self, r = Ok self ->
     os_path_exists P w credentials_file = true /\
     json_load_file P w credentials_file = Ok (credentials self) /\
     py_getitem_str (credentials self) "consumer_key"
     <> Ok (PStr "YOUR_CONSUMER_KEY") /\
     data_dir self = "twitter_data" /\
     exists kwargs,
       tr = construction_events kwargs /\
       dict_get kwargs (PStr "wait_on_rate_limit") = Some (PBool true)).
Proof.
  unfold __init__. unfold bind at 1. unfold get_world at 1.
  unfold bind at 1.
  destruct (os_path_exists P w credentials_file) eqn:Hex; cbn [negb];
    cbv beta iota.
  - unfold ret at 1. cbv beta iota. unfold bind at 1.
    destruct (_load_credentials P credentials_file w)
      as [[[[c|e] t1] w1]|] eqn:Hload; try discriminate.
    2:{ intros H. injection H as <- <- <-.
        apply load_credentials_trace in Hload. destruct Hload as [Hn _].
        split; [exact Hn | discriminate]. }
    apply load_credentials_trace in Hload. destruct Hload as [_ Hok].
    destruct (Hok c eq_refl) as [-> [-> [Hfile Hkey]]].
    unfold bind at 1.
    destruct (_authenticate P c w) as [[[[u|e] t2] w2]|] eqn:Hauth;
      try discriminate.
    2:{ intros H. injection H as <- <- <-.
        apply authenticate_trace in Hauth. destruct Hauth as [Hn _].
        split; [exact Hn | discriminate]. }
    apply authenticate_trace in Hauth. destruct Hauth as [_ Hok2].
    destruct (Hok2 u eq_refl) as [kwargs [-> Hwait]].
    unfold bind, makedirs, ret.
    destruct (os_makedirs P w2 "twitter_data") as [[[]|e] w3];
      intros H; injection H as <- <- <-;
      (split; [reflexivity|]); [|discriminate].
    intros self Hself. injection Hself as <-. simpl.
    repeat split; try assumption.
    exists kwargs. split; [reflexivity | exact Hwait].
  - unfold _create_sample_credentials, bind, dump_json, log, emit, py_exit,
      raise.
    destruct (json_dump_file P w credentials_file sample_credentials)
      as [[[]|e] w1]; intros H; injection H as <- <- <-;
      (split; [reflexivity|discriminate]).
Qed.

End Construction.

(** X19.  [__init__] sends no request to the platform.  When it returns a
    scraper, the credentials file existed and the scraper holds what the file
    parsed to, with a [consumer_key] other than the placeholder; the data
    directory is [twitter_data]; and the run did exactly three things: it
    constructed the client with [wait_on_rate_limit=True], logged the
    success and created the data directory. *)
Theorem construction_sends_no_request {World : Type} (P : Platform World)
  (credentials_file : string) (w w' : World) (r : result TwitterScraper)
  (tr : list event) :
  __init__ P credentials_file w = Some (r, tr, w') ->
  existsb is_network tr = false /\
  (forall self, r = Ok self ->
     os_path_exists P w credentials_file = true /\
     json_load_file P w credentials_file = Ok (credentials self) /\
     py_getitem_str (credentials self) "consumer_key"
     <> Ok (PStr "YOUR_CONSUMER_KEY") /\
     data_dir self = "twitter_data" /\
     exists kwargs,
       tr = construction_events kwargs /\
       dict_get kwargs (PStr "wait_on_rate_limit") = Some (PBool true)).
Proof. apply init_trace. Qed.

Lemma construction_sends_no_request_witness :
  exists self tr w',
    __init__ Scripted.platform "twitter_credentials.json"
      Samples.world_two_pages = Some (Ok self, tr, w') /\
    existsb is_network tr = false /\
    data_dir self = "twitter_data" /\
    exists kwargs, tr = construction_events kwargs.
Proof.
  eexists _, _, _. split; [vm_compute; reflexivity|].
  destruct (construction_sends_no_request Scripted.platform
              "twitter_credentials.json" Samples.world_two_pages _ _ _
              ltac:(vm_compute; reflexivity)) as [Hn Hok].
  split; [exact Hn|].
  destruct (Hok _ eq_refl) as [_ [_ [_ [Hdir [kwargs [Htr _]]]]]].
  split; [exact Hdir|]. exists kwargs. exact Htr.
Defined.

(** X20.  A run of [main] that sends a request has first constructed the
    client and created the data directory, in that order and once: its
    trace is the three construction events followed by requests, waits, log
    entries and file writes only. *)
Theorem requests_come_after_construction {World : Type} (P : Platform World)
  (fuel : nat) (usernames : list string) (w w' : World) (r : result unit)
  (tr : list event) :
  main_with P fuel usernames w = Some (r, tr, w') ->
  existsb is_network tr = true ->
  exists kwargs rest,
    tr = construction_events kwargs ++ rest /\
    forallb collection_event rest = true.
Proof.
  unfold main_with. unfold bind at 1.
  destruct (__init__ P "twitter_credentials.json" w)
    as [[[[self|e] t0] w0]|] eqn:Hinit; try discriminate.
  2:{ intros H Hnet. injection H as <- <- <-.
      apply init_trace in Hinit. destruct Hinit as [Hn _].
      rewrite Hn in Hnet. discriminate Hnet. }
  apply init_trace in Hinit. destruct Hinit as [_ Hok].
  destruct (Hok self eq_refl) as [_ [_ [_ [_ [kwargs [-> _]]]]]].
  unfold bind at 1.
  destruct (follow_users P self fuel usernames 50 w0)
    as [[[[data|e] t1] w1]|] eqn:Hfollow; try discriminate.
  2:{ intros H _. injection H as <- <- <-.
      exists kwargs, t1. split; [reflexivity|].
      eapply follow_users_from_events. exact Hfollow. }
  apply follow_users_from_events in Hfollow.
  unfold bind, now_stamp, dump_json, log, emit. cbv beta iota zeta.
  destruct (json_dump_file P w1 _ _) as [[[]|e] w2];
    intros H _; injection H as <- <- <-;
    eexists kwargs, _; (split; [reflexivity|]);
    rewrite forallb_app, Hfollow; reflexivity.
Qed.

Lemma requests_come_after_construction_witness :
  exists tr kwargs rest,
    trace_of (main_with Scripted.platform 3 ["alice"; "bob"]
                Samples.world_two_pages) = tr /\
    tr = construction_events kwargs ++ rest /\
    forallb collection_event rest = true.
Proof.
  destruct (main_with Scripted.platform 3 ["alice"; "bob"]
              Samples.world_two_pages)
    as [[[r tr] w']|] eqn:Hrun; [|vm_compute in Hrun; discriminate Hrun].
  destruct (requests_come_after_construction _ _ _ _ _ _ _ Hrun)
    as [kwargs [rest [Htr Hrest]]].
  - vm_compute in Hrun. injection Hrun as _ <- _. reflexivity.
  - exists tr, kwargs, rest. split; [reflexivity|]. split; assumption.
Defined.

(** X21.  A run of [main] that returns ends with the write of the combined
    file [twitter_data/all_tweets_<timestamp>.json] and two log entries.
    The combined file holds a mapping without repeated handles in which
    every entry is a configured handle with a list of records that the run
    had written to a file before. *)
Theorem combined_file_repeats_the_account_files {World : Type}
  (P : Platform World) (fuel : nat) (usernames : list string) (w w' : World)
  (tr : list event) :
  main_with P fuel usernames w = Some (Ok tt, tr, w') ->
  exists before data w1,
    let combined_file :=
      ("twitter_data/all_tweets_" ++ strftime_now P w1 ++ ".json")%string in
    tr = before ++
         [ EvWriteJson combined_file (PDict data);
           EvLog INFO "Saved combined data to {combined_file}"
             [LStr combined_file];
           EvLog INFO "Execution complete" [] ] /\
    Forall (entry_saved usernames before) data /\
    NoDup (dict_keys data).
Proof.
  unfold main_with. unfold bind at 1.
  destruct (__init__ P "twitter_credentials.json" w)
    as [[[[self|e] t0] w0]|] eqn:Hinit; try discriminate.
  apply init_trace in Hinit. destruct Hinit as [_ Hok].
  destruct (Hok self eq_refl) as [_ [_ [_ [Hdir _]]]].
  unfold bind at 1.
  destruct (follow_users P self fuel usernames 50 w0)
    as [[[[data|e] t1] w1]|] eqn:Hfollow; try discriminate.
  destruct (follow_users_from_saved P self fuel 50 usernames
              [] t0 [] w0 data t1 w1 (Forall_nil _) (NoDup_nil _) Hfollow)
    as [Hsaved Hnodup].
  unfold bind, now_stamp, dump_json, log, emit. cbv beta iota zeta.
  rewrite Hdir.
  destruct (json_dump_file P w1 _ _) as [[[]|e] w2]; try discriminate.
  intros H. injection H as <- <-.
  exists (t0 ++ t1), data, w1. cbv zeta.
  split; [rewrite <- app_assoc; reflexivity|].
  split; assumption.
Qed.

Lemma combined_file_repeats_the_account_files_witness :
  exists tr before data w1,
    trace_of (main_with Scripted.platform 3 ["alice"; "bob"]
                Samples.world_two_pages) = tr /\
    (let combined_file :=
       ("twitter_data/all_tweets_" ++ strftime_now Scripted.platform w1
        ++ ".json")%string in
     tr = before ++
          [ EvWriteJson combined_file (PDict data);
            EvLog INFO "Saved combined data to {combined_file}"
              [LStr combined_file];
            EvLog INFO "Execution complete" [] ] /\
     Forall (entry_saved ["alice"; "bob"] before) data /\
     NoDup (dict_keys data)).
Proof.
  destruct (main_with Scripted.platform 3 ["alice"; "bob"]
              Samples.world_two_pages)
    as [[[r tr] w']|] eqn:Hrun; [|vm_compute in Hrun; discriminate Hrun].
  destruct r as [[]|e]; [|vm_compute in Hrun; discriminate Hrun].
  destruct (combined_file_repeats_the_account_files _ _ _ _ _ _ Hrun)
    as [before [data [w1 H]]].
  exists tr, before, data, w1. split; [reflexivity | exact H].
Defined.
